(** * Verification of Noema/fix_tokenizer.py

    A shallow embedding of the tokenizer repair script: the Python string
    and codec primitives it calls, Unicode canonical composition (NFC), the
    text repair engine, the marker canonicalizer, the structural cleaner,
    the document walker of [main] and the helpers that read and write the
    files, followed by the properties proved about them. *)

From stdpp Require Import base option list gmap strings.
From Stdlib Require Import ZArith Lia.
From Stdlib Require DecimalPos.
Local Open Scope Z_scope.

(** ** Python values: [str] and [bytes]

    A Python [str] is a sequence of code points and a [bytes] object a
    sequence of octets; both are lists of integers here. *)
Abbreviation str := (list Z).
Abbreviation bytes := (list Z).

Module Py.

(** An ASCII literal of the source, as code points. *)
Definition lit (s : string) : str :=
  map (fun a => Z.of_N (Ascii.N_of_ascii a)) (String.list_ascii_of_string s).

Definition eqb (a b : str) : bool := bool_decide (a = b).

Fixpoint startswith (p s : str) : bool :=
  match p, s with
  | [], _ => true
  | _ :: _, [] => false
  | x :: p', y :: s' => (x =? y) && startswith p' s'
  end.

Definition endswith (p s : str) : bool := startswith (rev p) (rev s).

(** [sub in s] *)
Fixpoint contains (sub s : str) : bool :=
  startswith sub s ||
  match s with
  | [] => false
  | _ :: s' => contains sub s'
  end.

(** [s.count(ch)] for a one-character [ch] *)
Definition count (ch : Z) (s : str) : Z :=
  Z.of_nat (length (filter (fun c => c = ch) s)).

(** [s.replace(old, new)] for a non-empty [old]: leftmost occurrences, not
    overlapping.  [skip] counts the characters of a match still to pass. *)
Fixpoint replace_from (old new : str) (skip : nat) (s : str) : str :=
  match s with
  | [] => []
  | c :: s' =>
    match skip with
    | S k => replace_from old new k s'
    | O =>
      if startswith old s
      then new ++ replace_from old new (pred (length old)) s'
      else c :: replace_from old new O s'
    end
  end.

Definition replace (old new s : str) : str := replace_from old new O s.

(** [s.find(ch)] on the text after the current position: the offset of the
    first [ch], if any. *)
Fixpoint find (ch : Z) (s : str) : option nat :=
  match s with
  | [] => None
  | c :: s' => if c =? ch then Some O else S <$> find ch s'
  end.

(** [str.isspace] on one character (Unicode 14): bidirectional type WS, B
    or S, or category Zs. *)
Definition isspace (c : Z) : bool :=
  (0x09 <=? c) && (c <=? 0x0D) || (0x1C <=? c) && (c <=? 0x20) ||
  (c =? 0x85) || (c =? 0xA0) || (c =? 0x1680) ||
  (0x2000 <=? c) && (c <=? 0x200A) || (c =? 0x2028) || (c =? 0x2029) ||
  (c =? 0x202F) || (c =? 0x205F) || (c =? 0x3000).

Fixpoint lstrip (s : str) : str :=
  match s with
  | [] => []
  | c :: s' => if isspace c then lstrip s' else s
  end.

Definition rstrip (s : str) : str := rev (lstrip (rev s)).

(** [s.strip()] *)
Definition strip (s : str) : str := rstrip (lstrip s).

(** [s[i:j]] with Python's treatment of negative and out-of-range bounds. *)
Definition slice_bound (n i : Z) : Z :=
  if i <? 0 then Z.max 0 (i + n) else Z.min i n.

Definition slice (i j : Z) (s : str) : str :=
  let n := Z.of_nat (length s) in
  let lo := slice_bound n i in
  let hi := slice_bound n j in
  take (Z.to_nat (hi - lo)) (drop (Z.to_nat lo) s).

(** *** Codecs *)

(** The [errors] argument of [encode] and [decode]. *)
Inductive errors := strict | ignore.

Inductive codec := latin_1 | cp1252.

(** The characters of cp1252's 0x80..0x9F block; five octets of the block
    are unassigned, and the C1 controls are not encodable. *)
Definition cp1252_high : list (Z * Z) := [
  (0x20AC, 0x80); (0x201A, 0x82); (0x0192, 0x83); (0x201E, 0x84);
  (0x2026, 0x85); (0x2020, 0x86); (0x2021, 0x87); (0x02C6, 0x88);
  (0x2030, 0x89); (0x0160, 0x8A); (0x2039, 0x8B); (0x0152, 0x8C);
  (0x017D, 0x8E); (0x2018, 0x91); (0x2019, 0x92); (0x201C, 0x93);
  (0x201D, 0x94); (0x2022, 0x95); (0x2013, 0x96); (0x2014, 0x97);
  (0x02DC, 0x98); (0x2122, 0x99); (0x0161, 0x9A); (0x203A, 0x9B);
  (0x0153, 0x9C); (0x017E, 0x9E); (0x0178, 0x9F) ].

Definition assoc {A} (k : Z) (t : list (Z * A)) : option A :=
  snd <$> List.find (fun e => fst e =? k) t.

Definition encode_char (c : codec) (ch : Z) : option Z :=
  match c with
  | latin_1 => if (0 <=? ch) && (ch <? 0x100) then Some ch else None
  | cp1252 =>
    if (0 <=? ch) && (ch <? 0x80) || (0xA0 <=? ch) && (ch <? 0x100)
    then Some ch
    else assoc ch cp1252_high
  end.

(** [s.encode(codec, errors)]; [None] is a raised UnicodeEncodeError. *)
Fixpoint encode (c : codec) (e : errors) (s : str) : option bytes :=
  match s with
  | [] => Some []
  | ch :: s' =>
    match encode_char c ch with
    | Some b => cons b <$> encode c e s'
    | None =>
      match e with
      | ignore => encode c e s'
      | strict => None
      end
    end
  end.

Definition is_continuation (b : Z) : bool := (0x80 <=? b) && (b <? 0xC0).

(** The well-formed UTF-8 sequence that starts [bs], if one does: its code
    point and the number of continuation octets.  The ranges are the
    decoder's: no overlong form, no surrogate, nothing above U+10FFFF. *)
Definition utf8_sequence (bs : bytes) : option (Z * nat) :=
  match bs with
  | [] => None
  | ch :: r =>
    if ch <? 0x80 then Some (ch, O)
    else if ch <? 0xC2 then None
    else if ch <? 0xE0 then
      match r with
      | ch2 :: _ =>
        if is_continuation ch2
        then Some (Z.shiftl ch 6 + ch2 - (Z.shiftl 0xC0 6 + 0x80), 1%nat)
        else None
      | _ => None
      end
    else if ch <? 0xF0 then
      match r with
      | ch2 :: ch3 :: _ =>
        if is_continuation ch2
           && negb ((ch =? 0xE0) && (ch2 <? 0xA0))
           && negb ((ch =? 0xED) && (0xA0 <=? ch2))
           && is_continuation ch3
        then Some (Z.shiftl ch 12 + Z.shiftl ch2 6 + ch3
                   - (Z.shiftl 0xE0 12 + Z.shiftl 0x80 6 + 0x80), 2%nat)
        else None
      | _ => None
      end
    else if ch <? 0xF5 then
      match r with
      | ch2 :: ch3 :: ch4 :: _ =>
        if is_continuation ch2
           && negb ((ch =? 0xF0) && (ch2 <? 0x90))
           && negb ((ch =? 0xF4) && (0x90 <=? ch2))
           && is_continuation ch3 && is_continuation ch4
        then Some (Z.shiftl ch 18 + Z.shiftl ch2 12 + Z.shiftl ch3 6 + ch4
                   - (Z.shiftl 0xF0 18 + Z.shiftl 0x80 12 + Z.shiftl 0x80 6 + 0x80),
                   3%nat)
        else None
      | _ => None
      end
    else None
  end.

(** [bs.decode("utf-8", errors)]; [None] is a raised UnicodeDecodeError.
    With [ignore] the octets of an ill-formed or truncated sequence are
    dropped: the lead octet goes, and the continuation octets after it start
    no sequence of their own, so dropping one octet at a time gives the
    decoder's result.  [skip] counts the continuation octets of a sequence
    already decoded. *)
Fixpoint decode_utf8_from (e : errors) (skip : nat) (bs : bytes) : option str :=
  match bs with
  | [] => Some []
  | _ :: bs' =>
    match skip with
    | S k => decode_utf8_from e k bs'
    | O =>
      match utf8_sequence bs with
      | Some (cp, n) => cons cp <$> decode_utf8_from e n bs'
      | None =>
        match e with
        | ignore => decode_utf8_from e O bs'
        | strict => None
        end
      end
    end
  end.

Definition decode_utf8 (e : errors) (bs : bytes) : option str :=
  decode_utf8_from e O bs.

(** [min(xs, key=key)] over keys that are pairs of integers, compared as
    Python compares tuples; the first minimal element wins. *)
Definition key_lt (a b : Z * Z) : bool :=
  (fst a <? fst b) || (fst a =? fst b) && (snd a <? snd b).

Fixpoint min_from {A} (key : A -> Z * Z) (best : A) (xs : list A) : A :=
  match xs with
  | [] => best
  | x :: xs' => min_from key (if key_lt (key x) (key best) then x else best) xs'
  end.

(** [None] is the ValueError of an empty sequence. *)
Definition min_by {A} (key : A -> Z * Z) (xs : list A) : option A :=
  match xs with
  | [] => None
  | x :: xs' => Some (min_from key x xs')
  end.

End Py.

(** ** Unicode canonical composition

    [unicodedata.normalize("NFC", s)]: canonical decomposition, canonical
    ordering of combining marks, canonical composition.  The tables are
    those of the Unicode Character Database 14.0.0: the canonical
    decomposition mappings, expanded to full decompositions, the non-zero
    canonical combining classes as code point ranges, and the primary
    composites (the two-character canonical decompositions that are not
    excluded from composition).  Hangul syllables are computed, not listed. *)
Module Unicode.

Definition canonical_decomposition : list (Z * list Z) := [
  (0x00C0, [0x0041; 0x0300]); (0x00C1, [0x0041; 0x0301]); (0x00C2, [0x0041; 0x0302]); (0x00C3, [0x0041; 0x0303]);
  (0x00C4, [0x0041; 0x0308]); (0x00C5, [0x0041; 0x030A]); (0x00C7, [0x0043; 0x0327]); (0x00C8, [0x0045; 0x0300]);
  (0x00C9, [0x0045; 0x0301]); (0x00CA, [0x0045; 0x0302]); (0x00CB, [0x0045; 0x0308]); (0x00CC, [0x0049; 0x0300]);
  (0x00CD, [0x0049; 0x0301]); (0x00CE, [0x0049; 0x0302]); (0x00CF, [0x0049; 0x0308]); (0x00D1, [0x004E; 0x0303]);
  (0x00D2, [0x004F; 0x0300]); (0x00D3, [0x004F; 0x0301]); (0x00D4, [0x004F; 0x0302]); (0x00D5, [0x004F; 0x0303]);
  (0x00D6, [0x004F; 0x0308]); (0x00D9, [0x0055; 0x0300]); (0x00DA, [0x0055; 0x0301]); (0x00DB, [0x0055; 0x0302]);
  (0x00DC, [0x0055; 0x0308]); (0x00DD, [0x0059; 0x0301]); (0x00E0, [0x0061; 0x0300]); (0x00E1, [0x0061; 0x0301]);
  (0x00E2, [0x0061; 0x0302]); (0x00E3, [0x0061; 0x0303]); (0x00E4, [0x0061; 0x0308]); (0x00E5, [0x0061; 0x030A]);
  (0x00E7, [0x0063; 0x0327]); (0x00E8, [0x0065; 0x0300]); (0x00E9, [0x0065; 0x0301]); (0x00EA, [0x0065; 0x0302]);
  (0x00EB, [0x0065; 0x0308]); (0x00EC, [0x0069; 0x0300]); (0x00ED, [0x0069; 0x0301]); (0x00EE, [0x0069; 0x0302]);
  (0x00EF, [0x0069; 0x0308]); (0x00F1, [0x006E; 0x0303]); (0x00F2, [0x006F; 0x0300]); (0x00F3, [0x006F; 0x0301]);
  (0x00F4, [0x006F; 0x0302]); (0x00F5, [0x006F; 0x0303]); (0x00F6, [0x006F; 0x0308]); (0x00F9, [0x0075; 0x0300]);
  (0x00FA, [0x0075; 0x0301]); (0x00FB, [0x0075; 0x0302]); (0x00FC, [0x0075; 0x0308]); (0x00FD, [0x0079; 0x0301]);
  (0x00FF, [0x0079; 0x0308]); (0x0100, [0x0041; 0x0304]); (0x0101, [0x0061; 0x0304]); (0x0102, [0x0041; 0x0306]);
  (0x0103, [0x0061; 0x0306]); (0x0104, [0x0041; 0x0328]); (0x0105, [0x0061; 0x0328]); (0x0106, [0x0043; 0x0301]);
  (0x0107, [0x0063; 0x0301]); (0x0108, [0x0043; 0x0302]); (0x0109, [0x0063; 0x0302]); (0x010A, [0x0043; 0x0307]);
  (0x010B, [0x0063; 0x0307]); (0x010C, [0x0043; 0x030C]); (0x010D, [0x0063; 0x030C]); (0x010E, [0x0044; 0x030C]);
  (0x010F, [0x0064; 0x030C]); (0x0112, [0x0045; 0x0304]); (0x0113, [0x0065; 0x0304]); (0x0114, [0x0045; 0x0306]);
  (0x0115, [0x0065; 0x0306]); (0x0116, [0x0045; 0x0307]); (0x0117, [0x0065; 0x0307]); (0x0118, [0x0045; 0x0328]);
  (0x0119, [0x0065; 0x0328]); (0x011A, [0x0045; 0x030C]); (0x011B, [0x0065; 0x030C]); (0x011C, [0x0047; 0x0302]);
  (0x011D, [0x0067; 0x0302]); (0x011E, [0x0047; 0x0306]); (0x011F, [0x0067; 0x0306]); (0x0120, [0x0047; 0x0307]);
  (0x0121, [0x0067; 0x0307]); (0x0122, [0x0047; 0x0327]); (0x0123, [0x0067; 0x0327]); (0x0124, [0x0048; 0x0302]);
  (0x0125, [0x0068; 0x0302]); (0x0128, [0x0049; 0x0303]); (0x0129, [0x0069; 0x0303]); (0x012A, [0x0049; 0x0304]);
  (0x012B, [0x0069; 0x0304]); (0x012C, [0x0049; 0x0306]); (0x012D, [0x0069; 0x0306]); (0x012E, [0x0049; 0x0328]);
  (0x012F, [0x0069; 0x0328]); (0x0130, [0x0049; 0x0307]); (0x0134, [0x004A; 0x0302]); (0x0135, [0x006A; 0x0302]);
  (0x0136, [0x004B; 0x0327]); (0x0137, [0x006B; 0x0327]); (0x0139, [0x004C; 0x0301]); (0x013A, [0x006C; 0x0301]);
  (0x013B, [0x004C; 0x0327]); (0x013C, [0x006C; 0x0327]); (0x013D, [0x004C; 0x030C]); (0x013E, [0x006C; 0x030C]);
  (0x0143, [0x004E; 0x0301]); (0x0144, [0x006E; 0x0301]); (0x0145, [0x004E; 0x0327]); (0x0146, [0x006E; 0x0327]);
  (0x0147, [0x004E; 0x030C]); (0x0148, [0x006E; 0x030C]); (0x014C, [0x004F; 0x0304]); (0x014D, [0x006F; 0x0304]);
  (0x014E, [0x004F; 0x0306]); (0x014F, [0x006F; 0x0306]); (0x0150, [0x004F; 0x030B]); (0x0151, [0x006F; 0x030B]);
  (0x0154, [0x0052; 0x0301]); (0x0155, [0x0072; 0x0301]); (0x0156, [0x0052; 0x0327]); (0x0157, [0x0072; 0x0327]);
  (0x0158, [0x0052; 0x030C]); (0x0159, [0x0072; 0x030C]); (0x015A, [0x0053; 0x0301]); (0x015B, [0x0073; 0x0301]);
  (0x015C, [0x0053; 0x0302]); (0x015D, [0x0073; 0x0302]); (0x015E, [0x0053; 0x0327]); (0x015F, [0x0073; 0x0327]);
  (0x0160, [0x0053; 0x030C]); (0x0161, [0x0073; 0x030C]); (0x0162, [0x0054; 0x0327]); (0x0163, [0x0074; 0x0327]);
  (0x0164, [0x0054; 0x030C]); (0x0165, [0x0074; 0x030C]); (0x0168, [0x0055; 0x0303]); (0x0169, [0x0075; 0x0303]);
  (0x016A, [0x0055; 0x0304]); (0x016B, [0x0075; 0x0304]); (0x016C, [0x0055; 0x0306]); (0x016D, [0x0075; 0x0306]);
  (0x016E, [0x0055; 0x030A]); (0x016F, [0x0075; 0x030A]); (0x0170, [0x0055; 0x030B]); (0x0171, [0x0075; 0x030B]);
  (0x0172, [0x0055; 0x0328]); (0x0173, [0x0075; 0x0328]); (0x0174, [0x0057; 0x0302]); (0x0175, [0x0077; 0x0302]);
  (0x0176, [0x0059; 0x0302]); (0x0177, [0x0079; 0x0302]); (0x0178, [0x0059; 0x0308]); (0x0179, [0x005A; 0x0301]);
  (0x017A, [0x007A; 0x0301]); (0x017B, [0x005A; 0x0307]); (0x017C, [0x007A; 0x0307]); (0x017D, [0x005A; 0x030C]);
  (0x017E, [0x007A; 0x030C]); (0x01A0, [0x004F; 0x031B]); (0x01A1, [0x006F; 0x031B]); (0x01AF, [0x0055; 0x031B]);
  (0x01B0, [0x0075; 0x031B]); (0x01CD, [0x0041; 0x030C]); (0x01CE, [0x0061; 0x030C]); (0x01CF, [0x0049; 0x030C]);
  (0x01D0, [0x0069; 0x030C]); (0x01D1, [0x004F; 0x030C]); (0x01D2, [0x006F; 0x030C]); (0x01D3, [0x0055; 0x030C]);
  (0x01D4, [0x0075; 0x030C]); (0x01D5, [0x0055; 0x0308; 0x0304]); (0x01D6, [0x0075; 0x0308; 0x0304]); (0x01D7, [0x0055; 0x0308; 0x0301]);
  (0x01D8, [0x0075; 0x0308; 0x0301]); (0x01D9, [0x0055; 0x0308; 0x030C]); (0x01DA, [0x0075; 0x0308; 0x030C]); (0x01DB, [0x0055; 0x0308; 0x0300]);
  (0x01DC, [0x0075; 0x0308; 0x0300]); (0x01DE, [0x0041; 0x0308; 0x0304]); (0x01DF, [0x0061; 0x0308; 0x0304]); (0x01E0, [0x0041; 0x0307; 0x0304]);
  (0x01E1, [0x0061; 0x0307; 0x0304]); (0x01E2, [0x00C6; 0x0304]); (0x01E3, [0x00E6; 0x0304]); (0x01E6, [0x0047; 0x030C]);
  (0x01E7, [0x0067; 0x030C]); (0x01E8, [0x004B; 0x030C]); (0x01E9, [0x006B; 0x030C]); (0x01EA, [0x004F; 0x0328]);
  (0x01EB, [0x006F; 0x0328]); (0x01EC, [0x004F; 0x0328; 0x0304]); (0x01ED, [0x006F; 0x0328; 0x0304]); (0x01EE, [0x01B7; 0x030C]);
  (0x01EF, [0x0292; 0x030C]); (0x01F0, [0x006A; 0x030C]); (0x01F4, [0x0047; 0x0301]); (0x01F5, [0x0067; 0x0301]);
  (0x01F8, [0x004E; 0x0300]); (0x01F9, [0x006E; 0x0300]); (0x01FA, [0x0041; 0x030A; 0x0301]); (0x01FB, [0x0061; 0x030A; 0x0301]);
  (0x01FC, [0x00C6; 0x0301]); (0x01FD, [0x00E6; 0x0301]); (0x01FE, [0x00D8; 0x0301]); (0x01FF, [0x00F8; 0x0301]);
  (0x0200, [0x0041; 0x030F]); (0x0201, [0x0061; 0x030F]); (0x0202, [0x0041; 0x0311]); (0x0203, [0x0061; 0x0311]);
  (0x0204, [0x0045; 0x030F]); (0x0205, [0x0065; 0x030F]); (0x0206, [0x0045; 0x0311]); (0x0207, [0x0065; 0x0311]);
  (0x0208, [0x0049; 0x030F]); (0x0209, [0x0069; 0x030F]); (0x020A, [0x0049; 0x0311]); (0x020B, [0x0069; 0x0311]);
  (0x020C, [0x004F; 0x030F]); (0x020D, [0x006F; 0x030F]); (0x020E, [0x004F; 0x0311]); (0x020F, [0x006F; 0x0311]);
  (0x0210, [0x0052; 0x030F]); (0x0211, [0x0072; 0x030F]); (0x0212, [0x0052; 0x0311]); (0x0213, [0x0072; 0x0311]);
  (0x0214, [0x0055; 0x030F]); (0x0215, [0x0075; 0x030F]); (0x0216, [0x0055; 0x0311]); (0x0217, [0x0075; 0x0311]);
  (0x0218, [0x0053; 0x0326]); (0x0219, [0x0073; 0x0326]); (0x021A, [0x0054; 0x0326]); (0x021B, [0x0074; 0x0326]);
  (0x021E, [0x0048; 0x030C]); (0x021F, [0x0068; 0x030C]); (0x0226, [0x0041; 0x0307]); (0x0227, [0x0061; 0x0307]);
  (0x0228, [0x0045; 0x0327]); (0x0229, [0x0065; 0x0327]); (0x022A, [0x004F; 0x0308; 0x0304]); (0x022B, [0x006F; 0x0308; 0x0304]);
  (0x022C, [0x004F; 0x0303; 0x0304]); (0x022D, [0x006F; 0x0303; 0x0304]); (0x022E, [0x004F; 0x0307]); (0x022F, [0x006F; 0x0307]);
  (0x0230, [0x004F; 0x0307; 0x0304]); (0x0231, [0x006F; 0x0307; 0x0304]); (0x0232, [0x0059; 0x0304]); (0x0233, [0x0079; 0x0304]);
  (0x0340, [0x0300]); (0x0341, [0x0301]); (0x0343, [0x0313]); (0x0344, [0x0308; 0x0301]);
  (0x0374, [0x02B9]); (0x037E, [0x003B]); (0x0385, [0x00A8; 0x0301]); (0x0386, [0x0391; 0x0301]);
  (0x0387, [0x00B7]); (0x0388, [0x0395; 0x0301]); (0x0389, [0x0397; 0x0301]); (0x038A, [0x0399; 0x0301]);
  (0x038C, [0x039F; 0x0301]); (0x038E, [0x03A5; 0x0301]); (0x038F, [0x03A9; 0x0301]); (0x0390, [0x03B9; 0x0308; 0x0301]);
  (0x03AA, [0x0399; 0x0308]); (0x03AB, [0x03A5; 0x0308]); (0x03AC, [0x03B1; 0x0301]); (0x03AD, [0x03B5; 0x0301]);
  (0x03AE, [0x03B7; 0x0301]); (0x03AF, [0x03B9; 0x0301]); (0x03B0, [0x03C5; 0x0308; 0x0301]); (0x03CA, [0x03B9; 0x0308]);
  (0x03CB, [0x03C5; 0x0308]); (0x03CC, [0x03BF; 0x0301]); (0x03CD, [0x03C5; 0x0301]); (0x03CE, [0x03C9; 0x0301]);
  (0x03D3, [0x03D2; 0x0301]); (0x03D4, [0x03D2; 0x0308]); (0x0400, [0x0415; 0x0300]); (0x0401, [0x0415; 0x0308]);
  (0x0403, [0x0413; 0x0301]); (0x0407, [0x0406; 0x0308]); (0x040C, [0x041A; 0x0301]); (0x040D, [0x0418; 0x0300]);
  (0x040E, [0x0423; 0x0306]); (0x0419, [0x0418; 0x0306]); (0x0439, [0x0438; 0x0306]); (0x0450, [0x0435; 0x0300]);
  (0x0451, [0x0435; 0x0308]); (0x0453, [0x0433; 0x0301]); (0x0457, [0x0456; 0x0308]); (0x045C, [0x043A; 0x0301]);
  (0x045D, [0x0438; 0x0300]); (0x045E, [0x0443; 0x0306]); (0x0476, [0x0474; 0x030F]); (0x0477, [0x0475; 0x030F]);
  (0x04C1, [0x0416; 0x0306]); (0x04C2, [0x0436; 0x0306]); (0x04D0, [0x0410; 0x0306]); (0x04D1, [0x0430; 0x0306]);
  (0x04D2, [0x0410; 0x0308]); (0x04D3, [0x0430; 0x0308]); (0x04D6, [0x0415; 0x0306]); (0x04D7, [0x0435; 0x0306]);
  (0x04DA, [0x04D8; 0x0308]); (0x04DB, [0x04D9; 0x0308]); (0x04DC, [0x0416; 0x0308]); (0x04DD, [0x0436; 0x0308]);
  (0x04DE, [0x0417; 0x0308]); (0x04DF, [0x0437; 0x0308]); (0x04E2, [0x0418; 0x0304]); (0x04E3, [0x0438; 0x0304]);
  (0x04E4, [0x0418; 0x0308]); (0x04E5, [0x0438; 0x0308]); (0x04E6, [0x041E; 0x0308]); (0x04E7, [0x043E; 0x0308]);
  (0x04EA, [0x04E8; 0x0308]); (0x04EB, [0x04E9; 0x0308]); (0x04EC, [0x042D; 0x0308]); (0x04ED, [0x044D; 0x0308]);
  (0x04EE, [0x0423; 0x0304]); (0x04EF, [0x0443; 0x0304]); (0x04F0, [0x0423; 0x0308]); (0x04F1, [0x0443; 0x0308]);
  (0x04F2, [0x0423; 0x030B]); (0x04F3, [0x0443; 0x030B]); (0x04F4, [0x0427; 0x0308]); (0x04F5, [0x0447; 0x0308]);
  (0x04F8, [0x042B; 0x0308]); (0x04F9, [0x044B; 0x0308]); (0x0622, [0x0627; 0x0653]); (0x0623, [0x0627; 0x0654]);
  (0x0624, [0x0648; 0x0654]); (0x0625, [0x0627; 0x0655]); (0x0626, [0x064A; 0x0654]); (0x06C0, [0x06D5; 0x0654]);
  (0x06C2, [0x06C1; 0x0654]); (0x06D3, [0x06D2; 0x0654]); (0x0929, [0x0928; 0x093C]); (0x0931, [0x0930; 0x093C]);
  (0x0934, [0x0933; 0x093C]); (0x0958, [0x0915; 0x093C]); (0x0959, [0x0916; 0x093C]); (0x095A, [0x0917; 0x093C]);
  (0x095B, [0x091C; 0x093C]); (0x095C, [0x0921; 0x093C]); (0x095D, [0x0922; 0x093C]); (0x095E, [0x092B; 0x093C]);
  (0x095F, [0x092F; 0x093C]); (0x09CB, [0x09C7; 0x09BE]); (0x09CC, [0x09C7; 0x09D7]); (0x09DC, [0x09A1; 0x09BC]);
  (0x09DD, [0x09A2; 0x09BC]); (0x09DF, [0x09AF; 0x09BC]); (0x0A33, [0x0A32; 0x0A3C]); (0x0A36, [0x0A38; 0x0A3C]);
  (0x0A59, [0x0A16; 0x0A3C]); (0x0A5A, [0x0A17; 0x0A3C]); (0x0A5B, [0x0A1C; 0x0A3C]); (0x0A5E, [0x0A2B; 0x0A3C]);
  (0x0B48, [0x0B47; 0x0B56]); (0x0B4B, [0x0B47; 0x0B3E]); (0x0B4C, [0x0B47; 0x0B57]); (0x0B5C, [0x0B21; 0x0B3C]);
  (0x0B5D, [0x0B22; 0x0B3C]); (0x0B94, [0x0B92; 0x0BD7]); (0x0BCA, [0x0BC6; 0x0BBE]); (0x0BCB, [0x0BC7; 0x0BBE]);
  (0x0BCC, [0x0BC6; 0x0BD7]); (0x0C48, [0x0C46; 0x0C56]); (0x0CC0, [0x0CBF; 0x0CD5]); (0x0CC7, [0x0CC6; 0x0CD5]);
  (0x0CC8, [0x0CC6; 0x0CD6]); (0x0CCA, [0x0CC6; 0x0CC2]); (0x0CCB, [0x0CC6; 0x0CC2; 0x0CD5]); (0x0D4A, [0x0D46; 0x0D3E]);
  (0x0D4B, [0x0D47; 0x0D3E]); (0x0D4C, [0x0D46; 0x0D57]); (0x0DDA, [0x0DD9; 0x0DCA]); (0x0DDC, [0x0DD9; 0x0DCF]);
  (0x0DDD, [0x0DD9; 0x0DCF; 0x0DCA]); (0x0DDE, [0x0DD9; 0x0DDF]); (0x0F43, [0x0F42; 0x0FB7]); (0x0F4D, [0x0F4C; 0x0FB7]);
  (0x0F52, [0x0F51; 0x0FB7]); (0x0F57, [0x0F56; 0x0FB7]); (0x0F5C, [0x0F5B; 0x0FB7]); (0x0F69, [0x0F40; 0x0FB5]);
  (0x0F73, [0x0F71; 0x0F72]); (0x0F75, [0x0F71; 0x0F74]); (0x0F76, [0x0FB2; 0x0F80]); (0x0F78, [0x0FB3; 0x0F80]);
  (0x0F81, [0x0F71; 0x0F80]); (0x0F93, [0x0F92; 0x0FB7]); (0x0F9D, [0x0F9C; 0x0FB7]); (0x0FA2, [0x0FA1; 0x0FB7]);
  (0x0FA7, [0x0FA6; 0x0FB7]); (0x0FAC, [0x0FAB; 0x0FB7]); (0x0FB9, [0x0F90; 0x0FB5]); (0x1026, [0x1025; 0x102E]);
  (0x1B06, [0x1B05; 0x1B35]); (0x1B08, [0x1B07; 0x1B35]); (0x1B0A, [0x1B09; 0x1B35]); (0x1B0C, [0x1B0B; 0x1B35]);
  (0x1B0E, [0x1B0D; 0x1B35]); (0x1B12, [0x1B11; 0x1B35]); (0x1B3B, [0x1B3A; 0x1B35]); (0x1B3D, [0x1B3C; 0x1B35]);
  (0x1B40, [0x1B3E; 0x1B35]); (0x1B41, [0x1B3F; 0x1B35]); (0x1B43, [0x1B42; 0x1B35]); (0x1E00, [0x0041; 0x0325]);
  (0x1E01, [0x0061; 0x0325]); (0x1E02, [0x0042; 0x0307]); (0x1E03, [0x0062; 0x0307]); (0x1E04, [0x0042; 0x0323]);
  (0x1E05, [0x0062; 0x0323]); (0x1E06, [0x0042; 0x0331]); (0x1E07, [0x0062; 0x0331]); (0x1E08, [0x0043; 0x0327; 0x0301]);
  (0x1E09, [0x0063; 0x0327; 0x0301]); (0x1E0A, [0x0044; 0x0307]); (0x1E0B, [0x0064; 0x0307]); (0x1E0C, [0x0044; 0x0323]);
  (0x1E0D, [0x0064; 0x0323]); (0x1E0E, [0x0044; 0x0331]); (0x1E0F, [0x0064; 0x0331]); (0x1E10, [0x0044; 0x0327]);
  (0x1E11, [0x0064; 0x0327]); (0x1E12, [0x0044; 0x032D]); (0x1E13, [0x0064; 0x032D]); (0x1E14, [0x0045; 0x0304; 0x0300]);
  (0x1E15, [0x0065; 0x0304; 0x0300]); (0x1E16, [0x0045; 0x0304; 0x0301]); (0x1E17, [0x0065; 0x0304; 0x0301]); (0x1E18, [0x0045; 0x032D]);
  (0x1E19, [0x0065; 0x032D]); (0x1E1A, [0x0045; 0x0330]); (0x1E1B, [0x0065; 0x0330]); (0x1E1C, [0x0045; 0x0327; 0x0306]);
  (0x1E1D, [0x0065; 0x0327; 0x0306]); (0x1E1E, [0x0046; 0x0307]); (0x1E1F, [0x0066; 0x0307]); (0x1E20, [0x0047; 0x0304]);
  (0x1E21, [0x0067; 0x0304]); (0x1E22, [0x0048; 0x0307]); (0x1E23, [0x0068; 0x0307]); (0x1E24, [0x0048; 0x0323]);
  (0x1E25, [0x0068; 0x0323]); (0x1E26, [0x0048; 0x0308]); (0x1E27, [0x0068; 0x0308]); (0x1E28, [0x0048; 0x0327]);
  (0x1E29, [0x0068; 0x0327]); (0x1E2A, [0x0048; 0x032E]); (0x1E2B, [0x0068; 0x032E]); (0x1E2C, [0x0049; 0x0330]);
  (0x1E2D, [0x0069; 0x0330]); (0x1E2E, [0x0049; 0x0308; 0x0301]); (0x1E2F, [0x0069; 0x0308; 0x0301]); (0x1E30, [0x004B; 0x0301]);
  (0x1E31, [0x006B; 0x0301]); (0x1E32, [0x004B; 0x0323]); (0x1E33, [0x006B; 0x0323]); (0x1E34, [0x004B; 0x0331]);
  (0x1E35, [0x006B; 0x0331]); (0x1E36, [0x004C; 0x0323]); (0x1E37, [0x006C; 0x0323]); (0x1E38, [0x004C; 0x0323; 0x0304]);
  (0x1E39, [0x006C; 0x0323; 0x0304]); (0x1E3A, [0x004C; 0x0331]); (0x1E3B, [0x006C; 0x0331]); (0x1E3C, [0x004C; 0x032D]);
  (0x1E3D, [0x006C; 0x032D]); (0x1E3E, [0x004D; 0x0301]); (0x1E3F, [0x006D; 0x0301]); (0x1E40, [0x004D; 0x0307]);
  (0x1E41, [0x006D; 0x0307]); (0x1E42, [0x004D; 0x0323]); (0x1E43, [0x006D; 0x0323]); (0x1E44, [0x004E; 0x0307]);
  (0x1E45, [0x006E; 0x0307]); (0x1E46, [0x004E; 0x0323]); (0x1E47, [0x006E; 0x0323]); (0x1E48, [0x004E; 0x0331]);
  (0x1E49, [0x006E; 0x0331]); (0x1E4A, [0x004E; 0x032D]); (0x1E4B, [0x006E; 0x032D]); (0x1E4C, [0x004F; 0x0303; 0x0301]);
  (0x1E4D, [0x006F; 0x0303; 0x0301]); (0x1E4E, [0x004F; 0x0303; 0x0308]); (0x1E4F, [0x006F; 0x0303; 0x0308]); (0x1E50, [0x004F; 0x0304; 0x0300]);
  (0x1E51, [0x006F; 0x0304; 0x0300]); (0x1E52, [0x004F; 0x0304; 0x0301]); (0x1E53, [0x006F; 0x0304; 0x0301]); (0x1E54, [0x0050; 0x0301]);
  (0x1E55, [0x0070; 0x0301]); (0x1E56, [0x0050; 0x0307]); (0x1E57, [0x0070; 0x0307]); (0x1E58, [0x0052; 0x0307]);
  (0x1E59, [0x0072; 0x0307]); (0x1E5A, [0x0052; 0x0323]); (0x1E5B, [0x0072; 0x0323]); (0x1E5C, [0x0052; 0x0323; 0x0304]);
  (0x1E5D, [0x0072; 0x0323; 0x0304]); (0x1E5E, [0x0052; 0x0331]); (0x1E5F, [0x0072; 0x0331]); (0x1E60, [0x0053; 0x0307]);
  (0x1E61, [0x0073; 0x0307]); (0x1E62, [0x0053; 0x0323]); (0x1E63, [0x0073; 0x0323]); (0x1E64, [0x0053; 0x0301; 0x0307]);
  (0x1E65, [0x0073; 0x0301; 0x0307]); (0x1E66, [0x0053; 0x030C; 0x0307]); (0x1E67, [0x0073; 0x030C; 0x0307]); (0x1E68, [0x0053; 0x0323; 0x0307]);
  (0x1E69, [0x0073; 0x0323; 0x0307]); (0x1E6A, [0x0054; 0x0307]); (0x1E6B, [0x0074; 0x0307]); (0x1E6C, [0x0054; 0x0323]);
  (0x1E6D, [0x0074; 0x0323]); (0x1E6E, [0x0054; 0x0331]); (0x1E6F, [0x0074; 0x0331]); (0x1E70, [0x0054; 0x032D]);
  (0x1E71, [0x0074; 0x032D]); (0x1E72, [0x0055; 0x0324]); (0x1E73, [0x0075; 0x0324]); (0x1E74, [0x0055; 0x0330]);
  (0x1E75, [0x0075; 0x0330]); (0x1E76, [0x0055; 0x032D]); (0x1E77, [0x0075; 0x032D]); (0x1E78, [0x0055; 0x0303; 0x0301]);
  (0x1E79, [0x0075; 0x0303; 0x0301]); (0x1E7A, [0x0055; 0x0304; 0x0308]); (0x1E7B, [0x0075; 0x0304; 0x0308]); (0x1E7C, [0x0056; 0x0303]);
  (0x1E7D, [0x0076; 0x0303]); (0x1E7E, [0x0056; 0x0323]); (0x1E7F, [0x0076; 0x0323]); (0x1E80, [0x0057; 0x0300]);
  (0x1E81, [0x0077; 0x0300]); (0x1E82, [0x0057; 0x0301]); (0x1E83, [0x0077; 0x0301]); (0x1E84, [0x0057; 0x0308]);
  (0x1E85, [0x0077; 0x0308]); (0x1E86, [0x0057; 0x0307]); (0x1E87, [0x0077; 0x0307]); (0x1E88, [0x0057; 0x0323]);
  (0x1E89, [0x0077; 0x0323]); (0x1E8A, [0x0058; 0x0307]); (0x1E8B, [0x0078; 0x0307]); (0x1E8C, [0x0058; 0x0308]);
  (0x1E8D, [0x0078; 0x0308]); (0x1E8E, [0x0059; 0x0307]); (0x1E8F, [0x0079; 0x0307]); (0x1E90, [0x005A; 0x0302]);
  (0x1E91, [0x007A; 0x0302]); (0x1E92, [0x005A; 0x0323]); (0x1E93, [0x007A; 0x0323]); (0x1E94, [0x005A; 0x0331]);
  (0x1E95, [0x007A; 0x0331]); (0x1E96, [0x0068; 0x0331]); (0x1E97, [0x0074; 0x0308]); (0x1E98, [0x0077; 0x030A]);
  (0x1E99, [0x0079; 0x030A]); (0x1E9B, [0x017F; 0x0307]); (0x1EA0, [0x0041; 0x0323]); (0x1EA1, [0x0061; 0x0323]);
  (0x1EA2, [0x0041; 0x0309]); (0x1EA3, [0x0061; 0x0309]); (0x1EA4, [0x0041; 0x0302; 0x0301]); (0x1EA5, [0x0061; 0x0302; 0x0301]);
  (0x1EA6, [0x0041; 0x0302; 0x0300]); (0x1EA7, [0x0061; 0x0302; 0x0300]); (0x1EA8, [0x0041; 0x0302; 0x0309]); (0x1EA9, [0x0061; 0x0302; 0x0309]);
  (0x1EAA, [0x0041; 0x0302; 0x0303]); (0x1EAB, [0x0061; 0x0302; 0x0303]); (0x1EAC, [0x0041; 0x0323; 0x0302]); (0x1EAD, [0x0061; 0x0323; 0x0302]);
  (0x1EAE, [0x0041; 0x0306; 0x0301]); (0x1EAF, [0x0061; 0x0306; 0x0301]); (0x1EB0, [0x0041; 0x0306; 0x0300]); (0x1EB1, [0x0061; 0x0306; 0x0300]);
  (0x1EB2, [0x0041; 0x0306; 0x0309]); (0x1EB3, [0x0061; 0x0306; 0x0309]); (0x1EB4, [0x0041; 0x0306; 0x0303]); (0x1EB5, [0x0061; 0x0306; 0x0303]);
  (0x1EB6, [0x0041; 0x0323; 0x0306]); (0x1EB7, [0x0061; 0x0323; 0x0306]); (0x1EB8, [0x0045; 0x0323]); (0x1EB9, [0x0065; 0x0323]);
  (0x1EBA, [0x0045; 0x0309]); (0x1EBB, [0x0065; 0x0309]); (0x1EBC, [0x0045; 0x0303]); (0x1EBD, [0x0065; 0x0303]);
  (0x1EBE, [0x0045; 0x0302; 0x0301]); (0x1EBF, [0x0065; 0x0302; 0x0301]); (0x1EC0, [0x0045; 0x0302; 0x0300]); (0x1EC1, [0x0065; 0x0302; 0x0300]);
  (0x1EC2, [0x0045; 0x0302; 0x0309]); (0x1EC3, [0x0065; 0x0302; 0x0309]); (0x1EC4, [0x0045; 0x0302; 0x0303]); (0x1EC5, [0x0065; 0x0302; 0x0303]);
  (0x1EC6, [0x0045; 0x0323; 0x0302]); (0x1EC7, [0x0065; 0x0323; 0x0302]); (0x1EC8, [0x0049; 0x0309]); (0x1EC9, [0x0069; 0x0309]);
  (0x1ECA, [0x0049; 0x0323]); (0x1ECB, [0x0069; 0x0323]); (0x1ECC, [0x004F; 0x0323]); (0x1ECD, [0x006F; 0x0323]);
  (0x1ECE, [0x004F; 0x0309]); (0x1ECF, [0x006F; 0x0309]); (0x1ED0, [0x004F; 0x0302; 0x0301]); (0x1ED1, [0x006F; 0x0302; 0x0301]);
  (0x1ED2, [0x004F; 0x0302; 0x0300]); (0x1ED3, [0x006F; 0x0302; 0x0300]); (0x1ED4, [0x004F; 0x0302; 0x0309]); (0x1ED5, [0x006F; 0x0302; 0x0309]);
  (0x1ED6, [0x004F; 0x0302; 0x0303]); (0x1ED7, [0x006F; 0x0302; 0x0303]); (0x1ED8, [0x004F; 0x0323; 0x0302]); (0x1ED9, [0x006F; 0x0323; 0x0302]);
  (0x1EDA, [0x004F; 0x031B; 0x0301]); (0x1EDB, [0x006F; 0x031B; 0x0301]); (0x1EDC, [0x004F; 0x031B; 0x0300]); (0x1EDD, [0x006F; 0x031B; 0x0300]);
  (0x1EDE, [0x004F; 0x031B; 0x0309]); (0x1EDF, [0x006F; 0x031B; 0x0309]); (0x1EE0, [0x004F; 0x031B; 0x0303]); (0x1EE1, [0x006F; 0x031B; 0x0303]);
  (0x1EE2, [0x004F; 0x031B; 0x0323]); (0x1EE3, [0x006F; 0x031B; 0x0323]); (0x1EE4, [0x0055; 0x0323]); (0x1EE5, [0x0075; 0x0323]);
  (0x1EE6, [0x0055; 0x0309]); (0x1EE7, [0x0075; 0x0309]); (0x1EE8, [0x0055; 0x031B; 0x0301]); (0x1EE9, [0x0075; 0x031B; 0x0301]);
  (0x1EEA, [0x0055; 0x031B; 0x0300]); (0x1EEB, [0x0075; 0x031B; 0x0300]); (0x1EEC, [0x0055; 0x031B; 0x0309]); (0x1EED, [0x0075; 0x031B; 0x0309]);
  (0x1EEE, [0x0055; 0x031B; 0x0303]); (0x1EEF, [0x0075; 0x031B; 0x0303]); (0x1EF0, [0x0055; 0x031B; 0x0323]); (0x1EF1, [0x0075; 0x031B; 0x0323]);
  (0x1EF2, [0x0059; 0x0300]); (0x1EF3, [0x0079; 0x0300]); (0x1EF4, [0x0059; 0x0323]); (0x1EF5, [0x0079; 0x0323]);
  (0x1EF6, [0x0059; 0x0309]); (0x1EF7, [0x0079; 0x0309]); (0x1EF8, [0x0059; 0x0303]); (0x1EF9, [0x0079; 0x0303]);
  (0x1F00, [0x03B1; 0x0313]); (0x1F01, [0x03B1; 0x0314]); (0x1F02, [0x03B1; 0x0313; 0x0300]); (0x1F03, [0x03B1; 0x0314; 0x0300]);
  (0x1F04, [0x03B1; 0x0313; 0x0301]); (0x1F05, [0x03B1; 0x0314; 0x0301]); (0x1F06, [0x03B1; 0x0313; 0x0342]); (0x1F07, [0x03B1; 0x0314; 0x0342]);
  (0x1F08, [0x0391; 0x0313]); (0x1F09, [0x0391; 0x0314]); (0x1F0A, [0x0391; 0x0313; 0x0300]); (0x1F0B, [0x0391; 0x0314; 0x0300]);
  (0x1F0C, [0x0391; 0x0313; 0x0301]); (0x1F0D, [0x0391; 0x0314; 0x0301]); (0x1F0E, [0x0391; 0x0313; 0x0342]); (0x1F0F, [0x0391; 0x0314; 0x0342]);
  (0x1F10, [0x03B5; 0x0313]); (0x1F11, [0x03B5; 0x0314]); (0x1F12, [0x03B5; 0x0313; 0x0300]); (0x1F13, [0x03B5; 0x0314; 0x0300]);
  (0x1F14, [0x03B5; 0x0313; 0x0301]); (0x1F15, [0x03B5; 0x0314; 0x0301]); (0x1F18, [0x0395; 0x0313]); (0x1F19, [0x0395; 0x0314]);
  (0x1F1A, [0x0395; 0x0313; 0x0300]); (0x1F1B, [0x0395; 0x0314; 0x0300]); (0x1F1C, [0x0395; 0x0313; 0x0301]); (0x1F1D, [0x0395; 0x0314; 0x0301]);
  (0x1F20, [0x03B7; 0x0313]); (0x1F21, [0x03B7; 0x0314]); (0x1F22, [0x03B7; 0x0313; 0x0300]); (0x1F23, [0x03B7; 0x0314; 0x0300]);
  (0x1F24, [0x03B7; 0x0313; 0x0301]); (0x1F25, [0x03B7; 0x0314; 0x0301]); (0x1F26, [0x03B7; 0x0313; 0x0342]); (0x1F27, [0x03B7; 0x0314; 0x0342]);
  (0x1F28, [0x0397; 0x0313]); (0x1F29, [0x0397; 0x0314]); (0x1F2A, [0x0397; 0x0313; 0x0300]); (0x1F2B, [0x0397; 0x0314; 0x0300]);
  (0x1F2C, [0x0397; 0x0313; 0x0301]); (0x1F2D, [0x0397; 0x0314; 0x0301]); (0x1F2E, [0x0397; 0x0313; 0x0342]); (0x1F2F, [0x0397; 0x0314; 0x0342]);
  (0x1F30, [0x03B9; 0x0313]); (0x1F31, [0x03B9; 0x0314]); (0x1F32, [0x03B9; 0x0313; 0x0300]); (0x1F33, [0x03B9; 0x0314; 0x0300]);
  (0x1F34, [0x03B9; 0x0313; 0x0301]); (0x1F35, [0x03B9; 0x0314; 0x0301]); (0x1F36, [0x03B9; 0x0313; 0x0342]); (0x1F37, [0x03B9; 0x0314; 0x0342]);
  (0x1F38, [0x0399; 0x0313]); (0x1F39, [0x0399; 0x0314]); (0x1F3A, [0x0399; 0x0313; 0x0300]); (0x1F3B, [0x0399; 0x0314; 0x0300]);
  (0x1F3C, [0x0399; 0x0313; 0x0301]); (0x1F3D, [0x0399; 0x0314; 0x0301]); (0x1F3E, [0x0399; 0x0313; 0x0342]); (0x1F3F, [0x0399; 0x0314; 0x0342]);
  (0x1F40, [0x03BF; 0x0313]); (0x1F41, [0x03BF; 0x0314]); (0x1F42, [0x03BF; 0x0313; 0x0300]); (0x1F43, [0x03BF; 0x0314; 0x0300]);
  (0x1F44, [0x03BF; 0x0313; 0x0301]); (0x1F45, [0x03BF; 0x0314; 0x0301]); (0x1F48, [0x039F; 0x0313]); (0x1F49, [0x039F; 0x0314]);
  (0x1F4A, [0x039F; 0x0313; 0x0300]); (0x1F4B, [0x039F; 0x0314; 0x0300]); (0x1F4C, [0x039F; 0x0313; 0x0301]); (0x1F4D, [0x039F; 0x0314; 0x0301]);
  (0x1F50, [0x03C5; 0x0313]); (0x1F51, [0x03C5; 0x0314]); (0x1F52, [0x03C5; 0x0313; 0x0300]); (0x1F53, [0x03C5; 0x0314; 0x0300]);
  (0x1F54, [0x03C5; 0x0313; 0x0301]); (0x1F55, [0x03C5; 0x0314; 0x0301]); (0x1F56, [0x03C5; 0x0313; 0x0342]); (0x1F57, [0x03C5; 0x0314; 0x0342]);
  (0x1F59, [0x03A5; 0x0314]); (0x1F5B, [0x03A5; 0x0314; 0x0300]); (0x1F5D, [0x03A5; 0x0314; 0x0301]); (0x1F5F, [0x03A5; 0x0314; 0x0342]);
  (0x1F60, [0x03C9; 0x0313]); (0x1F61, [0x03C9; 0x0314]); (0x1F62, [0x03C9; 0x0313; 0x0300]); (0x1F63, [0x03C9; 0x0314; 0x0300]);
  (0x1F64, [0x03C9; 0x0313; 0x0301]); (0x1F65, [0x03C9; 0x0314; 0x0301]); (0x1F66, [0x03C9; 0x0313; 0x0342]); (0x1F67, [0x03C9; 0x0314; 0x0342]);
  (0x1F68, [0x03A9; 0x0313]); (0x1F69, [0x03A9; 0x0314]); (0x1F6A, [0x03A9; 0x0313; 0x0300]); (0x1F6B, [0x03A9; 0x0314; 0x0300]);
  (0x1F6C, [0x03A9; 0x0313; 0x0301]); (0x1F6D, [0x03A9; 0x0314; 0x0301]); (0x1F6E, [0x03A9; 0x0313; 0x0342]); (0x1F6F, [0x03A9; 0x0314; 0x0342]);
  (0x1F70, [0x03B1; 0x0300]); (0x1F71, [0x03B1; 0x0301]); (0x1F72, [0x03B5; 0x0300]); (0x1F73, [0x03B5; 0x0301]);
  (0x1F74, [0x03B7; 0x0300]); (0x1F75, [0x03B7; 0x0301]); (0x1F76, [0x03B9; 0x0300]); (0x1F77, [0x03B9; 0x0301]);
  (0x1F78, [0x03BF; 0x0300]); (0x1F79, [0x03BF; 0x0301]); (0x1F7A, [0x03C5; 0x0300]); (0x1F7B, [0x03C5; 0x0301]);
  (0x1F7C, [0x03C9; 0x0300]); (0x1F7D, [0x03C9; 0x0301]); (0x1F80, [0x03B1; 0x0313; 0x0345]); (0x1F81, [0x03B1; 0x0314; 0x0345]);
  (0x1F82, [0x03B1; 0x0313; 0x0300; 0x0345]); (0x1F83, [0x03B1; 0x0314; 0x0300; 0x0345]); (0x1F84, [0x03B1; 0x0313; 0x0301; 0x0345]); (0x1F85, [0x03B1; 0x0314; 0x0301; 0x0345]);
  (0x1F86, [0x03B1; 0x0313; 0x0342; 0x0345]); (0x1F87, [0x03B1; 0x0314; 0x0342; 0x0345]); (0x1F88, [0x0391; 0x0313; 0x0345]); (0x1F89, [0x0391; 0x0314; 0x0345]);
  (0x1F8A, [0x0391; 0x0313; 0x0300; 0x0345]); (0x1F8B, [0x0391; 0x0314; 0x0300; 0x0345]); (0x1F8C, [0x0391; 0x0313; 0x0301; 0x0345]); (0x1F8D, [0x0391; 0x0314; 0x0301; 0x0345]);
  (0x1F8E, [0x0391; 0x0313; 0x0342; 0x0345]); (0x1F8F, [0x0391; 0x0314; 0x0342; 0x0345]); (0x1F90, [0x03B7; 0x0313; 0x0345]); (0x1F91, [0x03B7; 0x0314; 0x0345]);
  (0x1F92, [0x03B7; 0x0313; 0x0300; 0x0345]); (0x1F93, [0x03B7; 0x0314; 0x0300; 0x0345]); (0x1F94, [0x03B7; 0x0313; 0x0301; 0x0345]); (0x1F95, [0x03B7; 0x0314; 0x0301; 0x0345]);
  (0x1F96, [0x03B7; 0x0313; 0x0342; 0x0345]); (0x1F97, [0x03B7; 0x0314; 0x0342; 0x0345]); (0x1F98, [0x0397; 0x0313; 0x0345]); (0x1F99, [0x0397; 0x0314; 0x0345]);
  (0x1F9A, [0x0397; 0x0313; 0x0300; 0x0345]); (0x1F9B, [0x0397; 0x0314; 0x0300; 0x0345]); (0x1F9C, [0x0397; 0x0313; 0x0301; 0x0345]); (0x1F9D, [0x0397; 0x0314; 0x0301; 0x0345]);
  (0x1F9E, [0x0397; 0x0313; 0x0342; 0x0345]); (0x1F9F, [0x0397; 0x0314; 0x0342; 0x0345]); (0x1FA0, [0x03C9; 0x0313; 0x0345]); (0x1FA1, [0x03C9; 0x0314; 0x0345]);
  (0x1FA2, [0x03C9; 0x0313; 0x0300; 0x0345]); (0x1FA3, [0x03C9; 0x0314; 0x0300; 0x0345]); (0x1FA4, [0x03C9; 0x0313; 0x0301; 0x0345]); (0x1FA5, [0x03C9; 0x0314; 0x0301; 0x0345]);
  (0x1FA6, [0x03C9; 0x0313; 0x0342; 0x0345]); (0x1FA7, [0x03C9; 0x0314; 0x0342; 0x0345]); (0x1FA8, [0x03A9; 0x0313; 0x0345]); (0x1FA9, [0x03A9; 0x0314; 0x0345]);
  (0x1FAA, [0x03A9; 0x0313; 0x0300; 0x0345]); (0x1FAB, [0x03A9; 0x0314; 0x0300; 0x0345]); (0x1FAC, [0x03A9; 0x0313; 0x0301; 0x0345]); (0x1FAD, [0x03A9; 0x0314; 0x0301; 0x0345]);
  (0x1FAE, [0x03A9; 0x0313; 0x0342; 0x0345]); (0x1FAF, [0x03A9; 0x0314; 0x0342; 0x0345]); (0x1FB0, [0x03B1; 0x0306]); (0x1FB1, [0x03B1; 0x0304]);
  (0x1FB2, [0x03B1; 0x0300; 0x0345]); (0x1FB3, [0x03B1; 0x0345]); (0x1FB4, [0x03B1; 0x0301; 0x0345]); (0x1FB6, [0x03B1; 0x0342]);
  (0x1FB7, [0x03B1; 0x0342; 0x0345]); (0x1FB8, [0x0391; 0x0306]); (0x1FB9, [0x0391; 0x0304]); (0x1FBA, [0x0391; 0x0300]);
  (0x1FBB, [0x0391; 0x0301]); (0x1FBC, [0x0391; 0x0345]); (0x1FBE, [0x03B9]); (0x1FC1, [0x00A8; 0x0342]);
  (0x1FC2, [0x03B7; 0x0300; 0x0345]); (0x1FC3, [0x03B7; 0x0345]); (0x1FC4, [0x03B7; 0x0301; 0x0345]); (0x1FC6, [0x03B7; 0x0342]);
  (0x1FC7, [0x03B7; 0x0342; 0x0345]); (0x1FC8, [0x0395; 0x0300]); (0x1FC9, [0x0395; 0x0301]); (0x1FCA, [0x0397; 0x0300]);
  (0x1FCB, [0x0397; 0x0301]); (0x1FCC, [0x0397; 0x0345]); (0x1FCD, [0x1FBF; 0x0300]); (0x1FCE, [0x1FBF; 0x0301]);
  (0x1FCF, [0x1FBF; 0x0342]); (0x1FD0, [0x03B9; 0x0306]); (0x1FD1, [0x03B9; 0x0304]); (0x1FD2, [0x03B9; 0x0308; 0x0300]);
  (0x1FD3, [0x03B9; 0x0308; 0x0301]); (0x1FD6, [0x03B9; 0x0342]); (0x1FD7, [0x03B9; 0x0308; 0x0342]); (0x1FD8, [0x0399; 0x0306]);
  (0x1FD9, [0x0399; 0x0304]); (0x1FDA, [0x0399; 0x0300]); (0x1FDB, [0x0399; 0x0301]); (0x1FDD, [0x1FFE; 0x0300]);
  (0x1FDE, [0x1FFE; 0x0301]); (0x1FDF, [0x1FFE; 0x0342]); (0x1FE0, [0x03C5; 0x0306]); (0x1FE1, [0x03C5; 0x0304]);
  (0x1FE2, [0x03C5; 0x0308; 0x0300]); (0x1FE3, [0x03C5; 0x0308; 0x0301]); (0x1FE4, [0x03C1; 0x0313]); (0x1FE5, [0x03C1; 0x0314]);
  (0x1FE6, [0x03C5; 0x0342]); (0x1FE7, [0x03C5; 0x0308; 0x0342]); (0x1FE8, [0x03A5; 0x0306]); (0x1FE9, [0x03A5; 0x0304]);
  (0x1FEA, [0x03A5; 0x0300]); (0x1FEB, [0x03A5; 0x0301]); (0x1FEC, [0x03A1; 0x0314]); (0x1FED, [0x00A8; 0x0300]);
  (0x1FEE, [0x00A8; 0x0301]); (0x1FEF, [0x0060]); (0x1FF2, [0x03C9; 0x0300; 0x0345]); (0x1FF3, [0x03C9; 0x0345]);
  (0x1FF4, [0x03C9; 0x0301; 0x0345]); (0x1FF6, [0x03C9; 0x0342]); (0x1FF7, [0x03C9; 0x0342; 0x0345]); (0x1FF8, [0x039F; 0x0300]);
  (0x1FF9, [0x039F; 0x0301]); (0x1FFA, [0x03A9; 0x0300]); (0x1FFB, [0x03A9; 0x0301]); (0x1FFC, [0x03A9; 0x0345]);
  (0x1FFD, [0x00B4]); (0x2000, [0x2002]); (0x2001, [0x2003]); (0x2126, [0x03A9]);
  (0x212A, [0x004B]); (0x212B, [0x0041; 0x030A]); (0x219A, [0x2190; 0x0338]); (0x219B, [0x2192; 0x0338]);
  (0x21AE, [0x2194; 0x0338]); (0x21CD, [0x21D0; 0x0338]); (0x21CE, [0x21D4; 0x0338]); (0x21CF, [0x21D2; 0x0338]);
  (0x2204, [0x2203; 0x0338]); (0x2209, [0x2208; 0x0338]); (0x220C, [0x220B; 0x0338]); (0x2224, [0x2223; 0x0338]);
  (0x2226, [0x2225; 0x0338]); (0x2241, [0x223C; 0x0338]); (0x2244, [0x2243; 0x0338]); (0x2247, [0x2245; 0x0338]);
  (0x2249, [0x2248; 0x0338]); (0x2260, [0x003D; 0x0338]); (0x2262, [0x2261; 0x0338]); (0x226D, [0x224D; 0x0338]);
  (0x226E, [0x003C; 0x0338]); (0x226F, [0x003E; 0x0338]); (0x2270, [0x2264; 0x0338]); (0x2271, [0x2265; 0x0338]);
  (0x2274, [0x2272; 0x0338]); (0x2275, [0x2273; 0x0338]); (0x2278, [0x2276; 0x0338]); (0x2279, [0x2277; 0x0338]);
  (0x2280, [0x227A; 0x0338]); (0x2281, [0x227B; 0x0338]); (0x2284, [0x2282; 0x0338]); (0x2285, [0x2283; 0x0338]);
  (0x2288, [0x2286; 0x0338]); (0x2289, [0x2287; 0x0338]); (0x22AC, [0x22A2; 0x0338]); (0x22AD, [0x22A8; 0x0338]);
  (0x22AE, [0x22A9; 0x0338]); (0x22AF, [0x22AB; 0x0338]); (0x22E0, [0x227C; 0x0338]); (0x22E1, [0x227D; 0x0338]);
  (0x22E2, [0x2291; 0x0338]); (0x22E3, [0x2292; 0x0338]); (0x22EA, [0x22B2; 0x0338]); (0x22EB, [0x22B3; 0x0338]);
  (0x22EC, [0x22B4; 0x0338]); (0x22ED, [0x22B5; 0x0338]); (0x2329, [0x3008]); (0x232A, [0x3009]);
  (0x2ADC, [0x2ADD; 0x0338]); (0x304C, [0x304B; 0x3099]); (0x304E, [0x304D; 0x3099]); (0x3050, [0x304F; 0x3099]);
  (0x3052, [0x3051; 0x3099]); (0x3054, [0x3053; 0x3099]); (0x3056, [0x3055; 0x3099]); (0x3058, [0x3057; 0x3099]);
  (0x305A, [0x3059; 0x3099]); (0x305C, [0x305B; 0x3099]); (0x305E, [0x305D; 0x3099]); (0x3060, [0x305F; 0x3099]);
  (0x3062, [0x3061; 0x3099]); (0x3065, [0x3064; 0x3099]); (0x3067, [0x3066; 0x3099]); (0x3069, [0x3068; 0x3099]);
  (0x3070, [0x306F; 0x3099]); (0x3071, [0x306F; 0x309A]); (0x3073, [0x3072; 0x3099]); (0x3074, [0x3072; 0x309A]);
  (0x3076, [0x3075; 0x3099]); (0x3077, [0x3075; 0x309A]); (0x3079, [0x3078; 0x3099]); (0x307A, [0x3078; 0x309A]);
  (0x307C, [0x307B; 0x3099]); (0x307D, [0x307B; 0x309A]); (0x3094, [0x3046; 0x3099]); (0x309E, [0x309D; 0x3099]);
  (0x30AC, [0x30AB; 0x3099]); (0x30AE, [0x30AD; 0x3099]); (0x30B0, [0x30AF; 0x3099]); (0x30B2, [0x30B1; 0x3099]);
  (0x30B4, [0x30B3; 0x3099]); (0x30B6, [0x30B5; 0x3099]); (0x30B8, [0x30B7; 0x3099]); (0x30BA, [0x30B9; 0x3099]);
  (0x30BC, [0x30BB; 0x3099]); (0x30BE, [0x30BD; 0x3099]); (0x30C0, [0x30BF; 0x3099]); (0x30C2, [0x30C1; 0x3099]);
  (0x30C5, [0x30C4; 0x3099]); (0x30C7, [0x30C6; 0x3099]); (0x30C9, [0x30C8; 0x3099]); (0x30D0, [0x30CF; 0x3099]);
  (0x30D1, [0x30CF; 0x309A]); (0x30D3, [0x30D2; 0x3099]); (0x30D4, [0x30D2; 0x309A]); (0x30D6, [0x30D5; 0x3099]);
  (0x30D7, [0x30D5; 0x309A]); (0x30D9, [0x30D8; 0x3099]); (0x30DA, [0x30D8; 0x309A]); (0x30DC, [0x30DB; 0x3099]);
  (0x30DD, [0x30DB; 0x309A]); (0x30F4, [0x30A6; 0x3099]); (0x30F7, [0x30EF; 0x3099]); (0x30F8, [0x30F0; 0x3099]);
  (0x30F9, [0x30F1; 0x3099]); (0x30FA, [0x30F2; 0x3099]); (0x30FE, [0x30FD; 0x3099]); (0xF900, [0x8C48]);
  (0xF901, [0x66F4]); (0xF902, [0x8ECA]); (0xF903, [0x8CC8]); (0xF904, [0x6ED1]);
  (0xF905, [0x4E32]); (0xF906, [0x53E5]); (0xF907, [0x9F9C]); (0xF908, [0x9F9C]);
  (0xF909, [0x5951]); (0xF90A, [0x91D1]); (0xF90B, [0x5587]); (0xF90C, [0x5948]);
  (0xF90D, [0x61F6]); (0xF90E, [0x7669]); (0xF90F, [0x7F85]); (0xF910, [0x863F]);
  (0xF911, [0x87BA]); (0xF912, [0x88F8]); (0xF913, [0x908F]); (0xF914, [0x6A02]);
  (0xF915, [0x6D1B]); (0xF916, [0x70D9]); (0xF917, [0x73DE]); (0xF918, [0x843D]);
  (0xF919, [0x916A]); (0xF91A, [0x99F1]); (0xF91B, [0x4E82]); (0xF91C, [0x5375]);
  (0xF91D, [0x6B04]); (0xF91E, [0x721B]); (0xF91F, [0x862D]); (0xF920, [0x9E1E]);
  (0xF921, [0x5D50]); (0xF922, [0x6FEB]); (0xF923, [0x85CD]); (0xF924, [0x8964]);
  (0xF925, [0x62C9]); (0xF926, [0x81D8]); (0xF927, [0x881F]); (0xF928, [0x5ECA]);
  (0xF929, [0x6717]); (0xF92A, [0x6D6A]); (0xF92B, [0x72FC]); (0xF92C, [0x90CE]);
  (0xF92D, [0x4F86]); (0xF92E, [0x51B7]); (0xF92F, [0x52DE]); (0xF930, [0x64C4]);
  (0xF931, [0x6AD3]); (0xF932, [0x7210]); (0xF933, [0x76E7]); (0xF934, [0x8001]);
  (0xF935, [0x8606]); (0xF936, [0x865C]); (0xF937, [0x8DEF]); (0xF938, [0x9732]);
  (0xF939, [0x9B6F]); (0xF93A, [0x9DFA]); (0xF93B, [0x788C]); (0xF93C, [0x797F]);
  (0xF93D, [0x7DA0]); (0xF93E, [0x83C9]); (0xF93F, [0x9304]); (0xF940, [0x9E7F]);
  (0xF941, [0x8AD6]); (0xF942, [0x58DF]); (0xF943, [0x5F04]); (0xF944, [0x7C60]);
  (0xF945, [0x807E]); (0xF946, [0x7262]); (0xF947, [0x78CA]); (0xF948, [0x8CC2]);
  (0xF949, [0x96F7]); (0xF94A, [0x58D8]); (0xF94B, [0x5C62]); (0xF94C, [0x6A13]);
  (0xF94D, [0x6DDA]); (0xF94E, [0x6F0F]); (0xF94F, [0x7D2F]); (0xF950, [0x7E37]);
  (0xF951, [0x964B]); (0xF952, [0x52D2]); (0xF953, [0x808B]); (0xF954, [0x51DC]);
  (0xF955, [0x51CC]); (0xF956, [0x7A1C]); (0xF957, [0x7DBE]); (0xF958, [0x83F1]);
  (0xF959, [0x9675]); (0xF95A, [0x8B80]); (0xF95B, [0x62CF]); (0xF95C, [0x6A02]);
  (0xF95D, [0x8AFE]); (0xF95E, [0x4E39]); (0xF95F, [0x5BE7]); (0xF960, [0x6012]);
  (0xF961, [0x7387]); (0xF962, [0x7570]); (0xF963, [0x5317]); (0xF964, [0x78FB]);
  (0xF965, [0x4FBF]); (0xF966, [0x5FA9]); (0xF967, [0x4E0D]); (0xF968, [0x6CCC]);
  (0xF969, [0x6578]); (0xF96A, [0x7D22]); (0xF96B, [0x53C3]); (0xF96C, [0x585E]);
  (0xF96D, [0x7701]); (0xF96E, [0x8449]); (0xF96F, [0x8AAA]); (0xF970, [0x6BBA]);
  (0xF971, [0x8FB0]); (0xF972, [0x6C88]); (0xF973, [0x62FE]); (0xF974, [0x82E5]);
  (0xF975, [0x63A0]); (0xF976, [0x7565]); (0xF977, [0x4EAE]); (0xF978, [0x5169]);
  (0xF979, [0x51C9]); (0xF97A, [0x6881]); (0xF97B, [0x7CE7]); (0xF97C, [0x826F]);
  (0xF97D, [0x8AD2]); (0xF97E, [0x91CF]); (0xF97F, [0x52F5]); (0xF980, [0x5442]);
  (0xF981, [0x5973]); (0xF982, [0x5EEC]); (0xF983, [0x65C5]); (0xF984, [0x6FFE]);
  (0xF985, [0x792A]); (0xF986, [0x95AD]); (0xF987, [0x9A6A]); (0xF988, [0x9E97]);
  (0xF989, [0x9ECE]); (0xF98A, [0x529B]); (0xF98B, [0x66C6]); (0xF98C, [0x6B77]);
  (0xF98D, [0x8F62]); (0xF98E, [0x5E74]); (0xF98F, [0x6190]); (0xF990, [0x6200]);
  (0xF991, [0x649A]); (0xF992, [0x6F23]); (0xF993, [0x7149]); (0xF994, [0x7489]);
  (0xF995, [0x79CA]); (0xF996, [0x7DF4]); (0xF997, [0x806F]); (0xF998, [0x8F26]);
  (0xF999, [0x84EE]); (0xF99A, [0x9023]); (0xF99B, [0x934A]); (0xF99C, [0x5217]);
  (0xF99D, [0x52A3]); (0xF99E, [0x54BD]); (0xF99F, [0x70C8]); (0xF9A0, [0x88C2]);
  (0xF9A1, [0x8AAA]); (0xF9A2, [0x5EC9]); (0xF9A3, [0x5FF5]); (0xF9A4, [0x637B]);
  (0xF9A5, [0x6BAE]); (0xF9A6, [0x7C3E]); (0xF9A7, [0x7375]); (0xF9A8, [0x4EE4]);
  (0xF9A9, [0x56F9]); (0xF9AA, [0x5BE7]); (0xF9AB, [0x5DBA]); (0xF9AC, [0x601C]);
  (0xF9AD, [0x73B2]); (0xF9AE, [0x7469]); (0xF9AF, [0x7F9A]); (0xF9B0, [0x8046]);
  (0xF9B1, [0x9234]); (0xF9B2, [0x96F6]); (0xF9B3, [0x9748]); (0xF9B4, [0x9818]);
  (0xF9B5, [0x4F8B]); (0xF9B6, [0x79AE]); (0xF9B7, [0x91B4]); (0xF9B8, [0x96B8]);
  (0xF9B9, [0x60E1]); (0xF9BA, [0x4E86]); (0xF9BB, [0x50DA]); (0xF9BC, [0x5BEE]);
  (0xF9BD, [0x5C3F]); (0xF9BE, [0x6599]); (0xF9BF, [0x6A02]); (0xF9C0, [0x71CE]);
  (0xF9C1, [0x7642]); (0xF9C2, [0x84FC]); (0xF9C3, [0x907C]); (0xF9C4, [0x9F8D]);
  (0xF9C5, [0x6688]); (0xF9C6, [0x962E]); (0xF9C7, [0x5289]); (0xF9C8, [0x677B]);
  (0xF9C9, [0x67F3]); (0xF9CA, [0x6D41]); (0xF9CB, [0x6E9C]); (0xF9CC, [0x7409]);
  (0xF9CD, [0x7559]); (0xF9CE, [0x786B]); (0xF9CF, [0x7D10]); (0xF9D0, [0x985E]);
  (0xF9D1, [0x516D]); (0xF9D2, [0x622E]); (0xF9D3, [0x9678]); (0xF9D4, [0x502B]);
  (0xF9D5, [0x5D19]); (0xF9D6, [0x6DEA]); (0xF9D7, [0x8F2A]); (0xF9D8, [0x5F8B]);
  (0xF9D9, [0x6144]); (0xF9DA, [0x6817]); (0xF9DB, [0x7387]); (0xF9DC, [0x9686]);
  (0xF9DD, [0x5229]); (0xF9DE, [0x540F]); (0xF9DF, [0x5C65]); (0xF9E0, [0x6613]);
  (0xF9E1, [0x674E]); (0xF9E2, [0x68A8]); (0xF9E3, [0x6CE5]); (0xF9E4, [0x7406]);
  (0xF9E5, [0x75E2]); (0xF9E6, [0x7F79]); (0xF9E7, [0x88CF]); (0xF9E8, [0x88E1]);
  (0xF9E9, [0x91CC]); (0xF9EA, [0x96E2]); (0xF9EB, [0x533F]); (0xF9EC, [0x6EBA]);
  (0xF9ED, [0x541D]); (0xF9EE, [0x71D0]); (0xF9EF, [0x7498]); (0xF9F0, [0x85FA]);
  (0xF9F1, [0x96A3]); (0xF9F2, [0x9C57]); (0xF9F3, [0x9E9F]); (0xF9F4, [0x6797]);
  (0xF9F5, [0x6DCB]); (0xF9F6, [0x81E8]); (0xF9F7, [0x7ACB]); (0xF9F8, [0x7B20]);
  (0xF9F9, [0x7C92]); (0xF9FA, [0x72C0]); (0xF9FB, [0x7099]); (0xF9FC, [0x8B58]);
  (0xF9FD, [0x4EC0]); (0xF9FE, [0x8336]); (0xF9FF, [0x523A]); (0xFA00, [0x5207]);
  (0xFA01, [0x5EA6]); (0xFA02, [0x62D3]); (0xFA03, [0x7CD6]); (0xFA04, [0x5B85]);
  (0xFA05, [0x6D1E]); (0xFA06, [0x66B4]); (0xFA07, [0x8F3B]); (0xFA08, [0x884C]);
  (0xFA09, [0x964D]); (0xFA0A, [0x898B]); (0xFA0B, [0x5ED3]); (0xFA0C, [0x5140]);
  (0xFA0D, [0x55C0]); (0xFA10, [0x585A]); (0xFA12, [0x6674]); (0xFA15, [0x51DE]);
  (0xFA16, [0x732A]); (0xFA17, [0x76CA]); (0xFA18, [0x793C]); (0xFA19, [0x795E]);
  (0xFA1A, [0x7965]); (0xFA1B, [0x798F]); (0xFA1C, [0x9756]); (0xFA1D, [0x7CBE]);
  (0xFA1E, [0x7FBD]); (0xFA20, [0x8612]); (0xFA22, [0x8AF8]); (0xFA25, [0x9038]);
  (0xFA26, [0x90FD]); (0xFA2A, [0x98EF]); (0xFA2B, [0x98FC]); (0xFA2C, [0x9928]);
  (0xFA2D, [0x9DB4]); (0xFA2E, [0x90DE]); (0xFA2F, [0x96B7]); (0xFA30, [0x4FAE]);
  (0xFA31, [0x50E7]); (0xFA32, [0x514D]); (0xFA33, [0x52C9]); (0xFA34, [0x52E4]);
  (0xFA35, [0x5351]); (0xFA36, [0x559D]); (0xFA37, [0x5606]); (0xFA38, [0x5668]);
  (0xFA39, [0x5840]); (0xFA3A, [0x58A8]); (0xFA3B, [0x5C64]); (0xFA3C, [0x5C6E]);
  (0xFA3D, [0x6094]); (0xFA3E, [0x6168]); (0xFA3F, [0x618E]); (0xFA40, [0x61F2]);
  (0xFA41, [0x654F]); (0xFA42, [0x65E2]); (0xFA43, [0x6691]); (0xFA44, [0x6885]);
  (0xFA45, [0x6D77]); (0xFA46, [0x6E1A]); (0xFA47, [0x6F22]); (0xFA48, [0x716E]);
  (0xFA49, [0x722B]); (0xFA4A, [0x7422]); (0xFA4B, [0x7891]); (0xFA4C, [0x793E]);
  (0xFA4D, [0x7949]); (0xFA4E, [0x7948]); (0xFA4F, [0x7950]); (0xFA50, [0x7956]);
  (0xFA51, [0x795D]); (0xFA52, [0x798D]); (0xFA53, [0x798E]); (0xFA54, [0x7A40]);
  (0xFA55, [0x7A81]); (0xFA56, [0x7BC0]); (0xFA57, [0x7DF4]); (0xFA58, [0x7E09]);
  (0xFA59, [0x7E41]); (0xFA5A, [0x7F72]); (0xFA5B, [0x8005]); (0xFA5C, [0x81ED]);
  (0xFA5D, [0x8279]); (0xFA5E, [0x8279]); (0xFA5F, [0x8457]); (0xFA60, [0x8910]);
  (0xFA61, [0x8996]); (0xFA62, [0x8B01]); (0xFA63, [0x8B39]); (0xFA64, [0x8CD3]);
  (0xFA65, [0x8D08]); (0xFA66, [0x8FB6]); (0xFA67, [0x9038]); (0xFA68, [0x96E3]);
  (0xFA69, [0x97FF]); (0xFA6A, [0x983B]); (0xFA6B, [0x6075]); (0xFA6C, [0x242EE]);
  (0xFA6D, [0x8218]); (0xFA70, [0x4E26]); (0xFA71, [0x51B5]); (0xFA72, [0x5168]);
  (0xFA73, [0x4F80]); (0xFA74, [0x5145]); (0xFA75, [0x5180]); (0xFA76, [0x52C7]);
  (0xFA77, [0x52FA]); (0xFA78, [0x559D]); (0xFA79, [0x5555]); (0xFA7A, [0x5599]);
  (0xFA7B, [0x55E2]); (0xFA7C, [0x585A]); (0xFA7D, [0x58B3]); (0xFA7E, [0x5944]);
  (0xFA7F, [0x5954]); (0xFA80, [0x5A62]); (0xFA81, [0x5B28]); (0xFA82, [0x5ED2]);
  (0xFA83, [0x5ED9]); (0xFA84, [0x5F69]); (0xFA85, [0x5FAD]); (0xFA86, [0x60D8]);
  (0xFA87, [0x614E]); (0xFA88, [0x6108]); (0xFA89, [0x618E]); (0xFA8A, [0x6160]);
  (0xFA8B, [0x61F2]); (0xFA8C, [0x6234]); (0xFA8D, [0x63C4]); (0xFA8E, [0x641C]);
  (0xFA8F, [0x6452]); (0xFA90, [0x6556]); (0xFA91, [0x6674]); (0xFA92, [0x6717]);
  (0xFA93, [0x671B]); (0xFA94, [0x6756]); (0xFA95, [0x6B79]); (0xFA96, [0x6BBA]);
  (0xFA97, [0x6D41]); (0xFA98, [0x6EDB]); (0xFA99, [0x6ECB]); (0xFA9A, [0x6F22]);
  (0xFA9B, [0x701E]); (0xFA9C, [0x716E]); (0xFA9D, [0x77A7]); (0xFA9E, [0x7235]);
  (0xFA9F, [0x72AF]); (0xFAA0, [0x732A]); (0xFAA1, [0x7471]); (0xFAA2, [0x7506]);
  (0xFAA3, [0x753B]); (0xFAA4, [0x761D]); (0xFAA5, [0x761F]); (0xFAA6, [0x76CA]);
  (0xFAA7, [0x76DB]); (0xFAA8, [0x76F4]); (0xFAA9, [0x774A]); (0xFAAA, [0x7740]);
  (0xFAAB, [0x78CC]); (0xFAAC, [0x7AB1]); (0xFAAD, [0x7BC0]); (0xFAAE, [0x7C7B]);
  (0xFAAF, [0x7D5B]); (0xFAB0, [0x7DF4]); (0xFAB1, [0x7F3E]); (0xFAB2, [0x8005]);
  (0xFAB3, [0x8352]); (0xFAB4, [0x83EF]); (0xFAB5, [0x8779]); (0xFAB6, [0x8941]);
  (0xFAB7, [0x8986]); (0xFAB8, [0x8996]); (0xFAB9, [0x8ABF]); (0xFABA, [0x8AF8]);
  (0xFABB, [0x8ACB]); (0xFABC, [0x8B01]); (0xFABD, [0x8AFE]); (0xFABE, [0x8AED]);
  (0xFABF, [0x8B39]); (0xFAC0, [0x8B8A]); (0xFAC1, [0x8D08]); (0xFAC2, [0x8F38]);
  (0xFAC3, [0x9072]); (0xFAC4, [0x9199]); (0xFAC5, [0x9276]); (0xFAC6, [0x967C]);
  (0xFAC7, [0x96E3]); (0xFAC8, [0x9756]); (0xFAC9, [0x97DB]); (0xFACA, [0x97FF]);
  (0xFACB, [0x980B]); (0xFACC, [0x983B]); (0xFACD, [0x9B12]); (0xFACE, [0x9F9C]);
  (0xFACF, [0x2284A]); (0xFAD0, [0x22844]); (0xFAD1, [0x233D5]); (0xFAD2, [0x3B9D]);
  (0xFAD3, [0x4018]); (0xFAD4, [0x4039]); (0xFAD5, [0x25249]); (0xFAD6, [0x25CD0]);
  (0xFAD7, [0x27ED3]); (0xFAD8, [0x9F43]); (0xFAD9, [0x9F8E]); (0xFB1D, [0x05D9; 0x05B4]);
  (0xFB1F, [0x05F2; 0x05B7]); (0xFB2A, [0x05E9; 0x05C1]); (0xFB2B, [0x05E9; 0x05C2]); (0xFB2C, [0x05E9; 0x05BC; 0x05C1]);
  (0xFB2D, [0x05E9; 0x05BC; 0x05C2]); (0xFB2E, [0x05D0; 0x05B7]); (0xFB2F, [0x05D0; 0x05B8]); (0xFB30, [0x05D0; 0x05BC]);
  (0xFB31, [0x05D1; 0x05BC]); (0xFB32, [0x05D2; 0x05BC]); (0xFB33, [0x05D3; 0x05BC]); (0xFB34, [0x05D4; 0x05BC]);
  (0xFB35, [0x05D5; 0x05BC]); (0xFB36, [0x05D6; 0x05BC]); (0xFB38, [0x05D8; 0x05BC]); (0xFB39, [0x05D9; 0x05BC]);
  (0xFB3A, [0x05DA; 0x05BC]); (0xFB3B, [0x05DB; 0x05BC]); (0xFB3C, [0x05DC; 0x05BC]); (0xFB3E, [0x05DE; 0x05BC]);
  (0xFB40, [0x05E0; 0x05BC]); (0xFB41, [0x05E1; 0x05BC]); (0xFB43, [0x05E3; 0x05BC]); (0xFB44, [0x05E4; 0x05BC]);
  (0xFB46, [0x05E6; 0x05BC]); (0xFB47, [0x05E7; 0x05BC]); (0xFB48, [0x05E8; 0x05BC]); (0xFB49, [0x05E9; 0x05BC]);
  (0xFB4A, [0x05EA; 0x05BC]); (0xFB4B, [0x05D5; 0x05B9]); (0xFB4C, [0x05D1; 0x05BF]); (0xFB4D, [0x05DB; 0x05BF]);
  (0xFB4E, [0x05E4; 0x05BF]); (0x1109A, [0x11099; 0x110BA]); (0x1109C, [0x1109B; 0x110BA]); (0x110AB, [0x110A5; 0x110BA]);
  (0x1112E, [0x11131; 0x11127]); (0x1112F, [0x11132; 0x11127]); (0x1134B, [0x11347; 0x1133E]); (0x1134C, [0x11347; 0x11357]);
  (0x114BB, [0x114B9; 0x114BA]); (0x114BC, [0x114B9; 0x114B0]); (0x114BE, [0x114B9; 0x114BD]); (0x115BA, [0x115B8; 0x115AF]);
  (0x115BB, [0x115B9; 0x115AF]); (0x11938, [0x11935; 0x11930]); (0x1D15E, [0x1D157; 0x1D165]); (0x1D15F, [0x1D158; 0x1D165]);
  (0x1D160, [0x1D158; 0x1D165; 0x1D16E]); (0x1D161, [0x1D158; 0x1D165; 0x1D16F]); (0x1D162, [0x1D158; 0x1D165; 0x1D170]); (0x1D163, [0x1D158; 0x1D165; 0x1D171]);
  (0x1D164, [0x1D158; 0x1D165; 0x1D172]); (0x1D1BB, [0x1D1B9; 0x1D165]); (0x1D1BC, [0x1D1BA; 0x1D165]); (0x1D1BD, [0x1D1B9; 0x1D165; 0x1D16E]);
  (0x1D1BE, [0x1D1BA; 0x1D165; 0x1D16E]); (0x1D1BF, [0x1D1B9; 0x1D165; 0x1D16F]); (0x1D1C0, [0x1D1BA; 0x1D165; 0x1D16F]); (0x2F800, [0x4E3D]);
  (0x2F801, [0x4E38]); (0x2F802, [0x4E41]); (0x2F803, [0x20122]); (0x2F804, [0x4F60]);
  (0x2F805, [0x4FAE]); (0x2F806, [0x4FBB]); (0x2F807, [0x5002]); (0x2F808, [0x507A]);
  (0x2F809, [0x5099]); (0x2F80A, [0x50E7]); (0x2F80B, [0x50CF]); (0x2F80C, [0x349E]);
  (0x2F80D, [0x2063A]); (0x2F80E, [0x514D]); (0x2F80F, [0x5154]); (0x2F810, [0x5164]);
  (0x2F811, [0x5177]); (0x2F812, [0x2051C]); (0x2F813, [0x34B9]); (0x2F814, [0x5167]);
  (0x2F815, [0x518D]); (0x2F816, [0x2054B]); (0x2F817, [0x5197]); (0x2F818, [0x51A4]);
  (0x2F819, [0x4ECC]); (0x2F81A, [0x51AC]); (0x2F81B, [0x51B5]); (0x2F81C, [0x291DF]);
  (0x2F81D, [0x51F5]); (0x2F81E, [0x5203]); (0x2F81F, [0x34DF]); (0x2F820, [0x523B]);
  (0x2F821, [0x5246]); (0x2F822, [0x5272]); (0x2F823, [0x5277]); (0x2F824, [0x3515]);
  (0x2F825, [0x52C7]); (0x2F826, [0x52C9]); (0x2F827, [0x52E4]); (0x2F828, [0x52FA]);
  (0x2F829, [0x5305]); (0x2F82A, [0x5306]); (0x2F82B, [0x5317]); (0x2F82C, [0x5349]);
  (0x2F82D, [0x5351]); (0x2F82E, [0x535A]); (0x2F82F, [0x5373]); (0x2F830, [0x537D]);
  (0x2F831, [0x537F]); (0x2F832, [0x537F]); (0x2F833, [0x537F]); (0x2F834, [0x20A2C]);
  (0x2F835, [0x7070]); (0x2F836, [0x53CA]); (0x2F837, [0x53DF]); (0x2F838, [0x20B63]);
  (0x2F839, [0x53EB]); (0x2F83A, [0x53F1]); (0x2F83B, [0x5406]); (0x2F83C, [0x549E]);
  (0x2F83D, [0x5438]); (0x2F83E, [0x5448]); (0x2F83F, [0x5468]); (0x2F840, [0x54A2]);
  (0x2F841, [0x54F6]); (0x2F842, [0x5510]); (0x2F843, [0x5553]); (0x2F844, [0x5563]);
  (0x2F845, [0x5584]); (0x2F846, [0x5584]); (0x2F847, [0x5599]); (0x2F848, [0x55AB]);
  (0x2F849, [0x55B3]); (0x2F84A, [0x55C2]); (0x2F84B, [0x5716]); (0x2F84C, [0x5606]);
  (0x2F84D, [0x5717]); (0x2F84E, [0x5651]); (0x2F84F, [0x5674]); (0x2F850, [0x5207]);
  (0x2F851, [0x58EE]); (0x2F852, [0x57CE]); (0x2F853, [0x57F4]); (0x2F854, [0x580D]);
  (0x2F855, [0x578B]); (0x2F856, [0x5832]); (0x2F857, [0x5831]); (0x2F858, [0x58AC]);
  (0x2F859, [0x214E4]); (0x2F85A, [0x58F2]); (0x2F85B, [0x58F7]); (0x2F85C, [0x5906]);
  (0x2F85D, [0x591A]); (0x2F85E, [0x5922]); (0x2F85F, [0x5962]); (0x2F860, [0x216A8]);
  (0x2F861, [0x216EA]); (0x2F862, [0x59EC]); (0x2F863, [0x5A1B]); (0x2F864, [0x5A27]);
  (0x2F865, [0x59D8]); (0x2F866, [0x5A66]); (0x2F867, [0x36EE]); (0x2F868, [0x36FC]);
  (0x2F869, [0x5B08]); (0x2F86A, [0x5B3E]); (0x2F86B, [0x5B3E]); (0x2F86C, [0x219C8]);
  (0x2F86D, [0x5BC3]); (0x2F86E, [0x5BD8]); (0x2F86F, [0x5BE7]); (0x2F870, [0x5BF3]);
  (0x2F871, [0x21B18]); (0x2F872, [0x5BFF]); (0x2F873, [0x5C06]); (0x2F874, [0x5F53]);
  (0x2F875, [0x5C22]); (0x2F876, [0x3781]); (0x2F877, [0x5C60]); (0x2F878, [0x5C6E]);
  (0x2F879, [0x5CC0]); (0x2F87A, [0x5C8D]); (0x2F87B, [0x21DE4]); (0x2F87C, [0x5D43]);
  (0x2F87D, [0x21DE6]); (0x2F87E, [0x5D6E]); (0x2F87F, [0x5D6B]); (0x2F880, [0x5D7C]);
  (0x2F881, [0x5DE1]); (0x2F882, [0x5DE2]); (0x2F883, [0x382F]); (0x2F884, [0x5DFD]);
  (0x2F885, [0x5E28]); (0x2F886, [0x5E3D]); (0x2F887, [0x5E69]); (0x2F888, [0x3862]);
  (0x2F889, [0x22183]); (0x2F88A, [0x387C]); (0x2F88B, [0x5EB0]); (0x2F88C, [0x5EB3]);
  (0x2F88D, [0x5EB6]); (0x2F88E, [0x5ECA]); (0x2F88F, [0x2A392]); (0x2F890, [0x5EFE]);
  (0x2F891, [0x22331]); (0x2F892, [0x22331]); (0x2F893, [0x8201]); (0x2F894, [0x5F22]);
  (0x2F895, [0x5F22]); (0x2F896, [0x38C7]); (0x2F897, [0x232B8]); (0x2F898, [0x261DA]);
  (0x2F899, [0x5F62]); (0x2F89A, [0x5F6B]); (0x2F89B, [0x38E3]); (0x2F89C, [0x5F9A]);
  (0x2F89D, [0x5FCD]); (0x2F89E, [0x5FD7]); (0x2F89F, [0x5FF9]); (0x2F8A0, [0x6081]);
  (0x2F8A1, [0x393A]); (0x2F8A2, [0x391C]); (0x2F8A3, [0x6094]); (0x2F8A4, [0x226D4]);
  (0x2F8A5, [0x60C7]); (0x2F8A6, [0x6148]); (0x2F8A7, [0x614C]); (0x2F8A8, [0x614E]);
  (0x2F8A9, [0x614C]); (0x2F8AA, [0x617A]); (0x2F8AB, [0x618E]); (0x2F8AC, [0x61B2]);
  (0x2F8AD, [0x61A4]); (0x2F8AE, [0x61AF]); (0x2F8AF, [0x61DE]); (0x2F8B0, [0x61F2]);
  (0x2F8B1, [0x61F6]); (0x2F8B2, [0x6210]); (0x2F8B3, [0x621B]); (0x2F8B4, [0x625D]);
  (0x2F8B5, [0x62B1]); (0x2F8B6, [0x62D4]); (0x2F8B7, [0x6350]); (0x2F8B8, [0x22B0C]);
  (0x2F8B9, [0x633D]); (0x2F8BA, [0x62FC]); (0x2F8BB, [0x6368]); (0x2F8BC, [0x6383]);
  (0x2F8BD, [0x63E4]); (0x2F8BE, [0x22BF1]); (0x2F8BF, [0x6422]); (0x2F8C0, [0x63C5]);
  (0x2F8C1, [0x63A9]); (0x2F8C2, [0x3A2E]); (0x2F8C3, [0x6469]); (0x2F8C4, [0x647E]);
  (0x2F8C5, [0x649D]); (0x2F8C6, [0x6477]); (0x2F8C7, [0x3A6C]); (0x2F8C8, [0x654F]);
  (0x2F8C9, [0x656C]); (0x2F8CA, [0x2300A]); (0x2F8CB, [0x65E3]); (0x2F8CC, [0x66F8]);
  (0x2F8CD, [0x6649]); (0x2F8CE, [0x3B19]); (0x2F8CF, [0x6691]); (0x2F8D0, [0x3B08]);
  (0x2F8D1, [0x3AE4]); (0x2F8D2, [0x5192]); (0x2F8D3, [0x5195]); (0x2F8D4, [0x6700]);
  (0x2F8D5, [0x669C]); (0x2F8D6, [0x80AD]); (0x2F8D7, [0x43D9]); (0x2F8D8, [0x6717]);
  (0x2F8D9, [0x671B]); (0x2F8DA, [0x6721]); (0x2F8DB, [0x675E]); (0x2F8DC, [0x6753]);
  (0x2F8DD, [0x233C3]); (0x2F8DE, [0x3B49]); (0x2F8DF, [0x67FA]); (0x2F8E0, [0x6785]);
  (0x2F8E1, [0x6852]); (0x2F8E2, [0x6885]); (0x2F8E3, [0x2346D]); (0x2F8E4, [0x688E]);
  (0x2F8E5, [0x681F]); (0x2F8E6, [0x6914]); (0x2F8E7, [0x3B9D]); (0x2F8E8, [0x6942]);
  (0x2F8E9, [0x69A3]); (0x2F8EA, [0x69EA]); (0x2F8EB, [0x6AA8]); (0x2F8EC, [0x236A3]);
  (0x2F8ED, [0x6ADB]); (0x2F8EE, [0x3C18]); (0x2F8EF, [0x6B21]); (0x2F8F0, [0x238A7]);
  (0x2F8F1, [0x6B54]); (0x2F8F2, [0x3C4E]); (0x2F8F3, [0x6B72]); (0x2F8F4, [0x6B9F]);
  (0x2F8F5, [0x6BBA]); (0x2F8F6, [0x6BBB]); (0x2F8F7, [0x23A8D]); (0x2F8F8, [0x21D0B]);
  (0x2F8F9, [0x23AFA]); (0x2F8FA, [0x6C4E]); (0x2F8FB, [0x23CBC]); (0x2F8FC, [0x6CBF]);
  (0x2F8FD, [0x6CCD]); (0x2F8FE, [0x6C67]); (0x2F8FF, [0x6D16]); (0x2F900, [0x6D3E]);
  (0x2F901, [0x6D77]); (0x2F902, [0x6D41]); (0x2F903, [0x6D69]); (0x2F904, [0x6D78]);
  (0x2F905, [0x6D85]); (0x2F906, [0x23D1E]); (0x2F907, [0x6D34]); (0x2F908, [0x6E2F]);
  (0x2F909, [0x6E6E]); (0x2F90A, [0x3D33]); (0x2F90B, [0x6ECB]); (0x2F90C, [0x6EC7]);
  (0x2F90D, [0x23ED1]); (0x2F90E, [0x6DF9]); (0x2F90F, [0x6F6E]); (0x2F910, [0x23F5E]);
  (0x2F911, [0x23F8E]); (0x2F912, [0x6FC6]); (0x2F913, [0x7039]); (0x2F914, [0x701E]);
  (0x2F915, [0x701B]); (0x2F916, [0x3D96]); (0x2F917, [0x704A]); (0x2F918, [0x707D]);
  (0x2F919, [0x7077]); (0x2F91A, [0x70AD]); (0x2F91B, [0x20525]); (0x2F91C, [0x7145]);
  (0x2F91D, [0x24263]); (0x2F91E, [0x719C]); (0x2F91F, [0x243AB]); (0x2F920, [0x7228]);
  (0x2F921, [0x7235]); (0x2F922, [0x7250]); (0x2F923, [0x24608]); (0x2F924, [0x7280]);
  (0x2F925, [0x7295]); (0x2F926, [0x24735]); (0x2F927, [0x24814]); (0x2F928, [0x737A]);
  (0x2F929, [0x738B]); (0x2F92A, [0x3EAC]); (0x2F92B, [0x73A5]); (0x2F92C, [0x3EB8]);
  (0x2F92D, [0x3EB8]); (0x2F92E, [0x7447]); (0x2F92F, [0x745C]); (0x2F930, [0x7471]);
  (0x2F931, [0x7485]); (0x2F932, [0x74CA]); (0x2F933, [0x3F1B]); (0x2F934, [0x7524]);
  (0x2F935, [0x24C36]); (0x2F936, [0x753E]); (0x2F937, [0x24C92]); (0x2F938, [0x7570]);
  (0x2F939, [0x2219F]); (0x2F93A, [0x7610]); (0x2F93B, [0x24FA1]); (0x2F93C, [0x24FB8]);
  (0x2F93D, [0x25044]); (0x2F93E, [0x3FFC]); (0x2F93F, [0x4008]); (0x2F940, [0x76F4]);
  (0x2F941, [0x250F3]); (0x2F942, [0x250F2]); (0x2F943, [0x25119]); (0x2F944, [0x25133]);
  (0x2F945, [0x771E]); (0x2F946, [0x771F]); (0x2F947, [0x771F]); (0x2F948, [0x774A]);
  (0x2F949, [0x4039]); (0x2F94A, [0x778B]); (0x2F94B, [0x4046]); (0x2F94C, [0x4096]);
  (0x2F94D, [0x2541D]); (0x2F94E, [0x784E]); (0x2F94F, [0x788C]); (0x2F950, [0x78CC]);
  (0x2F951, [0x40E3]); (0x2F952, [0x25626]); (0x2F953, [0x7956]); (0x2F954, [0x2569A]);
  (0x2F955, [0x256C5]); (0x2F956, [0x798F]); (0x2F957, [0x79EB]); (0x2F958, [0x412F]);
  (0x2F959, [0x7A40]); (0x2F95A, [0x7A4A]); (0x2F95B, [0x7A4F]); (0x2F95C, [0x2597C]);
  (0x2F95D, [0x25AA7]); (0x2F95E, [0x25AA7]); (0x2F95F, [0x7AEE]); (0x2F960, [0x4202]);
  (0x2F961, [0x25BAB]); (0x2F962, [0x7BC6]); (0x2F963, [0x7BC9]); (0x2F964, [0x4227]);
  (0x2F965, [0x25C80]); (0x2F966, [0x7CD2]); (0x2F967, [0x42A0]); (0x2F968, [0x7CE8]);
  (0x2F969, [0x7CE3]); (0x2F96A, [0x7D00]); (0x2F96B, [0x25F86]); (0x2F96C, [0x7D63]);
  (0x2F96D, [0x4301]); (0x2F96E, [0x7DC7]); (0x2F96F, [0x7E02]); (0x2F970, [0x7E45]);
  (0x2F971, [0x4334]); (0x2F972, [0x26228]); (0x2F973, [0x26247]); (0x2F974, [0x4359]);
  (0x2F975, [0x262D9]); (0x2F976, [0x7F7A]); (0x2F977, [0x2633E]); (0x2F978, [0x7F95]);
  (0x2F979, [0x7FFA]); (0x2F97A, [0x8005]); (0x2F97B, [0x264DA]); (0x2F97C, [0x26523]);
  (0x2F97D, [0x8060]); (0x2F97E, [0x265A8]); (0x2F97F, [0x8070]); (0x2F980, [0x2335F]);
  (0x2F981, [0x43D5]); (0x2F982, [0x80B2]); (0x2F983, [0x8103]); (0x2F984, [0x440B]);
  (0x2F985, [0x813E]); (0x2F986, [0x5AB5]); (0x2F987, [0x267A7]); (0x2F988, [0x267B5]);
  (0x2F989, [0x23393]); (0x2F98A, [0x2339C]); (0x2F98B, [0x8201]); (0x2F98C, [0x8204]);
  (0x2F98D, [0x8F9E]); (0x2F98E, [0x446B]); (0x2F98F, [0x8291]); (0x2F990, [0x828B]);
  (0x2F991, [0x829D]); (0x2F992, [0x52B3]); (0x2F993, [0x82B1]); (0x2F994, [0x82B3]);
  (0x2F995, [0x82BD]); (0x2F996, [0x82E6]); (0x2F997, [0x26B3C]); (0x2F998, [0x82E5]);
  (0x2F999, [0x831D]); (0x2F99A, [0x8363]); (0x2F99B, [0x83AD]); (0x2F99C, [0x8323]);
  (0x2F99D, [0x83BD]); (0x2F99E, [0x83E7]); (0x2F99F, [0x8457]); (0x2F9A0, [0x8353]);
  (0x2F9A1, [0x83CA]); (0x2F9A2, [0x83CC]); (0x2F9A3, [0x83DC]); (0x2F9A4, [0x26C36]);
  (0x2F9A5, [0x26D6B]); (0x2F9A6, [0x26CD5]); (0x2F9A7, [0x452B]); (0x2F9A8, [0x84F1]);
  (0x2F9A9, [0x84F3]); (0x2F9AA, [0x8516]); (0x2F9AB, [0x273CA]); (0x2F9AC, [0x8564]);
  (0x2F9AD, [0x26F2C]); (0x2F9AE, [0x455D]); (0x2F9AF, [0x4561]); (0x2F9B0, [0x26FB1]);
  (0x2F9B1, [0x270D2]); (0x2F9B2, [0x456B]); (0x2F9B3, [0x8650]); (0x2F9B4, [0x865C]);
  (0x2F9B5, [0x8667]); (0x2F9B6, [0x8669]); (0x2F9B7, [0x86A9]); (0x2F9B8, [0x8688]);
  (0x2F9B9, [0x870E]); (0x2F9BA, [0x86E2]); (0x2F9BB, [0x8779]); (0x2F9BC, [0x8728]);
  (0x2F9BD, [0x876B]); (0x2F9BE, [0x8786]); (0x2F9BF, [0x45D7]); (0x2F9C0, [0x87E1]);
  (0x2F9C1, [0x8801]); (0x2F9C2, [0x45F9]); (0x2F9C3, [0x8860]); (0x2F9C4, [0x8863]);
  (0x2F9C5, [0x27667]); (0x2F9C6, [0x88D7]); (0x2F9C7, [0x88DE]); (0x2F9C8, [0x4635]);
  (0x2F9C9, [0x88FA]); (0x2F9CA, [0x34BB]); (0x2F9CB, [0x278AE]); (0x2F9CC, [0x27966]);
  (0x2F9CD, [0x46BE]); (0x2F9CE, [0x46C7]); (0x2F9CF, [0x8AA0]); (0x2F9D0, [0x8AED]);
  (0x2F9D1, [0x8B8A]); (0x2F9D2, [0x8C55]); (0x2F9D3, [0x27CA8]); (0x2F9D4, [0x8CAB]);
  (0x2F9D5, [0x8CC1]); (0x2F9D6, [0x8D1B]); (0x2F9D7, [0x8D77]); (0x2F9D8, [0x27F2F]);
  (0x2F9D9, [0x20804]); (0x2F9DA, [0x8DCB]); (0x2F9DB, [0x8DBC]); (0x2F9DC, [0x8DF0]);
  (0x2F9DD, [0x208DE]); (0x2F9DE, [0x8ED4]); (0x2F9DF, [0x8F38]); (0x2F9E0, [0x285D2]);
  (0x2F9E1, [0x285ED]); (0x2F9E2, [0x9094]); (0x2F9E3, [0x90F1]); (0x2F9E4, [0x9111]);
  (0x2F9E5, [0x2872E]); (0x2F9E6, [0x911B]); (0x2F9E7, [0x9238]); (0x2F9E8, [0x92D7]);
  (0x2F9E9, [0x92D8]); (0x2F9EA, [0x927C]); (0x2F9EB, [0x93F9]); (0x2F9EC, [0x9415]);
  (0x2F9ED, [0x28BFA]); (0x2F9EE, [0x958B]); (0x2F9EF, [0x4995]); (0x2F9F0, [0x95B7]);
  (0x2F9F1, [0x28D77]); (0x2F9F2, [0x49E6]); (0x2F9F3, [0x96C3]); (0x2F9F4, [0x5DB2]);
  (0x2F9F5, [0x9723]); (0x2F9F6, [0x29145]); (0x2F9F7, [0x2921A]); (0x2F9F8, [0x4A6E]);
  (0x2F9F9, [0x4A76]); (0x2F9FA, [0x97E0]); (0x2F9FB, [0x2940A]); (0x2F9FC, [0x4AB2]);
  (0x2F9FD, [0x29496]); (0x2F9FE, [0x980B]); (0x2F9FF, [0x980B]); (0x2FA00, [0x9829]);
  (0x2FA01, [0x295B6]); (0x2FA02, [0x98E2]); (0x2FA03, [0x4B33]); (0x2FA04, [0x9929]);
  (0x2FA05, [0x99A7]); (0x2FA06, [0x99C2]); (0x2FA07, [0x99FE]); (0x2FA08, [0x4BCE]);
  (0x2FA09, [0x29B30]); (0x2FA0A, [0x9B12]); (0x2FA0B, [0x9C40]); (0x2FA0C, [0x9CFD]);
  (0x2FA0D, [0x4CCE]); (0x2FA0E, [0x4CED]); (0x2FA0F, [0x9D67]); (0x2FA10, [0x2A0CE]);
  (0x2FA11, [0x4CF8]); (0x2FA12, [0x2A105]); (0x2FA13, [0x2A20E]); (0x2FA14, [0x2A291]);
  (0x2FA15, [0x9EBB]); (0x2FA16, [0x4D56]); (0x2FA17, [0x9EF9]); (0x2FA18, [0x9EFE]);
  (0x2FA19, [0x9F05]); (0x2FA1A, [0x9F0F]); (0x2FA1B, [0x9F16]); (0x2FA1C, [0x9F3B]);
  (0x2FA1D, [0x2A600])
].

Definition combining_classes : list (Z * Z * Z) := [
  (0x0300, 0x0314, 230); (0x0315, 0x0315, 232); (0x0316, 0x0319, 220); (0x031A, 0x031A, 232); (0x031B, 0x031B, 216);
  (0x031C, 0x0320, 220); (0x0321, 0x0322, 202); (0x0323, 0x0326, 220); (0x0327, 0x0328, 202); (0x0329, 0x0333, 220);
  (0x0334, 0x0338, 1); (0x0339, 0x033C, 220); (0x033D, 0x0344, 230); (0x0345, 0x0345, 240); (0x0346, 0x0346, 230);
  (0x0347, 0x0349, 220); (0x034A, 0x034C, 230); (0x034D, 0x034E, 220); (0x0350, 0x0352, 230); (0x0353, 0x0356, 220);
  (0x0357, 0x0357, 230); (0x0358, 0x0358, 232); (0x0359, 0x035A, 220); (0x035B, 0x035B, 230); (0x035C, 0x035C, 233);
  (0x035D, 0x035E, 234); (0x035F, 0x035F, 233); (0x0360, 0x0361, 234); (0x0362, 0x0362, 233); (0x0363, 0x036F, 230);
  (0x0483, 0x0487, 230); (0x0591, 0x0591, 220); (0x0592, 0x0595, 230); (0x0596, 0x0596, 220); (0x0597, 0x0599, 230);
  (0x059A, 0x059A, 222); (0x059B, 0x059B, 220); (0x059C, 0x05A1, 230); (0x05A2, 0x05A7, 220); (0x05A8, 0x05A9, 230);
  (0x05AA, 0x05AA, 220); (0x05AB, 0x05AC, 230); (0x05AD, 0x05AD, 222); (0x05AE, 0x05AE, 228); (0x05AF, 0x05AF, 230);
  (0x05B0, 0x05B0, 10); (0x05B1, 0x05B1, 11); (0x05B2, 0x05B2, 12); (0x05B3, 0x05B3, 13); (0x05B4, 0x05B4, 14);
  (0x05B5, 0x05B5, 15); (0x05B6, 0x05B6, 16); (0x05B7, 0x05B7, 17); (0x05B8, 0x05B8, 18); (0x05B9, 0x05BA, 19);
  (0x05BB, 0x05BB, 20); (0x05BC, 0x05BC, 21); (0x05BD, 0x05BD, 22); (0x05BF, 0x05BF, 23); (0x05C1, 0x05C1, 24);
  (0x05C2, 0x05C2, 25); (0x05C4, 0x05C4, 230); (0x05C5, 0x05C5, 220); (0x05C7, 0x05C7, 18); (0x0610, 0x0617, 230);
  (0x0618, 0x0618, 30); (0x0619, 0x0619, 31); (0x061A, 0x061A, 32); (0x064B, 0x064B, 27); (0x064C, 0x064C, 28);
  (0x064D, 0x064D, 29); (0x064E, 0x064E, 30); (0x064F, 0x064F, 31); (0x0650, 0x0650, 32); (0x0651, 0x0651, 33);
  (0x0652, 0x0652, 34); (0x0653, 0x0654, 230); (0x0655, 0x0656, 220); (0x0657, 0x065B, 230); (0x065C, 0x065C, 220);
  (0x065D, 0x065E, 230); (0x065F, 0x065F, 220); (0x0670, 0x0670, 35); (0x06D6, 0x06DC, 230); (0x06DF, 0x06E2, 230);
  (0x06E3, 0x06E3, 220); (0x06E4, 0x06E4, 230); (0x06E7, 0x06E8, 230); (0x06EA, 0x06EA, 220); (0x06EB, 0x06EC, 230);
  (0x06ED, 0x06ED, 220); (0x0711, 0x0711, 36); (0x0730, 0x0730, 230); (0x0731, 0x0731, 220); (0x0732, 0x0733, 230);
  (0x0734, 0x0734, 220); (0x0735, 0x0736, 230); (0x0737, 0x0739, 220); (0x073A, 0x073A, 230); (0x073B, 0x073C, 220);
  (0x073D, 0x073D, 230); (0x073E, 0x073E, 220); (0x073F, 0x0741, 230); (0x0742, 0x0742, 220); (0x0743, 0x0743, 230);
  (0x0744, 0x0744, 220); (0x0745, 0x0745, 230); (0x0746, 0x0746, 220); (0x0747, 0x0747, 230); (0x0748, 0x0748, 220);
  (0x0749, 0x074A, 230); (0x07EB, 0x07F1, 230); (0x07F2, 0x07F2, 220); (0x07F3, 0x07F3, 230); (0x07FD, 0x07FD, 220);
  (0x0816, 0x0819, 230); (0x081B, 0x0823, 230); (0x0825, 0x0827, 230); (0x0829, 0x082D, 230); (0x0859, 0x085B, 220);
  (0x0898, 0x0898, 230); (0x0899, 0x089B, 220); (0x089C, 0x089F, 230); (0x08CA, 0x08CE, 230); (0x08CF, 0x08D3, 220);
  (0x08D4, 0x08E1, 230); (0x08E3, 0x08E3, 220); (0x08E4, 0x08E5, 230); (0x08E6, 0x08E6, 220); (0x08E7, 0x08E8, 230);
  (0x08E9, 0x08E9, 220); (0x08EA, 0x08EC, 230); (0x08ED, 0x08EF, 220); (0x08F0, 0x08F0, 27); (0x08F1, 0x08F1, 28);
  (0x08F2, 0x08F2, 29); (0x08F3, 0x08F5, 230); (0x08F6, 0x08F6, 220); (0x08F7, 0x08F8, 230); (0x08F9, 0x08FA, 220);
  (0x08FB, 0x08FF, 230); (0x093C, 0x093C, 7); (0x094D, 0x094D, 9); (0x0951, 0x0951, 230); (0x0952, 0x0952, 220);
  (0x0953, 0x0954, 230); (0x09BC, 0x09BC, 7); (0x09CD, 0x09CD, 9); (0x09FE, 0x09FE, 230); (0x0A3C, 0x0A3C, 7);
  (0x0A4D, 0x0A4D, 9); (0x0ABC, 0x0ABC, 7); (0x0ACD, 0x0ACD, 9); (0x0B3C, 0x0B3C, 7); (0x0B4D, 0x0B4D, 9);
  (0x0BCD, 0x0BCD, 9); (0x0C3C, 0x0C3C, 7); (0x0C4D, 0x0C4D, 9); (0x0C55, 0x0C55, 84); (0x0C56, 0x0C56, 91);
  (0x0CBC, 0x0CBC, 7); (0x0CCD, 0x0CCD, 9); (0x0D3B, 0x0D3C, 9); (0x0D4D, 0x0D4D, 9); (0x0DCA, 0x0DCA, 9);
  (0x0E38, 0x0E39, 103); (0x0E3A, 0x0E3A, 9); (0x0E48, 0x0E4B, 107); (0x0EB8, 0x0EB9, 118); (0x0EBA, 0x0EBA, 9);
  (0x0EC8, 0x0ECB, 122); (0x0F18, 0x0F19, 220); (0x0F35, 0x0F35, 220); (0x0F37, 0x0F37, 220); (0x0F39, 0x0F39, 216);
  (0x0F71, 0x0F71, 129); (0x0F72, 0x0F72, 130); (0x0F74, 0x0F74, 132); (0x0F7A, 0x0F7D, 130); (0x0F80, 0x0F80, 130);
  (0x0F82, 0x0F83, 230); (0x0F84, 0x0F84, 9); (0x0F86, 0x0F87, 230); (0x0FC6, 0x0FC6, 220); (0x1037, 0x1037, 7);
  (0x1039, 0x103A, 9); (0x108D, 0x108D, 220); (0x135D, 0x135F, 230); (0x1714, 0x1715, 9); (0x1734, 0x1734, 9);
  (0x17D2, 0x17D2, 9); (0x17DD, 0x17DD, 230); (0x18A9, 0x18A9, 228); (0x1939, 0x1939, 222); (0x193A, 0x193A, 230);
  (0x193B, 0x193B, 220); (0x1A17, 0x1A17, 230); (0x1A18, 0x1A18, 220); (0x1A60, 0x1A60, 9); (0x1A75, 0x1A7C, 230);
  (0x1A7F, 0x1A7F, 220); (0x1AB0, 0x1AB4, 230); (0x1AB5, 0x1ABA, 220); (0x1ABB, 0x1ABC, 230); (0x1ABD, 0x1ABD, 220);
  (0x1ABF, 0x1AC0, 220); (0x1AC1, 0x1AC2, 230); (0x1AC3, 0x1AC4, 220); (0x1AC5, 0x1AC9, 230); (0x1ACA, 0x1ACA, 220);
  (0x1ACB, 0x1ACE, 230); (0x1B34, 0x1B34, 7); (0x1B44, 0x1B44, 9); (0x1B6B, 0x1B6B, 230); (0x1B6C, 0x1B6C, 220);
  (0x1B6D, 0x1B73, 230); (0x1BAA, 0x1BAB, 9); (0x1BE6, 0x1BE6, 7); (0x1BF2, 0x1BF3, 9); (0x1C37, 0x1C37, 7);
  (0x1CD0, 0x1CD2, 230); (0x1CD4, 0x1CD4, 1); (0x1CD5, 0x1CD9, 220); (0x1CDA, 0x1CDB, 230); (0x1CDC, 0x1CDF, 220);
  (0x1CE0, 0x1CE0, 230); (0x1CE2, 0x1CE8, 1); (0x1CED, 0x1CED, 220); (0x1CF4, 0x1CF4, 230); (0x1CF8, 0x1CF9, 230);
  (0x1DC0, 0x1DC1, 230); (0x1DC2, 0x1DC2, 220); (0x1DC3, 0x1DC9, 230); (0x1DCA, 0x1DCA, 220); (0x1DCB, 0x1DCC, 230);
  (0x1DCD, 0x1DCD, 234); (0x1DCE, 0x1DCE, 214); (0x1DCF, 0x1DCF, 220); (0x1DD0, 0x1DD0, 202); (0x1DD1, 0x1DF5, 230);
  (0x1DF6, 0x1DF6, 232); (0x1DF7, 0x1DF8, 228); (0x1DF9, 0x1DF9, 220); (0x1DFA, 0x1DFA, 218); (0x1DFB, 0x1DFB, 230);
  (0x1DFC, 0x1DFC, 233); (0x1DFD, 0x1DFD, 220); (0x1DFE, 0x1DFE, 230); (0x1DFF, 0x1DFF, 220); (0x20D0, 0x20D1, 230);
  (0x20D2, 0x20D3, 1); (0x20D4, 0x20D7, 230); (0x20D8, 0x20DA, 1); (0x20DB, 0x20DC, 230); (0x20E1, 0x20E1, 230);
  (0x20E5, 0x20E6, 1); (0x20E7, 0x20E7, 230); (0x20E8, 0x20E8, 220); (0x20E9, 0x20E9, 230); (0x20EA, 0x20EB, 1);
  (0x20EC, 0x20EF, 220); (0x20F0, 0x20F0, 230); (0x2CEF, 0x2CF1, 230); (0x2D7F, 0x2D7F, 9); (0x2DE0, 0x2DFF, 230);
  (0x302A, 0x302A, 218); (0x302B, 0x302B, 228); (0x302C, 0x302C, 232); (0x302D, 0x302D, 222); (0x302E, 0x302F, 224);
  (0x3099, 0x309A, 8); (0xA66F, 0xA66F, 230); (0xA674, 0xA67D, 230); (0xA69E, 0xA69F, 230); (0xA6F0, 0xA6F1, 230);
  (0xA806, 0xA806, 9); (0xA82C, 0xA82C, 9); (0xA8C4, 0xA8C4, 9); (0xA8E0, 0xA8F1, 230); (0xA92B, 0xA92D, 220);
  (0xA953, 0xA953, 9); (0xA9B3, 0xA9B3, 7); (0xA9C0, 0xA9C0, 9); (0xAAB0, 0xAAB0, 230); (0xAAB2, 0xAAB3, 230);
  (0xAAB4, 0xAAB4, 220); (0xAAB7, 0xAAB8, 230); (0xAABE, 0xAABF, 230); (0xAAC1, 0xAAC1, 230); (0xAAF6, 0xAAF6, 9);
  (0xABED, 0xABED, 9); (0xFB1E, 0xFB1E, 26); (0xFE20, 0xFE26, 230); (0xFE27, 0xFE2D, 220); (0xFE2E, 0xFE2F, 230);
  (0x101FD, 0x101FD, 220); (0x102E0, 0x102E0, 220); (0x10376, 0x1037A, 230); (0x10A0D, 0x10A0D, 220); (0x10A0F, 0x10A0F, 230);
  (0x10A38, 0x10A38, 230); (0x10A39, 0x10A39, 1); (0x10A3A, 0x10A3A, 220); (0x10A3F, 0x10A3F, 9); (0x10AE5, 0x10AE5, 230);
  (0x10AE6, 0x10AE6, 220); (0x10D24, 0x10D27, 230); (0x10EAB, 0x10EAC, 230); (0x10F46, 0x10F47, 220); (0x10F48, 0x10F4A, 230);
  (0x10F4B, 0x10F4B, 220); (0x10F4C, 0x10F4C, 230); (0x10F4D, 0x10F50, 220); (0x10F82, 0x10F82, 230); (0x10F83, 0x10F83, 220);
  (0x10F84, 0x10F84, 230); (0x10F85, 0x10F85, 220); (0x11046, 0x11046, 9); (0x11070, 0x11070, 9); (0x1107F, 0x1107F, 9);
  (0x110B9, 0x110B9, 9); (0x110BA, 0x110BA, 7); (0x11100, 0x11102, 230); (0x11133, 0x11134, 9); (0x11173, 0x11173, 7);
  (0x111C0, 0x111C0, 9); (0x111CA, 0x111CA, 7); (0x11235, 0x11235, 9); (0x11236, 0x11236, 7); (0x112E9, 0x112E9, 7);
  (0x112EA, 0x112EA, 9); (0x1133B, 0x1133C, 7); (0x1134D, 0x1134D, 9); (0x11366, 0x1136C, 230); (0x11370, 0x11374, 230);
  (0x11442, 0x11442, 9); (0x11446, 0x11446, 7); (0x1145E, 0x1145E, 230); (0x114C2, 0x114C2, 9); (0x114C3, 0x114C3, 7);
  (0x115BF, 0x115BF, 9); (0x115C0, 0x115C0, 7); (0x1163F, 0x1163F, 9); (0x116B6, 0x116B6, 9); (0x116B7, 0x116B7, 7);
  (0x1172B, 0x1172B, 9); (0x11839, 0x11839, 9); (0x1183A, 0x1183A, 7); (0x1193D, 0x1193E, 9); (0x11943, 0x11943, 7);
  (0x119E0, 0x119E0, 9); (0x11A34, 0x11A34, 9); (0x11A47, 0x11A47, 9); (0x11A99, 0x11A99, 9); (0x11C3F, 0x11C3F, 9);
  (0x11D42, 0x11D42, 7); (0x11D44, 0x11D45, 9); (0x11D97, 0x11D97, 9); (0x16AF0, 0x16AF4, 1); (0x16B30, 0x16B36, 230);
  (0x16FF0, 0x16FF1, 6); (0x1BC9E, 0x1BC9E, 1); (0x1D165, 0x1D166, 216); (0x1D167, 0x1D169, 1); (0x1D16D, 0x1D16D, 226);
  (0x1D16E, 0x1D172, 216); (0x1D17B, 0x1D182, 220); (0x1D185, 0x1D189, 230); (0x1D18A, 0x1D18B, 220); (0x1D1AA, 0x1D1AD, 230);
  (0x1D242, 0x1D244, 230); (0x1E000, 0x1E006, 230); (0x1E008, 0x1E018, 230); (0x1E01B, 0x1E021, 230); (0x1E023, 0x1E024, 230);
  (0x1E026, 0x1E02A, 230); (0x1E130, 0x1E136, 230); (0x1E2AE, 0x1E2AE, 230); (0x1E2EC, 0x1E2EF, 230); (0x1E8D0, 0x1E8D6, 220);
  (0x1E944, 0x1E949, 230); (0x1E94A, 0x1E94A, 7)
].

Definition primary_composites : list (Z * Z * Z) := [
  (0x0041, 0x0300, 0x00C0); (0x0041, 0x0301, 0x00C1); (0x0041, 0x0302, 0x00C2); (0x0041, 0x0303, 0x00C3); (0x0041, 0x0308, 0x00C4);
  (0x0041, 0x030A, 0x00C5); (0x0043, 0x0327, 0x00C7); (0x0045, 0x0300, 0x00C8); (0x0045, 0x0301, 0x00C9); (0x0045, 0x0302, 0x00CA);
  (0x0045, 0x0308, 0x00CB); (0x0049, 0x0300, 0x00CC); (0x0049, 0x0301, 0x00CD); (0x0049, 0x0302, 0x00CE); (0x0049, 0x0308, 0x00CF);
  (0x004E, 0x0303, 0x00D1); (0x004F, 0x0300, 0x00D2); (0x004F, 0x0301, 0x00D3); (0x004F, 0x0302, 0x00D4); (0x004F, 0x0303, 0x00D5);
  (0x004F, 0x0308, 0x00D6); (0x0055, 0x0300, 0x00D9); (0x0055, 0x0301, 0x00DA); (0x0055, 0x0302, 0x00DB); (0x0055, 0x0308, 0x00DC);
  (0x0059, 0x0301, 0x00DD); (0x0061, 0x0300, 0x00E0); (0x0061, 0x0301, 0x00E1); (0x0061, 0x0302, 0x00E2); (0x0061, 0x0303, 0x00E3);
  (0x0061, 0x0308, 0x00E4); (0x0061, 0x030A, 0x00E5); (0x0063, 0x0327, 0x00E7); (0x0065, 0x0300, 0x00E8); (0x0065, 0x0301, 0x00E9);
  (0x0065, 0x0302, 0x00EA); (0x0065, 0x0308, 0x00EB); (0x0069, 0x0300, 0x00EC); (0x0069, 0x0301, 0x00ED); (0x0069, 0x0302, 0x00EE);
  (0x0069, 0x0308, 0x00EF); (0x006E, 0x0303, 0x00F1); (0x006F, 0x0300, 0x00F2); (0x006F, 0x0301, 0x00F3); (0x006F, 0x0302, 0x00F4);
  (0x006F, 0x0303, 0x00F5); (0x006F, 0x0308, 0x00F6); (0x0075, 0x0300, 0x00F9); (0x0075, 0x0301, 0x00FA); (0x0075, 0x0302, 0x00FB);
  (0x0075, 0x0308, 0x00FC); (0x0079, 0x0301, 0x00FD); (0x0079, 0x0308, 0x00FF); (0x0041, 0x0304, 0x0100); (0x0061, 0x0304, 0x0101);
  (0x0041, 0x0306, 0x0102); (0x0061, 0x0306, 0x0103); (0x0041, 0x0328, 0x0104); (0x0061, 0x0328, 0x0105); (0x0043, 0x0301, 0x0106);
  (0x0063, 0x0301, 0x0107); (0x0043, 0x0302, 0x0108); (0x0063, 0x0302, 0x0109); (0x0043, 0x0307, 0x010A); (0x0063, 0x0307, 0x010B);
  (0x0043, 0x030C, 0x010C); (0x0063, 0x030C, 0x010D); (0x0044, 0x030C, 0x010E); (0x0064, 0x030C, 0x010F); (0x0045, 0x0304, 0x0112);
  (0x0065, 0x0304, 0x0113); (0x0045, 0x0306, 0x0114); (0x0065, 0x0306, 0x0115); (0x0045, 0x0307, 0x0116); (0x0065, 0x0307, 0x0117);
  (0x0045, 0x0328, 0x0118); (0x0065, 0x0328, 0x0119); (0x0045, 0x030C, 0x011A); (0x0065, 0x030C, 0x011B); (0x0047, 0x0302, 0x011C);
  (0x0067, 0x0302, 0x011D); (0x0047, 0x0306, 0x011E); (0x0067, 0x0306, 0x011F); (0x0047, 0x0307, 0x0120); (0x0067, 0x0307, 0x0121);
  (0x0047, 0x0327, 0x0122); (0x0067, 0x0327, 0x0123); (0x0048, 0x0302, 0x0124); (0x0068, 0x0302, 0x0125); (0x0049, 0x0303, 0x0128);
  (0x0069, 0x0303, 0x0129); (0x0049, 0x0304, 0x012A); (0x0069, 0x0304, 0x012B); (0x0049, 0x0306, 0x012C); (0x0069, 0x0306, 0x012D);
  (0x0049, 0x0328, 0x012E); (0x0069, 0x0328, 0x012F); (0x0049, 0x0307, 0x0130); (0x004A, 0x0302, 0x0134); (0x006A, 0x0302, 0x0135);
  (0x004B, 0x0327, 0x0136); (0x006B, 0x0327, 0x0137); (0x004C, 0x0301, 0x0139); (0x006C, 0x0301, 0x013A); (0x004C, 0x0327, 0x013B);
  (0x006C, 0x0327, 0x013C); (0x004C, 0x030C, 0x013D); (0x006C, 0x030C, 0x013E); (0x004E, 0x0301, 0x0143); (0x006E, 0x0301, 0x0144);
  (0x004E, 0x0327, 0x0145); (0x006E, 0x0327, 0x0146); (0x004E, 0x030C, 0x0147); (0x006E, 0x030C, 0x0148); (0x004F, 0x0304, 0x014C);
  (0x006F, 0x0304, 0x014D); (0x004F, 0x0306, 0x014E); (0x006F, 0x0306, 0x014F); (0x004F, 0x030B, 0x0150); (0x006F, 0x030B, 0x0151);
  (0x0052, 0x0301, 0x0154); (0x0072, 0x0301, 0x0155); (0x0052, 0x0327, 0x0156); (0x0072, 0x0327, 0x0157); (0x0052, 0x030C, 0x0158);
  (0x0072, 0x030C, 0x0159); (0x0053, 0x0301, 0x015A); (0x0073, 0x0301, 0x015B); (0x0053, 0x0302, 0x015C); (0x0073, 0x0302, 0x015D);
  (0x0053, 0x0327, 0x015E); (0x0073, 0x0327, 0x015F); (0x0053, 0x030C, 0x0160); (0x0073, 0x030C, 0x0161); (0x0054, 0x0327, 0x0162);
  (0x0074, 0x0327, 0x0163); (0x0054, 0x030C, 0x0164); (0x0074, 0x030C, 0x0165); (0x0055, 0x0303, 0x0168); (0x0075, 0x0303, 0x0169);
  (0x0055, 0x0304, 0x016A); (0x0075, 0x0304, 0x016B); (0x0055, 0x0306, 0x016C); (0x0075, 0x0306, 0x016D); (0x0055, 0x030A, 0x016E);
  (0x0075, 0x030A, 0x016F); (0x0055, 0x030B, 0x0170); (0x0075, 0x030B, 0x0171); (0x0055, 0x0328, 0x0172); (0x0075, 0x0328, 0x0173);
  (0x0057, 0x0302, 0x0174); (0x0077, 0x0302, 0x0175); (0x0059, 0x0302, 0x0176); (0x0079, 0x0302, 0x0177); (0x0059, 0x0308, 0x0178);
  (0x005A, 0x0301, 0x0179); (0x007A, 0x0301, 0x017A); (0x005A, 0x0307, 0x017B); (0x007A, 0x0307, 0x017C); (0x005A, 0x030C, 0x017D);
  (0x007A, 0x030C, 0x017E); (0x004F, 0x031B, 0x01A0); (0x006F, 0x031B, 0x01A1); (0x0055, 0x031B, 0x01AF); (0x0075, 0x031B, 0x01B0);
  (0x0041, 0x030C, 0x01CD); (0x0061, 0x030C, 0x01CE); (0x0049, 0x030C, 0x01CF); (0x0069, 0x030C, 0x01D0); (0x004F, 0x030C, 0x01D1);
  (0x006F, 0x030C, 0x01D2); (0x0055, 0x030C, 0x01D3); (0x0075, 0x030C, 0x01D4); (0x00DC, 0x0304, 0x01D5); (0x00FC, 0x0304, 0x01D6);
  (0x00DC, 0x0301, 0x01D7); (0x00FC, 0x0301, 0x01D8); (0x00DC, 0x030C, 0x01D9); (0x00FC, 0x030C, 0x01DA); (0x00DC, 0x0300, 0x01DB);
  (0x00FC, 0x0300, 0x01DC); (0x00C4, 0x0304, 0x01DE); (0x00E4, 0x0304, 0x01DF); (0x0226, 0x0304, 0x01E0); (0x0227, 0x0304, 0x01E1);
  (0x00C6, 0x0304, 0x01E2); (0x00E6, 0x0304, 0x01E3); (0x0047, 0x030C, 0x01E6); (0x0067, 0x030C, 0x01E7); (0x004B, 0x030C, 0x01E8);
  (0x006B, 0x030C, 0x01E9); (0x004F, 0x0328, 0x01EA); (0x006F, 0x0328, 0x01EB); (0x01EA, 0x0304, 0x01EC); (0x01EB, 0x0304, 0x01ED);
  (0x01B7, 0x030C, 0x01EE); (0x0292, 0x030C, 0x01EF); (0x006A, 0x030C, 0x01F0); (0x0047, 0x0301, 0x01F4); (0x0067, 0x0301, 0x01F5);
  (0x004E, 0x0300, 0x01F8); (0x006E, 0x0300, 0x01F9); (0x00C5, 0x0301, 0x01FA); (0x00E5, 0x0301, 0x01FB); (0x00C6, 0x0301, 0x01FC);
  (0x00E6, 0x0301, 0x01FD); (0x00D8, 0x0301, 0x01FE); (0x00F8, 0x0301, 0x01FF); (0x0041, 0x030F, 0x0200); (0x0061, 0x030F, 0x0201);
  (0x0041, 0x0311, 0x0202); (0x0061, 0x0311, 0x0203); (0x0045, 0x030F, 0x0204); (0x0065, 0x030F, 0x0205); (0x0045, 0x0311, 0x0206);
  (0x0065, 0x0311, 0x0207); (0x0049, 0x030F, 0x0208); (0x0069, 0x030F, 0x0209); (0x0049, 0x0311, 0x020A); (0x0069, 0x0311, 0x020B);
  (0x004F, 0x030F, 0x020C); (0x006F, 0x030F, 0x020D); (0x004F, 0x0311, 0x020E); (0x006F, 0x0311, 0x020F); (0x0052, 0x030F, 0x0210);
  (0x0072, 0x030F, 0x0211); (0x0052, 0x0311, 0x0212); (0x0072, 0x0311, 0x0213); (0x0055, 0x030F, 0x0214); (0x0075, 0x030F, 0x0215);
  (0x0055, 0x0311, 0x0216); (0x0075, 0x0311, 0x0217); (0x0053, 0x0326, 0x0218); (0x0073, 0x0326, 0x0219); (0x0054, 0x0326, 0x021A);
  (0x0074, 0x0326, 0x021B); (0x0048, 0x030C, 0x021E); (0x0068, 0x030C, 0x021F); (0x0041, 0x0307, 0x0226); (0x0061, 0x0307, 0x0227);
  (0x0045, 0x0327, 0x0228); (0x0065, 0x0327, 0x0229); (0x00D6, 0x0304, 0x022A); (0x00F6, 0x0304, 0x022B); (0x00D5, 0x0304, 0x022C);
  (0x00F5, 0x0304, 0x022D); (0x004F, 0x0307, 0x022E); (0x006F, 0x0307, 0x022F); (0x022E, 0x0304, 0x0230); (0x022F, 0x0304, 0x0231);
  (0x0059, 0x0304, 0x0232); (0x0079, 0x0304, 0x0233); (0x00A8, 0x0301, 0x0385); (0x0391, 0x0301, 0x0386); (0x0395, 0x0301, 0x0388);
  (0x0397, 0x0301, 0x0389); (0x0399, 0x0301, 0x038A); (0x039F, 0x0301, 0x038C); (0x03A5, 0x0301, 0x038E); (0x03A9, 0x0301, 0x038F);
  (0x03CA, 0x0301, 0x0390); (0x0399, 0x0308, 0x03AA); (0x03A5, 0x0308, 0x03AB); (0x03B1, 0x0301, 0x03AC); (0x03B5, 0x0301, 0x03AD);
  (0x03B7, 0x0301, 0x03AE); (0x03B9, 0x0301, 0x03AF); (0x03CB, 0x0301, 0x03B0); (0x03B9, 0x0308, 0x03CA); (0x03C5, 0x0308, 0x03CB);
  (0x03BF, 0x0301, 0x03CC); (0x03C5, 0x0301, 0x03CD); (0x03C9, 0x0301, 0x03CE); (0x03D2, 0x0301, 0x03D3); (0x03D2, 0x0308, 0x03D4);
  (0x0415, 0x0300, 0x0400); (0x0415, 0x0308, 0x0401); (0x0413, 0x0301, 0x0403); (0x0406, 0x0308, 0x0407); (0x041A, 0x0301, 0x040C);
  (0x0418, 0x0300, 0x040D); (0x0423, 0x0306, 0x040E); (0x0418, 0x0306, 0x0419); (0x0438, 0x0306, 0x0439); (0x0435, 0x0300, 0x0450);
  (0x0435, 0x0308, 0x0451); (0x0433, 0x0301, 0x0453); (0x0456, 0x0308, 0x0457); (0x043A, 0x0301, 0x045C); (0x0438, 0x0300, 0x045D);
  (0x0443, 0x0306, 0x045E); (0x0474, 0x030F, 0x0476); (0x0475, 0x030F, 0x0477); (0x0416, 0x0306, 0x04C1); (0x0436, 0x0306, 0x04C2);
  (0x0410, 0x0306, 0x04D0); (0x0430, 0x0306, 0x04D1); (0x0410, 0x0308, 0x04D2); (0x0430, 0x0308, 0x04D3); (0x0415, 0x0306, 0x04D6);
  (0x0435, 0x0306, 0x04D7); (0x04D8, 0x0308, 0x04DA); (0x04D9, 0x0308, 0x04DB); (0x0416, 0x0308, 0x04DC); (0x0436, 0x0308, 0x04DD);
  (0x0417, 0x0308, 0x04DE); (0x0437, 0x0308, 0x04DF); (0x0418, 0x0304, 0x04E2); (0x0438, 0x0304, 0x04E3); (0x0418, 0x0308, 0x04E4);
  (0x0438, 0x0308, 0x04E5); (0x041E, 0x0308, 0x04E6); (0x043E, 0x0308, 0x04E7); (0x04E8, 0x0308, 0x04EA); (0x04E9, 0x0308, 0x04EB);
  (0x042D, 0x0308, 0x04EC); (0x044D, 0x0308, 0x04ED); (0x0423, 0x0304, 0x04EE); (0x0443, 0x0304, 0x04EF); (0x0423, 0x0308, 0x04F0);
  (0x0443, 0x0308, 0x04F1); (0x0423, 0x030B, 0x04F2); (0x0443, 0x030B, 0x04F3); (0x0427, 0x0308, 0x04F4); (0x0447, 0x0308, 0x04F5);
  (0x042B, 0x0308, 0x04F8); (0x044B, 0x0308, 0x04F9); (0x0627, 0x0653, 0x0622); (0x0627, 0x0654, 0x0623); (0x0648, 0x0654, 0x0624);
  (0x0627, 0x0655, 0x0625); (0x064A, 0x0654, 0x0626); (0x06D5, 0x0654, 0x06C0); (0x06C1, 0x0654, 0x06C2); (0x06D2, 0x0654, 0x06D3);
  (0x0928, 0x093C, 0x0929); (0x0930, 0x093C, 0x0931); (0x0933, 0x093C, 0x0934); (0x09C7, 0x09BE, 0x09CB); (0x09C7, 0x09D7, 0x09CC);
  (0x0B47, 0x0B56, 0x0B48); (0x0B47, 0x0B3E, 0x0B4B); (0x0B47, 0x0B57, 0x0B4C); (0x0B92, 0x0BD7, 0x0B94); (0x0BC6, 0x0BBE, 0x0BCA);
  (0x0BC7, 0x0BBE, 0x0BCB); (0x0BC6, 0x0BD7, 0x0BCC); (0x0C46, 0x0C56, 0x0C48); (0x0CBF, 0x0CD5, 0x0CC0); (0x0CC6, 0x0CD5, 0x0CC7);
  (0x0CC6, 0x0CD6, 0x0CC8); (0x0CC6, 0x0CC2, 0x0CCA); (0x0CCA, 0x0CD5, 0x0CCB); (0x0D46, 0x0D3E, 0x0D4A); (0x0D47, 0x0D3E, 0x0D4B);
  (0x0D46, 0x0D57, 0x0D4C); (0x0DD9, 0x0DCA, 0x0DDA); (0x0DD9, 0x0DCF, 0x0DDC); (0x0DDC, 0x0DCA, 0x0DDD); (0x0DD9, 0x0DDF, 0x0DDE);
  (0x1025, 0x102E, 0x1026); (0x1B05, 0x1B35, 0x1B06); (0x1B07, 0x1B35, 0x1B08); (0x1B09, 0x1B35, 0x1B0A); (0x1B0B, 0x1B35, 0x1B0C);
  (0x1B0D, 0x1B35, 0x1B0E); (0x1B11, 0x1B35, 0x1B12); (0x1B3A, 0x1B35, 0x1B3B); (0x1B3C, 0x1B35, 0x1B3D); (0x1B3E, 0x1B35, 0x1B40);
  (0x1B3F, 0x1B35, 0x1B41); (0x1B42, 0x1B35, 0x1B43); (0x0041, 0x0325, 0x1E00); (0x0061, 0x0325, 0x1E01); (0x0042, 0x0307, 0x1E02);
  (0x0062, 0x0307, 0x1E03); (0x0042, 0x0323, 0x1E04); (0x0062, 0x0323, 0x1E05); (0x0042, 0x0331, 0x1E06); (0x0062, 0x0331, 0x1E07);
  (0x00C7, 0x0301, 0x1E08); (0x00E7, 0x0301, 0x1E09); (0x0044, 0x0307, 0x1E0A); (0x0064, 0x0307, 0x1E0B); (0x0044, 0x0323, 0x1E0C);
  (0x0064, 0x0323, 0x1E0D); (0x0044, 0x0331, 0x1E0E); (0x0064, 0x0331, 0x1E0F); (0x0044, 0x0327, 0x1E10); (0x0064, 0x0327, 0x1E11);
  (0x0044, 0x032D, 0x1E12); (0x0064, 0x032D, 0x1E13); (0x0112, 0x0300, 0x1E14); (0x0113, 0x0300, 0x1E15); (0x0112, 0x0301, 0x1E16);
  (0x0113, 0x0301, 0x1E17); (0x0045, 0x032D, 0x1E18); (0x0065, 0x032D, 0x1E19); (0x0045, 0x0330, 0x1E1A); (0x0065, 0x0330, 0x1E1B);
  (0x0228, 0x0306, 0x1E1C); (0x0229, 0x0306, 0x1E1D); (0x0046, 0x0307, 0x1E1E); (0x0066, 0x0307, 0x1E1F); (0x0047, 0x0304, 0x1E20);
  (0x0067, 0x0304, 0x1E21); (0x0048, 0x0307, 0x1E22); (0x0068, 0x0307, 0x1E23); (0x0048, 0x0323, 0x1E24); (0x0068, 0x0323, 0x1E25);
  (0x0048, 0x0308, 0x1E26); (0x0068, 0x0308, 0x1E27); (0x0048, 0x0327, 0x1E28); (0x0068, 0x0327, 0x1E29); (0x0048, 0x032E, 0x1E2A);
  (0x0068, 0x032E, 0x1E2B); (0x0049, 0x0330, 0x1E2C); (0x0069, 0x0330, 0x1E2D); (0x00CF, 0x0301, 0x1E2E); (0x00EF, 0x0301, 0x1E2F);
  (0x004B, 0x0301, 0x1E30); (0x006B, 0x0301, 0x1E31); (0x004B, 0x0323, 0x1E32); (0x006B, 0x0323, 0x1E33); (0x004B, 0x0331, 0x1E34);
  (0x006B, 0x0331, 0x1E35); (0x004C, 0x0323, 0x1E36); (0x006C, 0x0323, 0x1E37); (0x1E36, 0x0304, 0x1E38); (0x1E37, 0x0304, 0x1E39);
  (0x004C, 0x0331, 0x1E3A); (0x006C, 0x0331, 0x1E3B); (0x004C, 0x032D, 0x1E3C); (0x006C, 0x032D, 0x1E3D); (0x004D, 0x0301, 0x1E3E);
  (0x006D, 0x0301, 0x1E3F); (0x004D, 0x0307, 0x1E40); (0x006D, 0x0307, 0x1E41); (0x004D, 0x0323, 0x1E42); (0x006D, 0x0323, 0x1E43);
  (0x004E, 0x0307, 0x1E44); (0x006E, 0x0307, 0x1E45); (0x004E, 0x0323, 0x1E46); (0x006E, 0x0323, 0x1E47); (0x004E, 0x0331, 0x1E48);
  (0x006E, 0x0331, 0x1E49); (0x004E, 0x032D, 0x1E4A); (0x006E, 0x032D, 0x1E4B); (0x00D5, 0x0301, 0x1E4C); (0x00F5, 0x0301, 0x1E4D);
  (0x00D5, 0x0308, 0x1E4E); (0x00F5, 0x0308, 0x1E4F); (0x014C, 0x0300, 0x1E50); (0x014D, 0x0300, 0x1E51); (0x014C, 0x0301, 0x1E52);
  (0x014D, 0x0301, 0x1E53); (0x0050, 0x0301, 0x1E54); (0x0070, 0x0301, 0x1E55); (0x0050, 0x0307, 0x1E56); (0x0070, 0x0307, 0x1E57);
  (0x0052, 0x0307, 0x1E58); (0x0072, 0x0307, 0x1E59); (0x0052, 0x0323, 0x1E5A); (0x0072, 0x0323, 0x1E5B); (0x1E5A, 0x0304, 0x1E5C);
  (0x1E5B, 0x0304, 0x1E5D); (0x0052, 0x0331, 0x1E5E); (0x0072, 0x0331, 0x1E5F); (0x0053, 0x0307, 0x1E60); (0x0073, 0x0307, 0x1E61);
  (0x0053, 0x0323, 0x1E62); (0x0073, 0x0323, 0x1E63); (0x015A, 0x0307, 0x1E64); (0x015B, 0x0307, 0x1E65); (0x0160, 0x0307, 0x1E66);
  (0x0161, 0x0307, 0x1E67); (0x1E62, 0x0307, 0x1E68); (0x1E63, 0x0307, 0x1E69); (0x0054, 0x0307, 0x1E6A); (0x0074, 0x0307, 0x1E6B);
  (0x0054, 0x0323, 0x1E6C); (0x0074, 0x0323, 0x1E6D); (0x0054, 0x0331, 0x1E6E); (0x0074, 0x0331, 0x1E6F); (0x0054, 0x032D, 0x1E70);
  (0x0074, 0x032D, 0x1E71); (0x0055, 0x0324, 0x1E72); (0x0075, 0x0324, 0x1E73); (0x0055, 0x0330, 0x1E74); (0x0075, 0x0330, 0x1E75);
  (0x0055, 0x032D, 0x1E76); (0x0075, 0x032D, 0x1E77); (0x0168, 0x0301, 0x1E78); (0x0169, 0x0301, 0x1E79); (0x016A, 0x0308, 0x1E7A);
  (0x016B, 0x0308, 0x1E7B); (0x0056, 0x0303, 0x1E7C); (0x0076, 0x0303, 0x1E7D); (0x0056, 0x0323, 0x1E7E); (0x0076, 0x0323, 0x1E7F);
  (0x0057, 0x0300, 0x1E80); (0x0077, 0x0300, 0x1E81); (0x0057, 0x0301, 0x1E82); (0x0077, 0x0301, 0x1E83); (0x0057, 0x0308, 0x1E84);
  (0x0077, 0x0308, 0x1E85); (0x0057, 0x0307, 0x1E86); (0x0077, 0x0307, 0x1E87); (0x0057, 0x0323, 0x1E88); (0x0077, 0x0323, 0x1E89);
  (0x0058, 0x0307, 0x1E8A); (0x0078, 0x0307, 0x1E8B); (0x0058, 0x0308, 0x1E8C); (0x0078, 0x0308, 0x1E8D); (0x0059, 0x0307, 0x1E8E);
  (0x0079, 0x0307, 0x1E8F); (0x005A, 0x0302, 0x1E90); (0x007A, 0x0302, 0x1E91); (0x005A, 0x0323, 0x1E92); (0x007A, 0x0323, 0x1E93);
  (0x005A, 0x0331, 0x1E94); (0x007A, 0x0331, 0x1E95); (0x0068, 0x0331, 0x1E96); (0x0074, 0x0308, 0x1E97); (0x0077, 0x030A, 0x1E98);
  (0x0079, 0x030A, 0x1E99); (0x017F, 0x0307, 0x1E9B); (0x0041, 0x0323, 0x1EA0); (0x0061, 0x0323, 0x1EA1); (0x0041, 0x0309, 0x1EA2);
  (0x0061, 0x0309, 0x1EA3); (0x00C2, 0x0301, 0x1EA4); (0x00E2, 0x0301, 0x1EA5); (0x00C2, 0x0300, 0x1EA6); (0x00E2, 0x0300, 0x1EA7);
  (0x00C2, 0x0309, 0x1EA8); (0x00E2, 0x0309, 0x1EA9); (0x00C2, 0x0303, 0x1EAA); (0x00E2, 0x0303, 0x1EAB); (0x1EA0, 0x0302, 0x1EAC);
  (0x1EA1, 0x0302, 0x1EAD); (0x0102, 0x0301, 0x1EAE); (0x0103, 0x0301, 0x1EAF); (0x0102, 0x0300, 0x1EB0); (0x0103, 0x0300, 0x1EB1);
  (0x0102, 0x0309, 0x1EB2); (0x0103, 0x0309, 0x1EB3); (0x0102, 0x0303, 0x1EB4); (0x0103, 0x0303, 0x1EB5); (0x1EA0, 0x0306, 0x1EB6);
  (0x1EA1, 0x0306, 0x1EB7); (0x0045, 0x0323, 0x1EB8); (0x0065, 0x0323, 0x1EB9); (0x0045, 0x0309, 0x1EBA); (0x0065, 0x0309, 0x1EBB);
  (0x0045, 0x0303, 0x1EBC); (0x0065, 0x0303, 0x1EBD); (0x00CA, 0x0301, 0x1EBE); (0x00EA, 0x0301, 0x1EBF); (0x00CA, 0x0300, 0x1EC0);
  (0x00EA, 0x0300, 0x1EC1); (0x00CA, 0x0309, 0x1EC2); (0x00EA, 0x0309, 0x1EC3); (0x00CA, 0x0303, 0x1EC4); (0x00EA, 0x0303, 0x1EC5);
  (0x1EB8, 0x0302, 0x1EC6); (0x1EB9, 0x0302, 0x1EC7); (0x0049, 0x0309, 0x1EC8); (0x0069, 0x0309, 0x1EC9); (0x0049, 0x0323, 0x1ECA);
  (0x0069, 0x0323, 0x1ECB); (0x004F, 0x0323, 0x1ECC); (0x006F, 0x0323, 0x1ECD); (0x004F, 0x0309, 0x1ECE); (0x006F, 0x0309, 0x1ECF);
  (0x00D4, 0x0301, 0x1ED0); (0x00F4, 0x0301, 0x1ED1); (0x00D4, 0x0300, 0x1ED2); (0x00F4, 0x0300, 0x1ED3); (0x00D4, 0x0309, 0x1ED4);
  (0x00F4, 0x0309, 0x1ED5); (0x00D4, 0x0303, 0x1ED6); (0x00F4, 0x0303, 0x1ED7); (0x1ECC, 0x0302, 0x1ED8); (0x1ECD, 0x0302, 0x1ED9);
  (0x01A0, 0x0301, 0x1EDA); (0x01A1, 0x0301, 0x1EDB); (0x01A0, 0x0300, 0x1EDC); (0x01A1, 0x0300, 0x1EDD); (0x01A0, 0x0309, 0x1EDE);
  (0x01A1, 0x0309, 0x1EDF); (0x01A0, 0x0303, 0x1EE0); (0x01A1, 0x0303, 0x1EE1); (0x01A0, 0x0323, 0x1EE2); (0x01A1, 0x0323, 0x1EE3);
  (0x0055, 0x0323, 0x1EE4); (0x0075, 0x0323, 0x1EE5); (0x0055, 0x0309, 0x1EE6); (0x0075, 0x0309, 0x1EE7); (0x01AF, 0x0301, 0x1EE8);
  (0x01B0, 0x0301, 0x1EE9); (0x01AF, 0x0300, 0x1EEA); (0x01B0, 0x0300, 0x1EEB); (0x01AF, 0x0309, 0x1EEC); (0x01B0, 0x0309, 0x1EED);
  (0x01AF, 0x0303, 0x1EEE); (0x01B0, 0x0303, 0x1EEF); (0x01AF, 0x0323, 0x1EF0); (0x01B0, 0x0323, 0x1EF1); (0x0059, 0x0300, 0x1EF2);
  (0x0079, 0x0300, 0x1EF3); (0x0059, 0x0323, 0x1EF4); (0x0079, 0x0323, 0x1EF5); (0x0059, 0x0309, 0x1EF6); (0x0079, 0x0309, 0x1EF7);
  (0x0059, 0x0303, 0x1EF8); (0x0079, 0x0303, 0x1EF9); (0x03B1, 0x0313, 0x1F00); (0x03B1, 0x0314, 0x1F01); (0x1F00, 0x0300, 0x1F02);
  (0x1F01, 0x0300, 0x1F03); (0x1F00, 0x0301, 0x1F04); (0x1F01, 0x0301, 0x1F05); (0x1F00, 0x0342, 0x1F06); (0x1F01, 0x0342, 0x1F07);
  (0x0391, 0x0313, 0x1F08); (0x0391, 0x0314, 0x1F09); (0x1F08, 0x0300, 0x1F0A); (0x1F09, 0x0300, 0x1F0B); (0x1F08, 0x0301, 0x1F0C);
  (0x1F09, 0x0301, 0x1F0D); (0x1F08, 0x0342, 0x1F0E); (0x1F09, 0x0342, 0x1F0F); (0x03B5, 0x0313, 0x1F10); (0x03B5, 0x0314, 0x1F11);
  (0x1F10, 0x0300, 0x1F12); (0x1F11, 0x0300, 0x1F13); (0x1F10, 0x0301, 0x1F14); (0x1F11, 0x0301, 0x1F15); (0x0395, 0x0313, 0x1F18);
  (0x0395, 0x0314, 0x1F19); (0x1F18, 0x0300, 0x1F1A); (0x1F19, 0x0300, 0x1F1B); (0x1F18, 0x0301, 0x1F1C); (0x1F19, 0x0301, 0x1F1D);
  (0x03B7, 0x0313, 0x1F20); (0x03B7, 0x0314, 0x1F21); (0x1F20, 0x0300, 0x1F22); (0x1F21, 0x0300, 0x1F23); (0x1F20, 0x0301, 0x1F24);
  (0x1F21, 0x0301, 0x1F25); (0x1F20, 0x0342, 0x1F26); (0x1F21, 0x0342, 0x1F27); (0x0397, 0x0313, 0x1F28); (0x0397, 0x0314, 0x1F29);
  (0x1F28, 0x0300, 0x1F2A); (0x1F29, 0x0300, 0x1F2B); (0x1F28, 0x0301, 0x1F2C); (0x1F29, 0x0301, 0x1F2D); (0x1F28, 0x0342, 0x1F2E);
  (0x1F29, 0x0342, 0x1F2F); (0x03B9, 0x0313, 0x1F30); (0x03B9, 0x0314, 0x1F31); (0x1F30, 0x0300, 0x1F32); (0x1F31, 0x0300, 0x1F33);
  (0x1F30, 0x0301, 0x1F34); (0x1F31, 0x0301, 0x1F35); (0x1F30, 0x0342, 0x1F36); (0x1F31, 0x0342, 0x1F37); (0x0399, 0x0313, 0x1F38);
  (0x0399, 0x0314, 0x1F39); (0x1F38, 0x0300, 0x1F3A); (0x1F39, 0x0300, 0x1F3B); (0x1F38, 0x0301, 0x1F3C); (0x1F39, 0x0301, 0x1F3D);
  (0x1F38, 0x0342, 0x1F3E); (0x1F39, 0x0342, 0x1F3F); (0x03BF, 0x0313, 0x1F40); (0x03BF, 0x0314, 0x1F41); (0x1F40, 0x0300, 0x1F42);
  (0x1F41, 0x0300, 0x1F43); (0x1F40, 0x0301, 0x1F44); (0x1F41, 0x0301, 0x1F45); (0x039F, 0x0313, 0x1F48); (0x039F, 0x0314, 0x1F49);
  (0x1F48, 0x0300, 0x1F4A); (0x1F49, 0x0300, 0x1F4B); (0x1F48, 0x0301, 0x1F4C); (0x1F49, 0x0301, 0x1F4D); (0x03C5, 0x0313, 0x1F50);
  (0x03C5, 0x0314, 0x1F51); (0x1F50, 0x0300, 0x1F52); (0x1F51, 0x0300, 0x1F53); (0x1F50, 0x0301, 0x1F54); (0x1F51, 0x0301, 0x1F55);
  (0x1F50, 0x0342, 0x1F56); (0x1F51, 0x0342, 0x1F57); (0x03A5, 0x0314, 0x1F59); (0x1F59, 0x0300, 0x1F5B); (0x1F59, 0x0301, 0x1F5D);
  (0x1F59, 0x0342, 0x1F5F); (0x03C9, 0x0313, 0x1F60); (0x03C9, 0x0314, 0x1F61); (0x1F60, 0x0300, 0x1F62); (0x1F61, 0x0300, 0x1F63);
  (0x1F60, 0x0301, 0x1F64); (0x1F61, 0x0301, 0x1F65); (0x1F60, 0x0342, 0x1F66); (0x1F61, 0x0342, 0x1F67); (0x03A9, 0x0313, 0x1F68);
  (0x03A9, 0x0314, 0x1F69); (0x1F68, 0x0300, 0x1F6A); (0x1F69, 0x0300, 0x1F6B); (0x1F68, 0x0301, 0x1F6C); (0x1F69, 0x0301, 0x1F6D);
  (0x1F68, 0x0342, 0x1F6E); (0x1F69, 0x0342, 0x1F6F); (0x03B1, 0x0300, 0x1F70); (0x03B5, 0x0300, 0x1F72); (0x03B7, 0x0300, 0x1F74);
  (0x03B9, 0x0300, 0x1F76); (0x03BF, 0x0300, 0x1F78); (0x03C5, 0x0300, 0x1F7A); (0x03C9, 0x0300, 0x1F7C); (0x1F00, 0x0345, 0x1F80);
  (0x1F01, 0x0345, 0x1F81); (0x1F02, 0x0345, 0x1F82); (0x1F03, 0x0345, 0x1F83); (0x1F04, 0x0345, 0x1F84); (0x1F05, 0x0345, 0x1F85);
  (0x1F06, 0x0345, 0x1F86); (0x1F07, 0x0345, 0x1F87); (0x1F08, 0x0345, 0x1F88); (0x1F09, 0x0345, 0x1F89); (0x1F0A, 0x0345, 0x1F8A);
  (0x1F0B, 0x0345, 0x1F8B); (0x1F0C, 0x0345, 0x1F8C); (0x1F0D, 0x0345, 0x1F8D); (0x1F0E, 0x0345, 0x1F8E); (0x1F0F, 0x0345, 0x1F8F);
  (0x1F20, 0x0345, 0x1F90); (0x1F21, 0x0345, 0x1F91); (0x1F22, 0x0345, 0x1F92); (0x1F23, 0x0345, 0x1F93); (0x1F24, 0x0345, 0x1F94);
  (0x1F25, 0x0345, 0x1F95); (0x1F26, 0x0345, 0x1F96); (0x1F27, 0x0345, 0x1F97); (0x1F28, 0x0345, 0x1F98); (0x1F29, 0x0345, 0x1F99);
  (0x1F2A, 0x0345, 0x1F9A); (0x1F2B, 0x0345, 0x1F9B); (0x1F2C, 0x0345, 0x1F9C); (0x1F2D, 0x0345, 0x1F9D); (0x1F2E, 0x0345, 0x1F9E);
  (0x1F2F, 0x0345, 0x1F9F); (0x1F60, 0x0345, 0x1FA0); (0x1F61, 0x0345, 0x1FA1); (0x1F62, 0x0345, 0x1FA2); (0x1F63, 0x0345, 0x1FA3);
  (0x1F64, 0x0345, 0x1FA4); (0x1F65, 0x0345, 0x1FA5); (0x1F66, 0x0345, 0x1FA6); (0x1F67, 0x0345, 0x1FA7); (0x1F68, 0x0345, 0x1FA8);
  (0x1F69, 0x0345, 0x1FA9); (0x1F6A, 0x0345, 0x1FAA); (0x1F6B, 0x0345, 0x1FAB); (0x1F6C, 0x0345, 0x1FAC); (0x1F6D, 0x0345, 0x1FAD);
  (0x1F6E, 0x0345, 0x1FAE); (0x1F6F, 0x0345, 0x1FAF); (0x03B1, 0x0306, 0x1FB0); (0x03B1, 0x0304, 0x1FB1); (0x1F70, 0x0345, 0x1FB2);
  (0x03B1, 0x0345, 0x1FB3); (0x03AC, 0x0345, 0x1FB4); (0x03B1, 0x0342, 0x1FB6); (0x1FB6, 0x0345, 0x1FB7); (0x0391, 0x0306, 0x1FB8);
  (0x0391, 0x0304, 0x1FB9); (0x0391, 0x0300, 0x1FBA); (0x0391, 0x0345, 0x1FBC); (0x00A8, 0x0342, 0x1FC1); (0x1F74, 0x0345, 0x1FC2);
  (0x03B7, 0x0345, 0x1FC3); (0x03AE, 0x0345, 0x1FC4); (0x03B7, 0x0342, 0x1FC6); (0x1FC6, 0x0345, 0x1FC7); (0x0395, 0x0300, 0x1FC8);
  (0x0397, 0x0300, 0x1FCA); (0x0397, 0x0345, 0x1FCC); (0x1FBF, 0x0300, 0x1FCD); (0x1FBF, 0x0301, 0x1FCE); (0x1FBF, 0x0342, 0x1FCF);
  (0x03B9, 0x0306, 0x1FD0); (0x03B9, 0x0304, 0x1FD1); (0x03CA, 0x0300, 0x1FD2); (0x03B9, 0x0342, 0x1FD6); (0x03CA, 0x0342, 0x1FD7);
  (0x0399, 0x0306, 0x1FD8); (0x0399, 0x0304, 0x1FD9); (0x0399, 0x0300, 0x1FDA); (0x1FFE, 0x0300, 0x1FDD); (0x1FFE, 0x0301, 0x1FDE);
  (0x1FFE, 0x0342, 0x1FDF); (0x03C5, 0x0306, 0x1FE0); (0x03C5, 0x0304, 0x1FE1); (0x03CB, 0x0300, 0x1FE2); (0x03C1, 0x0313, 0x1FE4);
  (0x03C1, 0x0314, 0x1FE5); (0x03C5, 0x0342, 0x1FE6); (0x03CB, 0x0342, 0x1FE7); (0x03A5, 0x0306, 0x1FE8); (0x03A5, 0x0304, 0x1FE9);
  (0x03A5, 0x0300, 0x1FEA); (0x03A1, 0x0314, 0x1FEC); (0x00A8, 0x0300, 0x1FED); (0x1F7C, 0x0345, 0x1FF2); (0x03C9, 0x0345, 0x1FF3);
  (0x03CE, 0x0345, 0x1FF4); (0x03C9, 0x0342, 0x1FF6); (0x1FF6, 0x0345, 0x1FF7); (0x039F, 0x0300, 0x1FF8); (0x03A9, 0x0300, 0x1FFA);
  (0x03A9, 0x0345, 0x1FFC); (0x2190, 0x0338, 0x219A); (0x2192, 0x0338, 0x219B); (0x2194, 0x0338, 0x21AE); (0x21D0, 0x0338, 0x21CD);
  (0x21D4, 0x0338, 0x21CE); (0x21D2, 0x0338, 0x21CF); (0x2203, 0x0338, 0x2204); (0x2208, 0x0338, 0x2209); (0x220B, 0x0338, 0x220C);
  (0x2223, 0x0338, 0x2224); (0x2225, 0x0338, 0x2226); (0x223C, 0x0338, 0x2241); (0x2243, 0x0338, 0x2244); (0x2245, 0x0338, 0x2247);
  (0x2248, 0x0338, 0x2249); (0x003D, 0x0338, 0x2260); (0x2261, 0x0338, 0x2262); (0x224D, 0x0338, 0x226D); (0x003C, 0x0338, 0x226E);
  (0x003E, 0x0338, 0x226F); (0x2264, 0x0338, 0x2270); (0x2265, 0x0338, 0x2271); (0x2272, 0x0338, 0x2274); (0x2273, 0x0338, 0x2275);
  (0x2276, 0x0338, 0x2278); (0x2277, 0x0338, 0x2279); (0x227A, 0x0338, 0x2280); (0x227B, 0x0338, 0x2281); (0x2282, 0x0338, 0x2284);
  (0x2283, 0x0338, 0x2285); (0x2286, 0x0338, 0x2288); (0x2287, 0x0338, 0x2289); (0x22A2, 0x0338, 0x22AC); (0x22A8, 0x0338, 0x22AD);
  (0x22A9, 0x0338, 0x22AE); (0x22AB, 0x0338, 0x22AF); (0x227C, 0x0338, 0x22E0); (0x227D, 0x0338, 0x22E1); (0x2291, 0x0338, 0x22E2);
  (0x2292, 0x0338, 0x22E3); (0x22B2, 0x0338, 0x22EA); (0x22B3, 0x0338, 0x22EB); (0x22B4, 0x0338, 0x22EC); (0x22B5, 0x0338, 0x22ED);
  (0x304B, 0x3099, 0x304C); (0x304D, 0x3099, 0x304E); (0x304F, 0x3099, 0x3050); (0x3051, 0x3099, 0x3052); (0x3053, 0x3099, 0x3054);
  (0x3055, 0x3099, 0x3056); (0x3057, 0x3099, 0x3058); (0x3059, 0x3099, 0x305A); (0x305B, 0x3099, 0x305C); (0x305D, 0x3099, 0x305E);
  (0x305F, 0x3099, 0x3060); (0x3061, 0x3099, 0x3062); (0x3064, 0x3099, 0x3065); (0x3066, 0x3099, 0x3067); (0x3068, 0x3099, 0x3069);
  (0x306F, 0x3099, 0x3070); (0x306F, 0x309A, 0x3071); (0x3072, 0x3099, 0x3073); (0x3072, 0x309A, 0x3074); (0x3075, 0x3099, 0x3076);
  (0x3075, 0x309A, 0x3077); (0x3078, 0x3099, 0x3079); (0x3078, 0x309A, 0x307A); (0x307B, 0x3099, 0x307C); (0x307B, 0x309A, 0x307D);
  (0x3046, 0x3099, 0x3094); (0x309D, 0x3099, 0x309E); (0x30AB, 0x3099, 0x30AC); (0x30AD, 0x3099, 0x30AE); (0x30AF, 0x3099, 0x30B0);
  (0x30B1, 0x3099, 0x30B2); (0x30B3, 0x3099, 0x30B4); (0x30B5, 0x3099, 0x30B6); (0x30B7, 0x3099, 0x30B8); (0x30B9, 0x3099, 0x30BA);
  (0x30BB, 0x3099, 0x30BC); (0x30BD, 0x3099, 0x30BE); (0x30BF, 0x3099, 0x30C0); (0x30C1, 0x3099, 0x30C2); (0x30C4, 0x3099, 0x30C5);
  (0x30C6, 0x3099, 0x30C7); (0x30C8, 0x3099, 0x30C9); (0x30CF, 0x3099, 0x30D0); (0x30CF, 0x309A, 0x30D1); (0x30D2, 0x3099, 0x30D3);
  (0x30D2, 0x309A, 0x30D4); (0x30D5, 0x3099, 0x30D6); (0x30D5, 0x309A, 0x30D7); (0x30D8, 0x3099, 0x30D9); (0x30D8, 0x309A, 0x30DA);
  (0x30DB, 0x3099, 0x30DC); (0x30DB, 0x309A, 0x30DD); (0x30A6, 0x3099, 0x30F4); (0x30EF, 0x3099, 0x30F7); (0x30F0, 0x3099, 0x30F8);
  (0x30F1, 0x3099, 0x30F9); (0x30F2, 0x3099, 0x30FA); (0x30FD, 0x3099, 0x30FE); (0x11099, 0x110BA, 0x1109A); (0x1109B, 0x110BA, 0x1109C);
  (0x110A5, 0x110BA, 0x110AB); (0x11131, 0x11127, 0x1112E); (0x11132, 0x11127, 0x1112F); (0x11347, 0x1133E, 0x1134B); (0x11347, 0x11357, 0x1134C);
  (0x114B9, 0x114BA, 0x114BB); (0x114B9, 0x114B0, 0x114BC); (0x114B9, 0x114BD, 0x114BE); (0x115B8, 0x115AF, 0x115BA); (0x115B9, 0x115AF, 0x115BB);
  (0x11935, 0x11930, 0x11938)
].

Definition SBase := 0xAC00.
Definition LBase := 0x1100.
Definition VBase := 0x1161.
Definition TBase := 0x11A7.
Definition LCount := 19.
Definition VCount := 21.
Definition TCount := 28.
Definition NCount := VCount * TCount.
Definition SCount := LCount * NCount.

Definition is_hangul_syllable (c : Z) : bool :=
  (SBase <=? c) && (c <? SBase + SCount).

(** The full canonical decomposition of one character. *)
Definition decompose_char (c : Z) : list Z :=
  if is_hangul_syllable c then
    let SIndex := c - SBase in
    let L := LBase + SIndex / NCount in
    let V := VBase + (SIndex mod NCount) / TCount in
    let T := TBase + SIndex mod TCount in
    if T =? TBase then [L; V] else [L; V; T]
  else default [c] (Py.assoc c canonical_decomposition).

(** The canonical combining class. *)
Definition combining (c : Z) : Z :=
  match List.find (fun r => (r.1.1 <=? c) && (c <=? r.1.2)) combining_classes with
  | Some r => r.2
  | None => 0
  end.

(** Canonical ordering: a mark moves left past the marks of a higher class
    that stand directly before it.  [acc] is the text so far, reversed. *)
Fixpoint insert_mark (c cc : Z) (acc : list Z) : list Z :=
  match acc with
  | [] => [c]
  | p :: acc' =>
    if negb (combining p =? 0) && (cc <? combining p)
    then p :: insert_mark c cc acc'
    else c :: acc
  end.

Definition reorder_step (acc : list Z) (c : Z) : list Z :=
  if combining c =? 0 then c :: acc else insert_mark c (combining c) acc.

Definition canonical_order (s : list Z) : list Z :=
  rev (fold_left reorder_step s []).

Definition nfd (s : list Z) : list Z :=
  canonical_order (flat_map decompose_char s).

(** The primary composite of a pair, if it has one. *)
Definition primary_composite (a b : Z) : option Z :=
  if (LBase <=? a) && (a <? LBase + LCount) && (VBase <=? b) && (b <? VBase + VCount)
  then Some (SBase + ((a - LBase) * VCount + (b - VBase)) * TCount)
  else if is_hangul_syllable a && ((a - SBase) mod TCount =? 0)
          && (TBase <? b) && (b <? TBase + TCount)
  then Some (a + (b - TBase))
  else (fun r => r.2) <$>
       List.find (fun r => (r.1.1 =? a) && (r.1.2 =? b)) primary_composites.

(** Canonical composition of a canonically ordered text.  [starter] is the
    last starter, [pending] the marks kept after it (reversed) and [last]
    the class of the latest of them, 0 when there is none: a character
    combines with the starter unless a kept mark of its class or higher, or
    a starter, stands between them. *)
Fixpoint compose_from (starter : Z) (pending : list Z) (last : Z) (rest : list Z)
  : list Z :=
  match rest with
  | [] => starter :: rev pending
  | c :: rest' =>
    let cc := combining c in
    if negb (last =? 0) && (cc =? 0)
    then starter :: rev pending ++ compose_from c [] 0 rest'
    else if negb (last =? 0) && (cc <=? last)
    then compose_from starter (c :: pending) last rest'
    else
      match primary_composite starter c with
      | Some p => compose_from p pending last rest'
      | None =>
        if cc =? 0
        then starter :: rev pending ++ compose_from c [] 0 rest'
        else compose_from starter (c :: pending) cc rest'
      end
  end.

Definition compose (s : list Z) : list Z :=
  match s with
  | [] => []
  | c :: rest => compose_from c [] (combining c) rest
  end.

Definition nfc (s : list Z) : list Z := compose (nfd s).

End Unicode.

(** ** The repair functions of fix_tokenizer.py *)

Definition FULLWIDTH_BAR : str := [0xFF5C].
Definition SPM_BLOCK : str := [0x2581].
Definition CANON_BOS : str :=
  Py.lit "<" ++ FULLWIDTH_BAR ++ Py.lit "begin" ++ SPM_BLOCK ++ Py.lit "of"
  ++ SPM_BLOCK ++ Py.lit "sentence" ++ FULLWIDTH_BAR ++ Py.lit ">".
Definition CANON_EOS : str :=
  Py.lit "<" ++ FULLWIDTH_BAR ++ Py.lit "end" ++ SPM_BLOCK ++ Py.lit "of"
  ++ SPM_BLOCK ++ Py.lit "sentence" ++ FULLWIDTH_BAR ++ Py.lit ">".
Definition CANON_USER : str :=
  Py.lit "<" ++ FULLWIDTH_BAR ++ Py.lit "User" ++ FULLWIDTH_BAR ++ Py.lit ">".
Definition CANON_ASSISTANT : str :=
  Py.lit "<" ++ FULLWIDTH_BAR ++ Py.lit "Assistant" ++ FULLWIDTH_BAR ++ Py.lit ">".

Definition ZERO_WIDTHS : gset Z :=
  {[ 0xFEFF; 0x200B; 0x2060; 0x200D; 0x200C; 0x200E; 0x200F; 0xFE0E; 0xFE0F ]}.

Definition SPACE_VARIANTS : gset Z := {[ 0x00A0; 0x202F; 0x2007; 0x2009 ]}.

Definition CURLY_TO_ASCII : gmap Z str :=
  <[ 0x2018 := Py.lit "'" ]> (<[ 0x2019 := Py.lit "'" ]>
  (<[ 0x201C := [0x22] ]> (<[ 0x201D := [0x22] ]> ∅))).

Definition DASHES_TO_ASCII_HYPHEN : gset Z := {[ 0x2010; 0x2011; 0x2013; 0x2014 ]}.

(** The mojibake literals of the source.  The second is written with the
    escape [\x81]; the third holds the character U+0081 itself after the
    dash, so both denote the same three characters. *)
Definition MOJIBAKE_BAR : str := [0xEF; 0xBD; 0x153].
Definition MOJIBAKE_BLOCK : str := [0xE2; 0x2013; 0x81].
Definition MOJIBAKE_BLOCK_RAW : str := [0xE2; 0x2013; 0x81].

Definition int_of_bool (b : bool) : Z := if b then 1 else 0.

(** The two measures of [score]: how many of the three mojibake literals
    occur in [t], and how many marker characters [t] holds. *)
Definition remnants (t : str) : Z :=
  int_of_bool (Py.contains MOJIBAKE_BAR t)
  + int_of_bool (Py.contains MOJIBAKE_BLOCK t)
  + int_of_bool (Py.contains MOJIBAKE_BLOCK_RAW t).

Definition canon (t : str) : Z := Py.count 0xFF5C t + Py.count 0x2581 t.

Definition score (t : str) : Z * Z := (remnants t, - canon t).

(** [s.encode(codec, errors="ignore").decode("utf-8", errors="ignore")];
    [None] stands for a raised exception. *)
Definition reinterpret (c : Py.codec) (s : str) : option str :=
  Py.encode c Py.ignore s ≫= Py.decode_utf8 Py.ignore.

Definition direct_replacements (s : str) : str :=
  Py.replace MOJIBAKE_BLOCK_RAW SPM_BLOCK
    (Py.replace MOJIBAKE_BLOCK SPM_BLOCK
      (Py.replace MOJIBAKE_BAR FULLWIDTH_BAR s)).

(** The candidate list as the two [try] blocks and the final [append]
    build it. *)
Definition candidates (s : str) : list str :=
  match reinterpret Py.latin_1 s with
  | Some t => [t]
  | None => [s]
  end ++
  match reinterpret Py.cp1252 s with
  | Some t => [t]
  | None => []
  end ++
  [direct_replacements s].

(** The list always holds the direct candidate, so [min] has a value; the
    default stands for the ValueError of an empty list. *)
Definition demojibake_and_normalize (s : str) : str :=
  let best := default s (Py.min_by score (candidates s)) in
  Unicode.nfc best.

Definition strip_zero_width_and_variation (s : str) : str :=
  filter (fun ch => ch ∉ ZERO_WIDTHS) s.

Definition normalize_char (ch : Z) : str :=
  if decide (ch ∈ SPACE_VARIANTS) then Py.lit " "
  else match CURLY_TO_ASCII !! ch with
       | Some q => q
       | None =>
         if decide (ch ∈ DASHES_TO_ASCII_HYPHEN) then Py.lit "-" else [ch]
       end.

Definition normalize_space_dash_quotes_inside (s : str) : str :=
  flat_map normalize_char s.

Definition standardize_line_endings (s : str) : str :=
  Py.replace [0x0D] [0x0A] (Py.replace [0x0D; 0x0A] [0x0A] s).

Definition is_angle_bracketed (s : str) : bool :=
  (2 <=? Z.of_nat (length s)) && Py.startswith (Py.lit "<") s
  && Py.endswith (Py.lit ">") s.

(** The dictionary of [looks_like_one_of_four_chat_markers]: payload
    between the brackets to canonical marker. *)
Definition marker_candidates : gmap str str :=
  <[ FULLWIDTH_BAR ++ Py.lit "begin" ++ SPM_BLOCK ++ Py.lit "of" ++ SPM_BLOCK
     ++ Py.lit "sentence" ++ FULLWIDTH_BAR := CANON_BOS ]>
  (<[ FULLWIDTH_BAR ++ Py.lit "end" ++ SPM_BLOCK ++ Py.lit "of" ++ SPM_BLOCK
      ++ Py.lit "sentence" ++ FULLWIDTH_BAR := CANON_EOS ]>
  (<[ FULLWIDTH_BAR ++ Py.lit "User" ++ FULLWIDTH_BAR := CANON_USER ]>
  (<[ FULLWIDTH_BAR ++ Py.lit "Assistant" ++ FULLWIDTH_BAR := CANON_ASSISTANT ]>
   ∅))).

Definition looks_like_one_of_four_chat_markers (s : str) : bool * str :=
  if Z.of_nat (length s) <? 3 then (false, s)
  else if Py.startswith (Py.lit "<") s && Py.endswith (Py.lit ">") s
          && (2 <=? Z.of_nat (length s))
  then
    let inner := Py.slice 1 (-1) s in
    let inner_cmp := Py.replace (Py.lit "|") FULLWIDTH_BAR inner in
    match marker_candidates !! inner_cmp with
    | Some canon => (true, canon)
    | None => (false, s)
    end
  else (false, s).

Definition cleanup_marker_like_string (s : str) : str :=
  let t := demojibake_and_normalize s in
  let t := strip_zero_width_and_variation t in
  let t := standardize_line_endings t in
  let t := normalize_space_dash_quotes_inside t in
  let t := Py.strip t in
  let '(ok, canon) := looks_like_one_of_four_chat_markers t in
  if ok then canon else t.

Definition has_mojibake_remnants (s : str) : bool :=
  Py.contains MOJIBAKE_BAR s || Py.contains MOJIBAKE_BLOCK s
  || Py.contains MOJIBAKE_BLOCK_RAW s.

(** The scanning loop of [fix_markers_in_text]: at a ['<'] with a ['>']
    somewhere after it, the span up to the first such ['>'] is cleaned as a
    whole and the scan resumes behind it; every other character is copied.
    [skip] counts the characters of a span still to pass. *)
Fixpoint scan_segments (skip : nat) (t : str) : str :=
  match t with
  | [] => []
  | c :: t' =>
    match skip with
    | S k => scan_segments k t'
    | O =>
      if c =? 0x3C then
        match Py.find 0x3E t' with
        | Some j => cleanup_marker_like_string (c :: take (S j) t')
                    ++ scan_segments (S j) t'
        | None => c :: scan_segments O t'
        end
      else c :: scan_segments O t'
    end
  end.

Definition fix_markers_in_text (s : str) : str :=
  let t := demojibake_and_normalize s in
  let t := strip_zero_width_and_variation t in
  let t := standardize_line_endings t in
  scan_segments O t.

(** ** Parsed JSON documents

    What [json.loads] returns: [None], booleans, integers, strings, lists
    and dictionaries.  A dictionary keeps its keys in insertion order.
    Numbers are integers: the float literals [json.loads] also accepts are
    outside this model. *)
#[local] Set Warnings "-register-all".
Inductive json :=
| JNull
| JBool (b : bool)
| JNum (n : Z)
| JStr (s : str)
| JArr (l : list json)
| JObj (d : list (str * json)).

Module Dict.

(** [d[k]] on a dictionary; [None] is a KeyError. *)
Definition lookup {A} (k : str) (d : list (str * A)) : option A :=
  snd <$> List.find (fun e => Py.eqb e.1 k) d.

(** [k in d] *)
Definition mem {A} (k : str) (d : list (str * A)) : bool :=
  bool_decide (is_Some (lookup k d)).

(** [d[k] = v]: a present key keeps its place, a new key goes last. *)
Fixpoint set {A} (k : str) (v : A) (d : list (str * A)) : list (str * A) :=
  match d with
  | [] => [(k, v)]
  | e :: d' => if Py.eqb e.1 k then (k, v) :: d' else e :: set k v d'
  end.

End Dict.

(** [x.get(k)] and [x.get(k, dflt)] on a dictionary. *)
Definition get (k : string) (d : list (str * json)) : json :=
  default JNull (Dict.lookup (Py.lit k) d).

Definition get_or (k : string) (dflt : json) (d : list (str * json)) : json :=
  default dflt (Dict.lookup (Py.lit k) d).

(** [a == b] on parsed values: [True == 1] and [False == 0], lists compare
    element by element, dictionaries key by key whatever their order. *)
Fixpoint py_eq (a b : json) {struct a} : bool :=
  match a, b with
  | JNull, JNull => true
  | JBool x, JBool y => bool_decide (x = y)
  | JBool x, JNum n | JNum n, JBool x => int_of_bool x =? n
  | JNum x, JNum y => x =? y
  | JStr x, JStr y => Py.eqb x y
  | JArr xs, JArr ys =>
    (fix all2 (xs ys : list json) {struct xs} : bool :=
       match xs, ys with
       | [], [] => true
       | x :: xs', y :: ys' => py_eq x y && all2 xs' ys'
       | _, _ => false
       end) xs ys
  | JObj dx, JObj dy =>
    (length dx =? length dy)%nat &&
    (fix all (dx : list (str * json)) {struct dx} : bool :=
       match dx with
       | [] => true
       | (k, v) :: dx' =>
         match Dict.lookup k dy with
         | Some w => py_eq v w
         | None => false
         end && all dx'
       end) dx
  | _, _ => false
  end.

(** [bool(x)] *)
Definition truthy (x : json) : bool :=
  match x with
  | JNull => false
  | JBool b => b
  | JNum n => negb (n =? 0)
  | JStr s => negb (Py.eqb s [])
  | JArr l => match l with [] => false | _ => true end
  | JObj d => match d with [] => false | _ => true end
  end.

(** [x == s] for a string [s] *)
Definition is_str (s : str) (x : json) : bool :=
  match x with
  | JStr t => Py.eqb t s
  | _ => false
  end.

(** ** The report of a run *)

(** The entries of [changes], one constructor per message. *)
Inductive change :=
| ChAddedToken (idx : nat) (id : json) (before after : str)
| ChDedupHeader
| ChDedupRemoved (idx : nat) (id : json) (content : str)
| ChSpecialKey (k : str) (before after : str)
| ChSpecialEntry (idx : nat) (id : json) (before after : str)
| ChSpecialTokensMap (key : str) (before after : str)
| ChChatTemplate.

(** The entries of [errors], one constructor per message. *)
Inductive verror :=
| EBosMismatch (value : str)
| EEosMismatch (value : str)
| ESpecialTokensMapFailed
| ENoCanonicalBos
| ENoCanonicalEos
| EAddedRemnants (idx : nat) (id : json) (c : str)
| EAddedZeroWidth (idx : nat) (id : json) (c : str)
| ESpecialKeyRemnants (k : str) (v : str)
| ESpecialKeyZeroWidth (k : str) (v : str)
| ESpecialEntryRemnants (idx : nat) (id : json) (c : str)
| ESpecialEntryZeroWidth (idx : nat) (id : json) (c : str)
| ESpecialFlag (idx : nat) (id : json)
| ENormalizedFlag (idx : nat) (id : json)
| EVocabCollision (m : str) (vocab_id marker_id : json)
| ERegexRemnants (pat : str)
| ERegexEscapes (pat : str)
| ESelfTestDetection (sample out : str)
| ESelfTestExpected (expected canon : str)
| ETokenizerConfigFailed.

(** The entries of [id_errors]. *)
Inductive id_error :=
| IdChanged (content before_id after_id : json).

(** The files a run may write, beside the input or at [--out]. *)
Inductive target :=
| SpecialTokensMapBak
| SpecialTokensMap
| TokenizerConfigBak
| TokenizerConfig
| InputBak
| Output.

(** What is written: a text as read, or the serialization of a value. *)
Inductive content :=
| Text (t : str)
| Dumped (j : json).

(** How [main] ends.  [Crashed] is an exception nothing catches. *)
Inductive outcome :=
| InputNotFound
| ParseFailure
| Crashed
| SelfTestPassed
| IdsChanged (id_errors : list id_error)
| ValidationErrors (errors : list verror)
| DryRunDone
| Written.

(** The value [main] returns; an uncaught exception ends the process with
    status 1. *)
Definition exit_code (o : outcome) : Z :=
  match o with
  | InputNotFound | ParseFailure => 2
  | Crashed | IdsChanged _ | ValidationErrors _ => 1
  | SelfTestPassed | DryRunDone | Written => 0
  end.

Record result := {
  status : outcome;
  writes : list (target * content);
  changes : list change;
  modified_count : nat
}.

(** A file on disk: its bytes may fail to decode, its text may fail to
    parse. *)
Inductive file :=
| Undecodable
| Malformed (text : str)
| Parsed (text : str) (value : json).

(** The arguments and the files a run finds; [None] is a missing file.
    Printing and writing always succeed: no I/O error, and no text that
    UTF-8 cannot encode (a lone surrogate out of a [\u] escape). *)
Record run := {
  dry : bool;
  tokenizer_json : option file;
  special_tokens_map_json : option file;
  vocab_json : option file;
  tokenizer_config_json : option file
}.

(** ** The document walker of [main] *)

(** An element of [added_tokens] with its identity ([id(tok)]): the
    elements [json.loads] builds are distinct objects, numbered here by
    their place in the list as loaded. *)
Abbreviation object := (nat * json)%type.

Definition tag (l : list json) : list object := imap (fun i t => (i, t)) l.

(** [id_by_obj], filled before anything is repaired. *)
Definition capture_ids (toks : list object) : gmap nat json :=
  foldl (fun m tok =>
           match tok.2 with
           | JObj d => <[tok.1 := get "id" d]> m
           | _ => m
           end) ∅ toks.

(** Repair of one content string: demojibake and NFC, then the stricter
    cleanup when the result is angle-bracketed. *)
Definition repair_content (before : str) : str :=
  let mid := demojibake_and_normalize before in
  if is_angle_bracketed mid then cleanup_marker_like_string mid else mid.

Definition is_bos_or_eos (s : str) : bool :=
  Py.eqb s CANON_BOS || Py.eqb s CANON_EOS.

(** The body of the loop over [added_tokens]. *)
Definition process_added_token (idx : nat) (tok : json) : json * list change :=
  match tok with
  | JObj d =>
    match Dict.lookup (Py.lit "content") d with
    | Some (JStr before) =>
      let after := repair_content before in
      let changed := negb (Py.eqb after before) in
      let d1 := if changed then Dict.set (Py.lit "content") (JStr after) d else d in
      let d2 := if is_bos_or_eos after
                then Dict.set (Py.lit "special") (JBool true) d1 else d1 in
      let d3 := Dict.set (Py.lit "normalized") (JBool false) d2 in
      (JObj d3,
       if changed then [ChAddedToken idx (get "id" d) before after] else [])
    | _ => (tok, [])
    end
  | _ => (tok, [])
  end.

Fixpoint process_added_tokens (idx : nat) (toks : list object)
  : list object * list change :=
  match toks with
  | [] => ([], [])
  | tok :: rest =>
    let '(v, ch) := process_added_token idx tok.2 in
    let '(rest', chs) := process_added_tokens (S idx) rest in
    ((tok.1, v) :: rest', ch ++ chs)
  end.

(** Deduplication by content: [new_list] and [dedup_removed]. *)
Fixpoint dedupe (idx : nat) (seen_content : gmap str json) (toks : list object)
  : list object * list (nat * json * str) :=
  match toks with
  | [] => ([], [])
  | tok :: rest =>
    match tok.2 with
    | JObj d =>
      match get "content" d with
      | JStr c =>
        if decide (is_Some (seen_content !! c)) then
          let '(new_list, removed) := dedupe (S idx) seen_content rest in
          (new_list, (idx, get "id" d, c) :: removed)
        else
          let '(new_list, removed) :=
            dedupe (S idx) (<[c := get "id" d]> seen_content) rest in
          (tok :: new_list, removed)
      | _ =>
        let '(new_list, removed) := dedupe (S idx) seen_content rest in
        (tok :: new_list, removed)
      end
    | _ =>
      let '(new_list, removed) := dedupe (S idx) seen_content rest in
      (tok :: new_list, removed)
    end
  end.

Definition dedupe_changes (removed : list (nat * json * str)) : list change :=
  match removed with
  | [] => []
  | _ => ChDedupHeader :: map (fun r => ChDedupRemoved r.1.1 r.1.2 r.2) removed
  end.

(** Step 1 on a list: the list after the pass, the changes, the count. *)
Definition repair_added_tokens (toks : list object)
  : list object * list change * nat :=
  let '(processed, chs) := process_added_tokens O toks in
  let '(new_list, removed) := dedupe O ∅ processed in
  (match removed with [] => processed | _ => new_list end,
   chs ++ dedupe_changes removed, length chs).

(** Step 2 on a mapping: one entry of [st.items()]. *)
Definition process_special_key (e : str * json) : (str * json) * list change :=
  match e.2 with
  | JStr before =>
    let after := repair_content before in
    let after :=
      if Py.eqb e.1 (Py.lit "bos_token") || Py.eqb e.1 (Py.lit "eos_token") then
        let '(ok, canon) := looks_like_one_of_four_chat_markers after in
        if ok then canon else after
      else after in
    if negb (Py.eqb after before)
    then ((e.1, JStr after), [ChSpecialKey e.1 before after])
    else (e, [])
  | _ => (e, [])
  end.

(** Step 2 on a list: one entry. *)
Definition process_special_entry (idx : nat) (tok : json) : json * list change :=
  match tok with
  | JObj d =>
    match Dict.lookup (Py.lit "content") d with
    | Some (JStr before) =>
      let after := repair_content before in
      if negb (Py.eqb after before)
      then (JObj (Dict.set (Py.lit "content") (JStr after) d),
            [ChSpecialEntry idx (get "id" d) before after])
      else (tok, [])
    | _ => (tok, [])
    end
  | _ => (tok, [])
  end.

Definition repair_special_tokens (st : json) : json * list change :=
  match st with
  | JObj d =>
    let r := map process_special_key d in
    (JObj (map fst r), concat (map snd r))
  | JArr l =>
    let r := imap process_special_entry l in
    (JArr (map fst r), concat (map snd r))
  | _ => (st, [])
  end.

(** The state [main] holds once steps 1 and 2 are done.  [added_tokens] is
    [None] when the document has no such list; [tokenizer] is the document
    with both fields as repaired. *)
Record repaired := {
  tokenizer : list (str * json);
  added_tokens : option (list object);
  st : json;
  id_by_obj : gmap nat json;
  rep_changes : list change;
  rep_modified : nat
}.

Definition repair (top : list (str * json)) : repaired :=
  let '(added, ids, top1, chs1, n1) :=
    match get "added_tokens" top with
    | JArr l =>
      let toks := tag l in
      let '(toks', chs, n) := repair_added_tokens toks in
      (Some toks', capture_ids toks,
       Dict.set (Py.lit "added_tokens") (JArr (map snd toks')) top, chs, n)
    | _ => (None, ∅, top, [], O)
    end in
  let '(st', chs2) := repair_special_tokens (get "special_tokens" top1) in
  let top2 :=
    match st' with
    | JObj _ | JArr _ => Dict.set (Py.lit "special_tokens") st' top1
    | _ => top1
    end in
  {| tokenizer := top2; added_tokens := added; st := st'; id_by_obj := ids;
     rep_changes := chs1 ++ chs2; rep_modified := (n1 + length chs2)%nat |}.

(** *** Validation *)

Definition count_zero_widths (c : str) : nat :=
  length (filter (fun ch => ch ∈ ZERO_WIDTHS) c).

(** The two checks [scan_for_remnants] makes on one string: a message for
    remnants, and one message per zero-width character of a marker-like
    string. *)
Definition scan_string (remnants zero_width : verror) (c : str) : list verror :=
  (if has_mojibake_remnants c then [remnants] else []) ++
  (if is_angle_bracketed c then replicate (count_zero_widths c) zero_width else []).

Definition scan_added_token (idx : nat) (tok : object) : list verror :=
  match tok.2 with
  | JObj d =>
    match get "content" d with
    | JStr c => scan_string (EAddedRemnants idx (get "id" d) c)
                            (EAddedZeroWidth idx (get "id" d) c) c
    | _ => []
    end
  | _ => []
  end.

Definition scan_special_key (e : str * json) : list verror :=
  match e.2 with
  | JStr v => scan_string (ESpecialKeyRemnants e.1 v) (ESpecialKeyZeroWidth e.1 v) v
  | _ => []
  end.

Definition scan_special_entry (idx : nat) (tok : json) : list verror :=
  match tok with
  | JObj d =>
    match get "content" d with
    | JStr c => scan_string (ESpecialEntryRemnants idx (get "id" d) c)
                            (ESpecialEntryZeroWidth idx (get "id" d) c) c
    | _ => []
    end
  | _ => []
  end.

Definition scan_for_remnants (s : repaired) : list verror :=
  match added_tokens s with
  | Some toks => concat (imap scan_added_token toks)
  | None => []
  end ++
  match st s with
  | JObj d => concat (map scan_special_key d)
  | JArr l => concat (imap scan_special_entry l)
  | _ => []
  end.

(** Step 4: the identifier of every surviving object against the one
    captured for it. *)
Definition check_id (ids : gmap nat json) (tok : object) : list id_error :=
  match tok.2 with
  | JObj d =>
    match ids !! tok.1 with
    | Some before_id =>
      let after_id := get "id" d in
      if negb (py_eq before_id after_id)
      then [IdChanged (get_or "content" (JStr []) d) before_id after_id]
      else []
    | None => []
    end
  | _ => []
  end.

Definition check_ids (s : repaired) : list id_error :=
  match added_tokens s with
  | Some toks => concat (map (check_id (id_by_obj s)) toks)
  | None => []
  end.

Definition validate_bos_eos_value (name value : str) : list verror :=
  (if Py.eqb name (Py.lit "bos_token") && negb (Py.eqb value CANON_BOS)
   then [EBosMismatch value] else []) ++
  (if Py.eqb name (Py.lit "eos_token") && negb (Py.eqb value CANON_EOS)
   then [EEosMismatch value] else []).

(** A step inside a [try] block: the state it reached, and whether it ended
    by raising. *)
Inductive attempt (A : Type) :=
| Done (a : A)
| Raised (a : A).
Arguments Done {A} a.
Arguments Raised {A} a.

(** [key in st_map] and [st_map[key]] on whatever the companion file
    parsed to; [None] is a TypeError. *)
Definition contains_key (key : str) (m : json) : option bool :=
  match m with
  | JObj d => Some (Dict.mem key d)
  | JArr l => Some (existsb (py_eq (JStr key)) l)
  | JStr t => Some (Py.contains key t)
  | _ => None
  end.

Definition subscript (key : str) (m : json) : option json :=
  match m with
  | JObj d => Dict.lookup key d
  | _ => None
  end.

Definition set_item (key : str) (v : json) (m : json) : json :=
  match m with
  | JObj d => JObj (Dict.set key v d)
  | _ => m
  end.

(** The loop body over ["bos_token"] and ["eos_token"] of the companion
    special-token map. *)
Definition check_map_key (key : str) (s : json * list change * list verror)
  : attempt (json * list change * list verror) :=
  let '(st_map, chs, errs) := s in
  match contains_key key st_map with
  | None => Raised s
  | Some false => Done s
  | Some true =>
    match subscript key st_map with
    | None => Raised s
    | Some (JStr orig_val) =>
      let val := cleanup_marker_like_string orig_val in
      let '(ok, canon) := looks_like_one_of_four_chat_markers val in
      let val := if ok then canon else val in
      let changed := negb (Py.eqb val orig_val) in
      Done (if changed then set_item key (JStr val) st_map else st_map,
            chs ++ (if changed then [ChSpecialTokensMap key orig_val val] else []),
            errs ++ validate_bos_eos_value key val)
    | Some _ => Done s
    end
  end.

(** Step 5 with a companion special-token map: the changes, the errors and
    what is written. *)
Definition check_special_tokens_map (is_dry : bool) (f : file)
  : list change * list verror * list (target * content) :=
  match f with
  | Undecodable | Malformed _ => ([], [ESpecialTokensMapFailed], [])
  | Parsed src_text st_map =>
    let after_bos := check_map_key (Py.lit "bos_token") (st_map, [], []) in
    let after_eos :=
      match after_bos with
      | Done s => check_map_key (Py.lit "eos_token") s
      | Raised s => Raised s
      end in
    match after_eos with
    | Done (st_map', chs, errs) =>
      (chs, errs,
       if is_dry then []
       else [(SpecialTokensMapBak, Text src_text); (SpecialTokensMap, Dumped st_map')])
    | Raised (_, chs, errs) => (chs, errs ++ [ESpecialTokensMapFailed], [])
    end
  end.

Definition found_in (expected : str) (toks : list json) : bool :=
  existsb (fun tok =>
             match tok with
             | JObj d => is_str expected (get "content" d)
             | _ => false
             end) toks.

(** Step 5 without that file: look for the two markers in the document. *)
Definition infer_bos_eos (s : repaired) : list verror :=
  let from_mapping (key : string) (expected : str) : list verror * bool :=
    match st s with
    | JObj d =>
      match get key d with
      | JStr v => (validate_bos_eos_value (Py.lit key) (demojibake_and_normalize v),
                   Py.eqb v expected)
      | _ => ([], false)
      end
    | _ => ([], false)
    end in
  let '(errs_bos, found_bos) := from_mapping "bos_token" CANON_BOS in
  let '(errs_eos, found_eos) := from_mapping "eos_token" CANON_EOS in
  let in_list (expected : str) : bool :=
    match st s with
    | JArr l => found_in expected l
    | _ => false
    end in
  let found_bos := found_bos || in_list CANON_BOS in
  let found_eos := found_eos || in_list CANON_EOS in
  let in_added (expected : str) : bool :=
    match added_tokens s with
    | Some toks => found_in expected (map snd toks)
    | None => false
    end in
  let scan := negb found_bos || negb found_eos in
  let found_bos := found_bos || scan && in_added CANON_BOS in
  let found_eos := found_eos || scan && in_added CANON_EOS in
  errs_bos ++ errs_eos ++
  (if found_bos then [] else [ENoCanonicalBos]) ++
  (if found_eos then [] else [ENoCanonicalEos]).

(** Step 6.1 on one entry. *)
Definition validate_flags_of (idx : nat) (tok : object) : list verror :=
  match tok.2 with
  | JObj d =>
    match get "content" d with
    | JStr c =>
      (if is_bos_or_eos c && negb (truthy (get_or "special" (JBool false) d))
       then [ESpecialFlag idx (get "id" d)] else []) ++
      (if (Py.contains FULLWIDTH_BAR c || Py.contains SPM_BLOCK c)
          && negb (py_eq (get "normalized" d) (JBool false))
       then [ENormalizedFlag idx (get "id" d)] else [])
    | _ => []
    end
  | _ => []
  end.

Definition validate_flags (toks : list object) : list verror :=
  concat (imap validate_flags_of toks).

(** Step 6.2: [load_vocab_map]; a file that cannot be read or parsed
    leaves the empty mapping. *)
Definition load_vocab_map (f : option file) (top : list (str * json)) : json :=
  match f with
  | Some (Parsed _ vocab) => vocab
  | Some _ => JObj []
  | None =>
    match get_or "model" (JObj []) top with
    | JObj model =>
      match get "vocab" model with
      | JObj vocab => JObj vocab
      | _ => JObj []
      end
    | _ => JObj []
    end
  end.

Definition is_marker (c : str) : bool :=
  Py.eqb c CANON_BOS || Py.eqb c CANON_EOS || Py.eqb c CANON_USER
  || Py.eqb c CANON_ASSISTANT.

Definition marker_ids (toks : list object) : list (str * json) :=
  foldl (fun ids tok =>
           match tok.2 with
           | JObj d =>
             match get "content" d with
             | JStr c => if is_marker c then Dict.set c (get "id" d) ids else ids
             | _ => ids
             end
           | _ => ids
           end) [] toks.

(** One marker against the vocabulary; [None] is the TypeError of
    subscripting a vocabulary that is no mapping. *)
Definition check_collision (vocab_map : json) (e : str * json) : option (list verror) :=
  match contains_key e.1 vocab_map with
  | None => None
  | Some false => Some []
  | Some true =>
    match vocab_map with
    | JObj d =>
      match Dict.lookup e.1 d with
      | Some v => Some (if negb (py_eq v e.2) then [EVocabCollision e.1 v e.2] else [])
      | None => None
      end
    | _ => None
    end
  end.

Definition check_vocab (vocab_map : json) (s : repaired) : option (list verror) :=
  if truthy vocab_map then
    let ids := match added_tokens s with
               | Some toks => marker_ids toks
               | None => []
               end in
    (fun errs => concat errs) <$> mapM (check_collision vocab_map) ids
  else Some [].

(** *** Step 6.3: the patterns of the pre-tokenizer *)

Definition hex_digit (n : Z) : Z :=
  if n <? 10 then 0x30 + n else 0x61 + (n - 10).

(** [\uXXXX] *)
Definition u_escape (n : Z) : str :=
  Py.lit "\u" ++ [hex_digit (Z.shiftr n 12 mod 16); hex_digit (Z.shiftr n 8 mod 16);
                  hex_digit (Z.shiftr n 4 mod 16); hex_digit (n mod 16)].

Definition escape_char (c : Z) : str :=
  if c =? 0x22 then [0x5C; 0x22]
  else if c =? 0x5C then Py.lit "\\"
  else if c =? 0x0A then Py.lit "\n"
  else if c =? 0x0D then Py.lit "\r"
  else if c =? 0x09 then Py.lit "\t"
  else if c =? 0x0C then Py.lit "\f"
  else if c =? 0x08 then Py.lit "\b"
  else if (0x20 <=? c) && (c <=? 0x7E) then [c]
  else if c <? 0x10000 then u_escape c
  else
    let n := c - 0x10000 in
    u_escape (Z.lor 0xD800 (Z.land (Z.shiftr n 10) 0x3FF))
    ++ u_escape (Z.lor 0xDC00 (Z.land n 0x3FF)).

(** [json.dumps(s)] of a string, with the default [ensure_ascii]. *)
Definition json_dumps_str (s : str) : str :=
  [0x22] ++ flat_map escape_char s ++ [0x22].

Definition check_pattern (pat : str) : list verror :=
  (if has_mojibake_remnants pat then [ERegexRemnants pat] else []) ++
  (if Py.contains (Py.lit "\p{") pat then
     let enc := json_dumps_str pat in
     if negb (Py.contains (Py.lit "\\p{") enc) then [ERegexEscapes pat] else []
   else []).

Fixpoint walk (x : json) : list verror :=
  match x with
  | JObj d =>
    match Dict.lookup (Py.lit "pattern") d with
    | Some (JStr pat) => check_pattern pat
    | _ => []
    end ++
    (fix values (d : list (str * json)) : list verror :=
       match d with
       | [] => []
       | e :: d' => walk e.2 ++ values d'
       end) d
  | JArr l =>
    (fix elements (l : list json) : list verror :=
       match l with
       | [] => []
       | v :: l' => walk v ++ elements l'
       end) l
  | _ => []
  end.

Definition verify_regex_payloads (obj : list (str * json)) : list verror :=
  walk (get_or "pre_tokenizer" (JObj obj) obj).

(** *** Step 7: the self-test *)

Definition self_test_samples : list (str * str) := [
  (Py.lit "<" ++ MOJIBAKE_BAR ++ Py.lit "begin" ++ MOJIBAKE_BLOCK_RAW ++ Py.lit "of"
   ++ MOJIBAKE_BLOCK_RAW ++ Py.lit "sentence" ++ MOJIBAKE_BAR ++ Py.lit ">", CANON_BOS);
  (Py.lit "<" ++ MOJIBAKE_BAR ++ Py.lit "end" ++ MOJIBAKE_BLOCK_RAW ++ Py.lit "of"
   ++ MOJIBAKE_BLOCK_RAW ++ Py.lit "sentence" ++ MOJIBAKE_BAR ++ Py.lit ">", CANON_EOS);
  (Py.lit "<" ++ MOJIBAKE_BAR ++ Py.lit "User" ++ MOJIBAKE_BAR ++ Py.lit ">", CANON_USER);
  (Py.lit "<" ++ MOJIBAKE_BAR ++ Py.lit "Assistant" ++ MOJIBAKE_BAR ++ Py.lit ">",
   CANON_ASSISTANT) ].

(** The loop over the samples; the first failed assertion ends it and
    becomes the error. *)
Fixpoint self_test (samples : list (str * str)) : list verror :=
  match samples with
  | [] => []
  | (s, exp) :: rest =>
    let out := demojibake_and_normalize s in
    let '(ok, canon) := looks_like_one_of_four_chat_markers out in
    if negb ok then [ESelfTestDetection s out]
    else if negb (Py.eqb canon exp) then [ESelfTestExpected exp canon]
    else self_test rest
  end.

(** *** The chat template of tokenizer_config.json *)

Definition process_tokenizer_config (is_dry : bool) (f : file)
  : list change * list verror * list (target * content) :=
  match f with
  | Undecodable | Malformed _ => ([], [ETokenizerConfigFailed], [])
  | Parsed cfg_text (JObj cfg) =>
    match get "chat_template" cfg with
    | JStr before_tpl =>
      let after_tpl := fix_markers_in_text before_tpl in
      if negb (Py.eqb after_tpl before_tpl) then
        ([ChChatTemplate], [],
         if is_dry then []
         else [(TokenizerConfigBak, Text cfg_text);
               (TokenizerConfig,
                Dumped (JObj (Dict.set (Py.lit "chat_template") (JStr after_tpl) cfg)))])
      else ([], [], [])
    | _ => ([], [], [])
    end
  | Parsed _ _ => ([], [], [])
  end.

(** *** [main] from step 4 on *)

Definition finish (r : run) (text : str) (s : repaired) : result :=
  match check_ids s with
  | (_ :: _) as id_errors =>
    {| status := IdsChanged id_errors; writes := [];
       changes := rep_changes s; modified_count := rep_modified s |}
  | [] =>
    let '(chs5, errs5, writes5) :=
      match special_tokens_map_json r with
      | Some f => check_special_tokens_map (dry r) f
      | None => ([], infer_bos_eos s, [])
      end in
    let errs6 := scan_for_remnants s in
    let errs61 := match added_tokens s with
                  | Some toks => validate_flags toks
                  | None => []
                  end in
    match check_vocab (load_vocab_map (vocab_json r) (tokenizer s)) s with
    | None =>
      {| status := Crashed; writes := writes5;
         changes := rep_changes s ++ chs5; modified_count := rep_modified s |}
    | Some errs62 =>
      let errs63 := verify_regex_payloads (tokenizer s) in
      let errs7 := if dry r then self_test self_test_samples else [] in
      let '(chs8, errs8, writes8) :=
        match tokenizer_config_json r with
        | Some f => process_tokenizer_config (dry r) f
        | None => ([], [], [])
        end in
      let errors := errs5 ++ errs6 ++ errs61 ++ errs62 ++ errs63 ++ errs7 ++ errs8 in
      let chs := rep_changes s ++ chs5 ++ chs8 in
      match errors with
      | _ :: _ =>
        {| status := ValidationErrors errors; writes := writes5 ++ writes8;
           changes := chs; modified_count := rep_modified s |}
      | [] =>
        if dry r then
          {| status := DryRunDone; writes := writes5 ++ writes8;
             changes := chs; modified_count := rep_modified s |}
        else
          {| status := Written;
             writes := writes5 ++ writes8
                       ++ [(InputBak, Text text); (Output, Dumped (JObj (tokenizer s)))];
             changes := chs; modified_count := rep_modified s |}
      end
    end
  end.

Definition stopped (o : outcome) : result :=
  {| status := o; writes := []; changes := []; modified_count := O |}.

Definition main (r : run) : result :=
  match tokenizer_json r with
  | None =>
    if dry r then
      match self_test self_test_samples with
      | [] => stopped SelfTestPassed
      | errors => stopped (ValidationErrors errors)
      end
    else stopped InputNotFound
  | Some Undecodable => stopped Crashed
  | Some (Malformed _) => stopped ParseFailure
  | Some (Parsed text (JObj top)) => finish r text (repair top)
  | Some (Parsed _ _) => stopped Crashed
  end.

(** ** Diagnostics and files

    The helpers of the script that render a string for a message and that
    read and write the files, with the codec and serializer calls they
    make. *)

(** [sep.join(parts)] *)
Definition join (sep : str) (parts : list str) : str :=
  match parts with
  | [] => []
  | p :: ps => p ++ flat_map (fun q => sep ++ q) ps
  end.

Fixpoint upper_hex_digits (d : Hexadecimal.uint) : str :=
  match d with
  | Hexadecimal.Nil => []
  | Hexadecimal.D0 d => 0x30 :: upper_hex_digits d
  | Hexadecimal.D1 d => 0x31 :: upper_hex_digits d
  | Hexadecimal.D2 d => 0x32 :: upper_hex_digits d
  | Hexadecimal.D3 d => 0x33 :: upper_hex_digits d
  | Hexadecimal.D4 d => 0x34 :: upper_hex_digits d
  | Hexadecimal.D5 d => 0x35 :: upper_hex_digits d
  | Hexadecimal.D6 d => 0x36 :: upper_hex_digits d
  | Hexadecimal.D7 d => 0x37 :: upper_hex_digits d
  | Hexadecimal.D8 d => 0x38 :: upper_hex_digits d
  | Hexadecimal.D9 d => 0x39 :: upper_hex_digits d
  | Hexadecimal.Da d => 0x41 :: upper_hex_digits d
  | Hexadecimal.Db d => 0x42 :: upper_hex_digits d
  | Hexadecimal.Dc d => 0x43 :: upper_hex_digits d
  | Hexadecimal.Dd d => 0x44 :: upper_hex_digits d
  | Hexadecimal.De d => 0x45 :: upper_hex_digits d
  | Hexadecimal.Df d => 0x46 :: upper_hex_digits d
  end.

(** [f"{n:04X}"] for a code point [n]: upper-case hexadecimal, padded with
    zeros to four digits. *)
Definition format_04X (n : Z) : str :=
  let digits := upper_hex_digits (N.to_hex_uint (Z.to_N n)) in
  replicate (4 - length digits) 0x30 ++ digits.

Definition cp_debug (s : str) : str :=
  let parts :=
    flat_map (fun ch => if 127 <? ch
                        then [[ch] ++ Py.lit ":U+" ++ format_04X ch]
                        else []) s in
  let extra :=
    match parts with
    | [] => []
    | _ => Py.lit "  [" ++ join (Py.lit ", ") parts ++ Py.lit "]"
    end in
  s ++ extra.

(** *** UTF-8 on the way out and in *)

(** One character as [str.encode("utf-8")] writes it; [None] is the
    UnicodeEncodeError of a surrogate, or no character at all. *)
Definition encode_utf8_char (ch : Z) : option bytes :=
  if ch <? 0 then None
  else if ch <? 0x80 then Some [ch]
  else if ch <? 0x800 then
    Some [Z.lor 0xC0 (Z.shiftr ch 6); Z.lor 0x80 (Z.land ch 0x3F)]
  else if ch <? 0x10000 then
    if (0xD800 <=? ch) && (ch <? 0xE000) then None
    else Some [Z.lor 0xE0 (Z.shiftr ch 12);
               Z.lor 0x80 (Z.land (Z.shiftr ch 6) 0x3F);
               Z.lor 0x80 (Z.land ch 0x3F)]
  else if ch <? 0x110000 then
    Some [Z.lor 0xF0 (Z.shiftr ch 18);
          Z.lor 0x80 (Z.land (Z.shiftr ch 12) 0x3F);
          Z.lor 0x80 (Z.land (Z.shiftr ch 6) 0x3F);
          Z.lor 0x80 (Z.land ch 0x3F)]
  else None.

Fixpoint encode_utf8 (s : str) : option bytes :=
  match s with
  | [] => Some []
  | ch :: s' =>
    b ← encode_utf8_char ch;
    bs ← encode_utf8 s';
    Some (b ++ bs)
  end.

Definition BOM_UTF8 : bytes := [0xEF; 0xBB; 0xBF].

(** [b.decode("utf-8-sig")]: a leading byte order mark is dropped, the rest
    is strict UTF-8. *)
Definition decode_utf8_sig (b : bytes) : option str :=
  Py.decode_utf8 Py.strict (if Py.startswith BOM_UTF8 b then drop 3 b else b).


(** [p.read_text(encoding="utf-8-sig")]: the file is opened in text mode
    with universal newlines, so every line ending reads as a line feed.
    The decoder of a text file waits for three octets before it decides on
    the byte order mark: a file that is a proper prefix of the mark reads
    as the empty text. *)
Definition universal_newlines (t : str) : str :=
  Py.replace [0x0D] [0x0A] (Py.replace [0x0D; 0x0A] [0x0A] t).

Definition read_text_utf8_sig (b : bytes) : option str :=
  universal_newlines <$>
  (if (length b <? 3)%nat && Py.startswith b BOM_UTF8
   then Some []
   else decode_utf8_sig b).

(** [p.write_text(t, encoding="utf-8", newline="\n")]: the octets written;
    line feeds are written as they are. *)
Definition write_text_utf8 (t : str) : option bytes := encode_utf8 t.

(** The octets of a [.bak] file, from those of the file it backs up: the
    text read by [read_text] and written by [write_text]. *)
Definition backup_bytes (b : bytes) : option bytes :=
  read_text_utf8_sig b ≫= write_text_utf8.

(** *** Serialization *)

Fixpoint decimal_digits (d : Decimal.uint) : str :=
  match d with
  | Decimal.Nil => []
  | Decimal.D0 d => 0x30 :: decimal_digits d
  | Decimal.D1 d => 0x31 :: decimal_digits d
  | Decimal.D2 d => 0x32 :: decimal_digits d
  | Decimal.D3 d => 0x33 :: decimal_digits d
  | Decimal.D4 d => 0x34 :: decimal_digits d
  | Decimal.D5 d => 0x35 :: decimal_digits d
  | Decimal.D6 d => 0x36 :: decimal_digits d
  | Decimal.D7 d => 0x37 :: decimal_digits d
  | Decimal.D8 d => 0x38 :: decimal_digits d
  | Decimal.D9 d => 0x39 :: decimal_digits d
  end.

(** [str(n)] of an integer *)
Definition int_str (n : Z) : str :=
  match Z.to_int n with
  | Decimal.Pos d => decimal_digits d
  | Decimal.Neg d => 0x2D :: decimal_digits d
  end.

(** One character of a string under [ensure_ascii=False]: the quote, the
    backslash and the control characters are escaped, everything else is
    written as it is. *)
Definition escape_char_raw (c : Z) : str :=
  if c =? 0x22 then [0x5C; 0x22]
  else if c =? 0x5C then Py.lit "\\"
  else if c =? 0x0A then Py.lit "\n"
  else if c =? 0x0D then Py.lit "\r"
  else if c =? 0x09 then Py.lit "\t"
  else if c =? 0x0C then Py.lit "\f"
  else if c =? 0x08 then Py.lit "\b"
  else if (0 <=? c) && (c <? 0x20) then u_escape c
  else [c].

Definition encode_basestring (s : str) : str :=
  [0x22] ++ flat_map escape_char_raw s ++ [0x22].

(** The line break before an item at nesting depth [level], with
    [indent=2]. *)
Definition newline_indent (level : nat) : str :=
  0x0A :: concat (replicate level (Py.lit "  ")).

(** [json.dumps(x, ensure_ascii=False, indent=2)] at nesting depth
    [level]. *)
Fixpoint iterencode (level : nat) (x : json) : str :=
  match x with
  | JNull => Py.lit "null"
  | JBool b => if b then Py.lit "true" else Py.lit "false"
  | JNum n => int_str n
  | JStr s => encode_basestring s
  | JArr l =>
    match l with
    | [] => Py.lit "[]"
    | v :: l' =>
      Py.lit "[" ++ newline_indent (S level) ++ iterencode (S level) v
      ++ (fix items (l : list json) : str :=
            match l with
            | [] => []
            | v :: l' =>
              Py.lit "," ++ newline_indent (S level) ++ iterencode (S level) v
              ++ items l'
            end) l'
      ++ newline_indent level ++ Py.lit "]"
    end
  | JObj d =>
    match d with
    | [] => Py.lit "{}"
    | e :: d' =>
      Py.lit "{" ++ newline_indent (S level)
      ++ encode_basestring e.1 ++ Py.lit ": " ++ iterencode (S level) e.2
      ++ (fix items (d : list (str * json)) : str :=
            match d with
            | [] => []
            | e :: d' =>
              Py.lit "," ++ newline_indent (S level)
              ++ encode_basestring e.1 ++ Py.lit ": " ++ iterencode (S level) e.2
              ++ items d'
            end) d'
      ++ newline_indent level ++ Py.lit "}"
    end
  end.

(** The text [write_json] hands to [write_text], and the octets written;
    [None] is the UnicodeEncodeError of a lone surrogate. *)
Definition write_json_text (data : json) : str := iterencode O data ++ [0x0A].

Definition write_json (data : json) : option bytes :=
  write_text_utf8 (write_json_text data).

(** * Vocabulary of the properties *)

(** ** The four markers, as the specification names them *)

Inductive marker := BeginOfSequence | EndOfSequence | UserTurn | AssistantTurn.

(** The payload between the angle brackets, and the canonical string. *)
Definition payload (m : marker) : str :=
  match m with
  | BeginOfSequence =>
    [0xFF5C] ++ Py.lit "begin" ++ [0x2581] ++ Py.lit "of" ++ [0x2581]
    ++ Py.lit "sentence" ++ [0xFF5C]
  | EndOfSequence =>
    [0xFF5C] ++ Py.lit "end" ++ [0x2581] ++ Py.lit "of" ++ [0x2581]
    ++ Py.lit "sentence" ++ [0xFF5C]
  | UserTurn => [0xFF5C] ++ Py.lit "User" ++ [0xFF5C]
  | AssistantTurn => [0xFF5C] ++ Py.lit "Assistant" ++ [0xFF5C]
  end.

Definition canonical (m : marker) : str :=
  match m with
  | BeginOfSequence => CANON_BOS
  | EndOfSequence => CANON_EOS
  | UserTurn => CANON_USER
  | AssistantTurn => CANON_ASSISTANT
  end.

(** An ASCII bar read as the full-width bar. *)
Definition widen_bars (inner : str) : str :=
  map (fun c => if c =? 0x7C then 0xFF5C else c) inner.

(** A string in angle brackets. *)
Definition bracketed (inner : str) : str := [0x3C] ++ inner ++ [0x3E].


(** ** Corrupted forms of the markers *)

(** How the UTF-8 octets of a marker were misread: as cp1252, with the
    unassigned octet 0x81 passed through as U+0081, or as latin-1. *)
Inductive misreading := AsCp1252 | AsLatin1.

(** The octets EF BD 9C of the full-width bar and E2 96 81 of the block,
    misread. *)
Definition misread_bar (f : misreading) : str :=
  match f with
  | AsCp1252 => [0xEF; 0xBD; 0x153]
  | AsLatin1 => [0xEF; 0xBD; 0x9C]
  end.

Definition misread_block (f : misreading) : str :=
  match f with
  | AsCp1252 => [0xE2; 0x2013; 0x81]
  | AsLatin1 => [0xE2; 0x96; 0x81]
  end.

Definition corrupted (f : misreading) (m : marker) : str :=
  flat_map (fun c => if c =? 0xFF5C then misread_bar f
                     else if c =? 0x2581 then misread_block f
                     else [c]) (canonical m).

(** The string content of an entry, if it has one, and its identifier. *)
Definition content_of (tok : object) : option str :=
  match tok.2 with
  | JObj d =>
    match get "content" d with
    | JStr c => Some c
    | _ => None
    end
  | _ => None
  end.

Definition id_of (tok : object) : json :=
  match tok.2 with
  | JObj d => get "id" d
  | _ => JNull
  end.

(** The repair of an entry leaves its identifier alone. *)
Definition same_identifier (before after : json) : Prop :=
  match before, after with
  | JObj d, JObj d' => get "id" d' = get "id" d
  | _, _ => after = before
  end.

(** A value as [json.loads] builds it: no dictionary holds a key twice. *)
Fixpoint well_formed (j : json) : Prop :=
  match j with
  | JArr l =>
    (fix all (l : list json) : Prop :=
       match l with
       | [] => True
       | x :: l' => well_formed x ∧ all l'
       end) l
  | JObj d =>
    NoDup (map fst d) ∧
    (fix all (d : list (str * json)) : Prop :=
       match d with
       | [] => True
       | e :: d' => well_formed e.2 ∧ all d'
       end) d
  | _ => True
  end.

(** No content occurs twice. *)
Definition distinct_contents (toks : list object) : Prop :=
  ∀ j k tj tk c, (j < k)%nat → toks !! j = Some tj → toks !! k = Some tk →
    content_of tj = Some c → content_of tk = Some c → False.

(** ** Concrete runs *)

Definition no_companions (is_dry : bool) (text : str) (document : json) : run :=
  {| dry := is_dry; tokenizer_json := Some (Parsed text document);
     special_tokens_map_json := None; vocab_json := None;
     tokenizer_config_json := None |}.

Definition token_entry (id : Z) (c : str) (is_special : bool) : json :=
  JObj [(Py.lit "id", JNum id); (Py.lit "content", JStr c);
        (Py.lit "special", JBool is_special)].

(** A document whose two sequence markers are canonical and not flagged
    special, in [added_tokens] and in a [special_tokens] list. *)
Definition unflagged_markers : json :=
  JObj [(Py.lit "added_tokens",
         JArr [token_entry 0 CANON_BOS false; token_entry 1 CANON_EOS false]);
        (Py.lit "special_tokens", JArr [token_entry 0 CANON_BOS false])].

(** An empty document beside a special-token map whose [bos_token] is no
    marker and a template that holds an ASCII-bar marker. *)
Definition mismatched_bos : run :=
  {| dry := false;
     tokenizer_json := Some (Parsed (Py.lit "{}") (JObj []));
     special_tokens_map_json :=
       Some (Parsed (Py.lit "M") (JObj [(Py.lit "bos_token", JStr (Py.lit "<s>"))]));
     vocab_json := None;
     tokenizer_config_json :=
       Some (Parsed (Py.lit "C")
               (JObj [(Py.lit "chat_template",
                       JStr (Py.lit "Hello <|User|> world"))])) |}.

(** The two errors of the flag check. *)
Definition is_flag_error (e : verror) : bool :=
  match e with
  | ESpecialFlag _ _ | ENormalizedFlag _ _ => true
  | _ => false
  end.

Abbreviation flagless := (Forall (fun e => is_flag_error e = false)).

(** The validation errors a run ended with. *)
Definition errors_of (r : result) : list verror :=
  match status r with
  | ValidationErrors errors => errors
  | _ => []
  end.

(** ** Canonical text *)

(** The characters canonical content is written in: ASCII, the full-width
    bar and the block. *)
Definition plain (c : Z) : Prop := 0 <= c < 0x80 ∨ c = 0xFF5C ∨ c = 0x2581.

Definition is_plain (c : Z) : bool :=
  (0 <=? c) && (c <? 0x80) || (c =? 0xFF5C) || (c =? 0x2581).

(** A character the structural cleaner has nothing to do with: no
    zero-width character or variation selector, no carriage return, no
    space variant, no curly quote, no dash variant. *)
Definition tidy (c : Z) : Prop :=
  (c ∉ ZERO_WIDTHS) ∧ c ≠ 0x0D ∧ (c ∉ SPACE_VARIANTS)
  ∧ CURLY_TO_ASCII !! c = None ∧ (c ∉ DASHES_TO_ASCII_HYPHEN).

(** A string goes through the repair pass unchanged from the second pass on. *)
Definition settled (c : str) : Prop :=
  repair_content (repair_content c) = repair_content c.






(** A template with a curly quote, a line ending of two characters, a dash
    and a zero-width space outside its span, and a dash and curly quotes
    inside. *)
Definition template_with_variants : str :=
  Py.lit "It" ++ [0x2019] ++ Py.lit "s" ++ [0x0D; 0x0A]
  ++ bracketed ([0xFF5C] ++ Py.lit "User" ++ [0xFF5C; 0x2013; 0x2018]
                ++ Py.lit "x" ++ [0x2019])
  ++ Py.lit " " ++ [0x200B; 0x2013] ++ Py.lit " ok".

(** * Vocabulary of the further properties *)

(** ** Text *)

(** Line endings translated in one pass from left to right: a carriage
    return becomes a line feed and takes a line feed that follows it
    along. *)
Fixpoint translate_line_endings (s : str) : str :=
  match s with
  | [] => []
  | c :: s' =>
    if c =? 0x0D then
      0x0A :: match s' with
              | d :: s'' => if d =? 0x0A then translate_line_endings s''
                            else translate_line_endings s'
              | [] => []
              end
    else c :: translate_line_endings s'
  end.

(** [b.decode("latin-1")]: every octet is read as the character of the
    same number.  This is how the text to repair came about. *)
Definition decode_latin_1 (b : bytes) : str := b.

(** A code point that UTF-8 can write: a Unicode scalar value. *)
Definition scalar_value (c : Z) : Prop :=
  0 <= c < 0xD800 ∨ 0xE000 <= c < 0x110000.

(** ** Reports *)

(** The checks of [main] that report validation errors, in the order they
    run, and the check each error comes from. *)
Inductive check :=
| BosEosCheck
| RemnantScan
| FlagCheck
| VocabularyCheck
| PatternCheck
| SelfTest
| TemplateCheck.

Definition raised_by (e : verror) : check :=
  match e with
  | EBosMismatch _ | EEosMismatch _ | ESpecialTokensMapFailed
  | ENoCanonicalBos | ENoCanonicalEos => BosEosCheck
  | EAddedRemnants _ _ _ | EAddedZeroWidth _ _ _
  | ESpecialKeyRemnants _ _ | ESpecialKeyZeroWidth _ _
  | ESpecialEntryRemnants _ _ _ | ESpecialEntryZeroWidth _ _ _ => RemnantScan
  | ESpecialFlag _ _ | ENormalizedFlag _ _ => FlagCheck
  | EVocabCollision _ _ _ => VocabularyCheck
  | ERegexRemnants _ | ERegexEscapes _ => PatternCheck
  | ESelfTestDetection _ _ | ESelfTestExpected _ _ => SelfTest
  | ETokenizerConfigFailed => TemplateCheck
  end.

(** The errors for a zero-width character or variation selector left in a
    marker-like string. *)
Definition is_zero_width_error (e : verror) : bool :=
  match e with
  | EAddedZeroWidth _ _ _ | ESpecialKeyZeroWidth _ _
  | ESpecialEntryZeroWidth _ _ _ => true
  | _ => false
  end.

(** A value inside a parsed document: the document itself, an element of
    a list inside it or a value of a dictionary inside it. *)
Inductive inside : json → json → Prop :=
| inside_here (x : json) : inside x x
| inside_element (x v : json) (l : list json) :
    v ∈ l → inside x v → inside x (JArr l)
| inside_value (x : json) (e : str * json) (d : list (str * json)) :
    e ∈ d → inside x e.2 → inside x (JObj d).


(** ** Where a sequence marker is looked for *)



(** * Properties *)

(** ** Python primitives *)

Lemma startswith_app (p s : str) : Py.startswith p (p ++ s) = true.
Proof.
  induction p as [|x p IH]; simpl; [done|].
  by rewrite Z.eqb_refl, IH.
Qed.

Lemma startswith_spec (p s : str) :
  Py.startswith p s = true ↔ ∃ r, s = p ++ r.
Proof.
  split.
  - revert s. induction p as [|x p IH]; intros s H; simpl in *.
    + by exists s.
    + destruct s as [|y s]; [done|].
      apply andb_prop in H as [Hxy H]. apply Z.eqb_eq in Hxy as ->.
      destruct (IH _ H) as [r ->]. by exists r.
  - intros [r ->]. apply startswith_app.
Qed.

Lemma startswith_char (c : Z) (s : str) :
  Py.startswith [c] s = true ↔ head s = Some c.
Proof.
  destruct s as [|y s]; simpl; [done|].
  rewrite andb_true_r, Z.eqb_eq. naive_solver.
Qed.

Lemma endswith_char (c : Z) (s : str) :
  Py.endswith [c] s = true ↔ last s = Some c.
Proof.
  unfold Py.endswith. change (rev [c]) with [c].
  rewrite startswith_char, <- head_reverse. by rewrite rev_alt.
Qed.

Lemma eqb_eq (a b : str) : Py.eqb a b = true ↔ a = b.
Proof. unfold Py.eqb. apply bool_decide_eq_true. Qed.

Lemma eqb_refl (a : str) : Py.eqb a a = true.
Proof. by apply eqb_eq. Qed.

Lemma eqb_neq (a b : str) : Py.eqb a b = false ↔ a ≠ b.
Proof. unfold Py.eqb. apply bool_decide_eq_false. Qed.

(** Replacing a one-character string is a map over the characters. *)
Lemma replace_char (x : Z) (new : str) (s : str) :
  Py.replace [x] new s = flat_map (fun c => if c =? x then new else [c]) s.
Proof.
  unfold Py.replace. induction s as [|c s IH]; [done|].
  cbn [Py.replace_from Py.startswith length pred flat_map].
  rewrite andb_true_r, (Z.eqb_sym x c).
  destruct (c =? x); by rewrite IH.
Qed.

Lemma replace_bar (inner : str) :
  Py.replace (Py.lit "|") FULLWIDTH_BAR inner = widen_bars inner.
Proof.
  change (Py.lit "|") with [0x7C]. rewrite replace_char.
  unfold widen_bars. induction inner as [|c s IH]; [done|].
  simpl. rewrite IH. by destruct (c =? 124).
Qed.

Lemma slice_inner (inner : str) :
  Py.slice 1 (-1) (bracketed inner) = inner.
Proof.
  unfold Py.slice, Py.slice_bound, bracketed.
  rewrite !length_app. cbn [length app].
  replace (Z.of_nat (1 + (length inner + 1))) with (Z.of_nat (length inner) + 2) by lia.
  destruct (Z.ltb_spec 1 0); [lia|]. destruct (Z.ltb_spec (-1) 0); [|lia].
  rewrite Z.min_l, Z.max_r by lia.
  replace (Z.to_nat (-1 + (Z.of_nat (length inner) + 2) - 1)) with (length inner) by lia.
  change (Z.to_nat 1) with 1%nat. simpl.
  by rewrite drop_0, take_app_length.
Qed.
(** ** The marker canonicalizer *)

Lemma payload_nonempty (m : marker) : payload m ≠ [].
Proof. by destruct m. Qed.

Lemma canonical_bracketed (m : marker) : canonical m = bracketed (payload m).
Proof. by destruct m. Qed.

Lemma payload_inj (m m' : marker) : payload m = payload m' → m = m'.
Proof. destruct m, m'; intros H; try done; by inversion H. Qed.

Lemma marker_candidates_lookup (p : str) (m : marker) :
  p = payload m → marker_candidates !! p = Some (canonical m).
Proof.
  intros ->. destruct m; vm_compute; reflexivity.
Qed.

Lemma marker_candidates_none (p : str) :
  (∀ m, p ≠ payload m) → marker_candidates !! p = None.
Proof.
  intros H. unfold marker_candidates.
  rewrite !lookup_insert_ne, lookup_empty; [done|..]; intros E; symmetry in E.
  - by apply (H AssistantTurn).
  - by apply (H UserTurn).
  - by apply (H EndOfSequence).
  - by apply (H BeginOfSequence).
Qed.

Lemma marker_candidates_some (p c : str) :
  marker_candidates !! p = Some c → ∃ m, p = payload m ∧ c = canonical m.
Proof.
  unfold marker_candidates. rewrite !lookup_insert_Some, lookup_empty.
  intros [[<- <-]|[_ [[<- <-]|[_ [[<- <-]|[_ [[<- <-]|[_ ?]]]]]]]]; [..|done].
  - by exists BeginOfSequence.
  - by exists EndOfSequence.
  - by exists UserTurn.
  - by exists AssistantTurn.
Qed.

Lemma bracketed_length (inner : str) :
  length (bracketed inner) = S (S (length inner)).
Proof. unfold bracketed. rewrite !length_app. simpl. lia. Qed.

Lemma bracketed_starts (inner : str) :
  Py.startswith (Py.lit "<") (bracketed inner) = true.
Proof. apply startswith_char. done. Qed.

Lemma bracketed_ends (inner : str) :
  Py.endswith (Py.lit ">") (bracketed inner) = true.
Proof.
  apply endswith_char. unfold bracketed.
  rewrite app_assoc. apply last_snoc.
Qed.

Lemma bracketed_intro (s : str) :
  Py.startswith (Py.lit "<") s = true → Py.endswith (Py.lit ">") s = true →
  (2 <= length s)%nat → ∃ inner, s = bracketed inner.
Proof.
  intros Hs He Hl. apply startswith_char in Hs. apply endswith_char in He.
  destruct s as [|c s]; [done|]. simpl in Hs. injection Hs as ->.
  destruct (decide (s = [])) as [->|Hne]; [simpl in Hl; lia|].
  destruct (exists_last Hne) as (inner & z & ->).
  rewrite app_comm_cons, last_snoc in He. injection He as ->.
  by exists inner.
Qed.

Lemma looks_bracketed (inner : str) :
  looks_like_one_of_four_chat_markers (bracketed inner) =
  match marker_candidates !! widen_bars inner with
  | Some canon => (true, canon)
  | None => (false, bracketed inner)
  end.
Proof.
  unfold looks_like_one_of_four_chat_markers.
  rewrite bracketed_starts, bracketed_ends, slice_inner, replace_bar.
  rewrite bracketed_length.
  destruct inner as [|c inner]; [done|].
  destruct (Z.ltb_spec (Z.of_nat (S (S (length (c :: inner))))) 3) as [H|H];
    [simpl in H; lia|].
  destruct (Z.leb_spec 2 (Z.of_nat (S (S (length (c :: inner)))))) as [H'|H'];
    [done|lia].
Qed.

(** C4. The marker canonicalizer on a string in angle brackets answers
    [(true, canonical m)] exactly when the text between the brackets, with
    every ASCII bar read as the full-width bar, is the payload of a marker
    [m], and [(false, s)] with the string itself when it is the payload of
    none; on a string that is not in angle brackets it answers [(false, s)]. *)
Theorem looks_like_one_of_four_chat_markers_contract :
  (∀ inner m, widen_bars inner = payload m →
     looks_like_one_of_four_chat_markers (bracketed inner) = (true, canonical m)
     ∧ canonical m = bracketed (payload m)) ∧
  (∀ inner m, looks_like_one_of_four_chat_markers (bracketed inner) = (true, canonical m)
     → widen_bars inner = payload m) ∧
  (∀ inner, (∀ m, widen_bars inner ≠ payload m) →
     looks_like_one_of_four_chat_markers (bracketed inner) = (false, bracketed inner)) ∧
  (∀ s, (∀ inner, s ≠ bracketed inner) →
     looks_like_one_of_four_chat_markers s = (false, s)).
Proof.
  repeat split.
  - rewrite looks_bracketed. by erewrite marker_candidates_lookup.
  - apply canonical_bracketed.
  - intros inner m. rewrite looks_bracketed.
    destruct (marker_candidates !! widen_bars inner) as [c|] eqn:E; [|done].
    apply marker_candidates_some in E as (m' & E & ->).
    intros [= Hc]. rewrite E. f_equal.
    rewrite !canonical_bracketed in Hc. unfold bracketed in Hc.
    apply payload_inj. by simplify_list_eq.
  - intros inner H. rewrite looks_bracketed. by rewrite marker_candidates_none.
  - intros s H. unfold looks_like_one_of_four_chat_markers.
    destruct (Z.of_nat (length s) <? 3); [done|].
    destruct (Py.startswith (Py.lit "<") s) eqn:Hs; [|done].
    destruct (Py.endswith (Py.lit ">") s) eqn:He; [|done].
    destruct (Z.leb_spec 2 (Z.of_nat (length s))) as [Hl|Hl]; [|done].
    destruct (bracketed_intro s Hs He) as [inner ->]; [lia|].
    by destruct (H inner).
Qed.

Lemma looks_like_one_of_four_chat_markers_contract_witness :
  looks_like_one_of_four_chat_markers (Py.lit "<|User|>") = (true, CANON_USER)
  ∧ looks_like_one_of_four_chat_markers (Py.lit "<|user|>") = (false, Py.lit "<|user|>")
  ∧ looks_like_one_of_four_chat_markers (Py.lit "|User|") = (false, Py.lit "|User|").
Proof.
  destruct looks_like_one_of_four_chat_markers_contract as (H1 & _ & H3 & H4).
  split; [|split].
  - apply (H1 (Py.lit "|User|") UserTurn). reflexivity.
  - apply (H3 (Py.lit "|user|")). intros m; destruct m; discriminate.
  - apply H4. intros inner. discriminate.
Defined.
(** ** The text repair engine *)


Lemma decode_utf8_ignore_total (skip : nat) (bs : bytes) :
  is_Some (Py.decode_utf8_from Py.ignore skip bs).
Proof.
  revert skip. induction bs as [|b bs IH]; intros skip; [by eexists|].
  cbn [Py.decode_utf8_from]. destruct skip as [|k]; [|apply IH].
  destruct (Py.utf8_sequence (b :: bs)) as [[cp n]|]; [|apply IH].
  destruct (IH n) as [t ->]. by eexists.
Qed.






(** C10. The single character U+00E9 holds no mojibake literal and no
    marker character; both reinterpretations drop it, they tie with the
    unchanged text under [score], and the earlier candidate wins: the
    repair returns the empty string. *)
Theorem demojibake_and_normalize_deletes_e_acute :
  has_mojibake_remnants [0xE9] = false ∧
  canon [0xE9] = 0 ∧
  candidates [0xE9] = [[]; []; [0xE9]] ∧
  score [] = score [0xE9] ∧
  demojibake_and_normalize [0xE9] = [] ∧
  Nat.lt (length (demojibake_and_normalize [0xE9])) (length [0xE9]).
Proof. vm_compute. repeat split; lia. Qed.
(** ** Corrupted forms of the markers *)

(** C7. For each of the four markers and each misreading of its UTF-8
    octets, the repair engine followed by the marker canonicalizer detects
    the marker and returns its canonical string; the four samples of the
    self-test are the cp1252 misreadings, and the self-test passes. *)
Theorem corrupted_markers_canonicalize :
  (∀ f m, looks_like_one_of_four_chat_markers
            (demojibake_and_normalize (corrupted f m)) = (true, canonical m)) ∧
  self_test_samples =
    map (fun m => (corrupted AsCp1252 m, canonical m))
        [BeginOfSequence; EndOfSequence; UserTurn; AssistantTurn] ∧
  self_test self_test_samples = [].
Proof.
  split_and!.
  - intros f m. destruct f, m; vm_compute; reflexivity.
  - reflexivity.
  - vm_compute. reflexivity.
Qed.
(** ** Deduplication *)

(** One step of [dedupe], by the content of the entry. *)
Lemma dedupe_cons (idx : nat) (seen : gmap str json) (tok : object) (rest : list object) :
  dedupe idx seen (tok :: rest) =
  match content_of tok with
  | Some c =>
    if decide (is_Some (seen !! c))
    then ((dedupe (S idx) seen rest).1,
          (idx, id_of tok, c) :: (dedupe (S idx) seen rest).2)
    else (tok :: (dedupe (S idx) (<[c := id_of tok]> seen) rest).1,
          (dedupe (S idx) (<[c := id_of tok]> seen) rest).2)
  | None => (tok :: (dedupe (S idx) seen rest).1, (dedupe (S idx) seen rest).2)
  end.
Proof.
  unfold content_of, id_of. cbn [dedupe].
  destruct (tok.2) as [| | | | |d]; try by destruct (dedupe (S idx) seen rest).
  destruct (get "content" d); try by destruct (dedupe (S idx) seen rest).
  case_decide; by destruct (dedupe _ _ rest).
Qed.

Section dedupe.
Implicit Types (toks : list object) (seen : gmap str json) (c : str).

Lemma dedupe_sublist idx seen toks : (dedupe idx seen toks).1 `sublist_of` toks.
Proof.
  revert idx seen. induction toks as [|tok rest IH]; intros idx seen; [done|].
  rewrite dedupe_cons. destruct (content_of tok) as [c|]; [case_decide|]; simpl.
  - by apply sublist_cons.
  - by apply sublist_skip.
  - by apply sublist_skip.
Qed.

Lemma dedupe_first idx seen toks c :
  filter (fun t => content_of t = Some c) (dedupe idx seen toks).1 =
  if decide (is_Some (seen !! c)) then []
  else take 1 (filter (fun t => content_of t = Some c) toks).
Proof.
  revert idx seen. induction toks as [|tok rest IH]; intros idx seen.
  { simpl. by case_decide. }
  rewrite dedupe_cons. destruct (content_of tok) as [c0|] eqn:E.
  - destruct (decide (is_Some (seen !! c0))) as [Hin|Hout]; simpl.
    + rewrite IH. case_decide; [done|].
      rewrite filter_cons_False; [done|].
      rewrite E. intros [= ->]. done.
    + destruct (decide (c0 = c)) as [->|Hne].
      * rewrite !filter_cons_True by done. rewrite IH.
        rewrite lookup_insert_eq. rewrite decide_True by done.
        by rewrite decide_False by done.
      * rewrite !filter_cons_False by (rewrite E; congruence).
        rewrite IH, lookup_insert_ne by done. done.
  - simpl. rewrite !filter_cons_False by (rewrite E; congruence). apply IH.
Qed.

Lemma dedupe_keeps_others idx seen toks :
  filter (fun t => content_of t = None) (dedupe idx seen toks).1 =
  filter (fun t => content_of t = None) toks.
Proof.
  revert idx seen. induction toks as [|tok rest IH]; intros idx seen; [done|].
  rewrite dedupe_cons. destruct (content_of tok) as [c0|] eqn:E.
  - case_decide; simpl.
    + rewrite filter_cons_False by (rewrite E; congruence). apply IH.
    + rewrite !filter_cons_False by (rewrite E; congruence). apply IH.
  - simpl. rewrite !filter_cons_True by done. by rewrite IH.
Qed.

(** What [dedup_removed] holds: the place, identifier and content of
    every entry whose content was seen before it. *)
Lemma dedupe_removed idx seen toks (i : nat) (id : json) c :
  (i, id, c) ∈ (dedupe idx seen toks).2 ↔
  ∃ k tok, i = (idx + k)%nat ∧ toks !! k = Some tok ∧
           content_of tok = Some c ∧ id_of tok = id ∧
           (is_Some (seen !! c) ∨
            ∃ j tok', (j < k)%nat ∧ toks !! j = Some tok' ∧ content_of tok' = Some c).
Proof.
  revert idx seen. induction toks as [|tok rest IH]; intros idx seen.
  { simpl. split; [by intros ?%elem_of_nil|]. by intros (k & t & _ & ? & _). }
  rewrite dedupe_cons. destruct (content_of tok) as [c0|] eqn:E.
  - destruct (decide (is_Some (seen !! c0))) as [Hin|Hout]; simpl.
    + rewrite elem_of_cons, IH. split.
      * intros [[= -> -> ->]|(k & t & -> & Hk & Hc & Hid & Hs)].
        -- exists O, tok. split_and!; first [done | lia | by left].
        -- exists (S k), t. split_and!; first [done | lia | idtac].
           destruct Hs as [?|(j & t' & ? & ? & ?)]; [by left|right].
           exists (S j), t'. split_and!; first [done | lia].
      * intros ([|k] & t & -> & Hk & Hc & Hid & Hs); simplify_eq/=.
        -- left. by rewrite Nat.add_0_r.
        -- right. exists k, t. split_and!; first [done | lia | idtac].
           destruct Hs as [?|([|j] & t' & ? & ? & ?)]; simplify_eq/=.
           ++ by left.
           ++ by left.
           ++ right. exists j, t'. split_and!; first [done | lia].
    + rewrite IH. split.
      * intros (k & t & -> & Hk & Hc & Hid & Hs).
        exists (S k), t. split_and!; first [done | lia | idtac].
        destruct Hs as [Hs|(j & t' & ? & ? & ?)].
        -- destruct (decide (c0 = c)) as [->|Hne].
           ++ right. exists O, tok. split_and!; first [done | lia].
           ++ left. by rewrite lookup_insert_ne in Hs.
        -- right. exists (S j), t'. split_and!; first [done | lia].
      * intros ([|k] & t & -> & Hk & Hc & Hid & Hs); simplify_eq/=.
        -- destruct Hs as [?|(j & ? & ? & _)]; [done|lia].
        -- exists k, t. split_and!; first [done | lia | idtac].
           destruct Hs as [Hs|([|j] & t' & ? & ? & ?)]; simplify_eq/=.
           ++ left. destruct (decide (c0 = c)) as [->|Hne];
                [by rewrite lookup_insert_eq|by rewrite lookup_insert_ne].
           ++ left. by rewrite lookup_insert_eq.
           ++ right. exists j, t'. split_and!; first [done | lia].
  - simpl. rewrite IH. split.
    + intros (k & t & -> & Hk & Hc & Hid & Hs).
      exists (S k), t. split_and!; first [done | lia | idtac].
      destruct Hs as [?|(j & t' & ? & ? & ?)]; [by left|right].
      exists (S j), t'. split_and!; first [done | lia].
    + intros ([|k] & t & -> & Hk & Hc & Hid & Hs); simplify_eq/=.
      exists k, t. split_and!; first [done | lia | idtac].
      destruct Hs as [?|([|j] & t' & ? & ? & ?)]; simplify_eq/=; [by left|].
      right. exists j, t'. split_and!; first [done | lia].
Qed.

Lemma dedupe_length idx seen toks :
  (length (dedupe idx seen toks).1 + length (dedupe idx seen toks).2)%nat
  = length toks.
Proof.
  revert idx seen. induction toks as [|tok rest IH]; intros idx seen; [done|].
  rewrite dedupe_cons. destruct (content_of tok) as [c|]; [case_decide|]; simpl.
  - rewrite <- (IH (S idx) seen). lia.
  - by rewrite <- (IH (S idx) (<[c := id_of tok]> seen)).
  - by rewrite <- (IH (S idx) seen).
Qed.

(** With nothing removed the list is left as it was. *)
Lemma dedupe_nothing_removed idx seen toks :
  (dedupe idx seen toks).2 = [] → (dedupe idx seen toks).1 = toks.
Proof.
  revert idx seen. induction toks as [|tok rest IH]; intros idx seen; [done|].
  rewrite dedupe_cons. destruct (content_of tok); [case_decide|]; simpl;
    [done|intros Hnil; f_equal; by apply IH..].
Qed.
End dedupe.

(** C6. Deduplication by content keeps, for every string content, exactly
    the first entry that has it, keeps every entry without a string content,
    keeps the order of the list, and records the place, identifier and
    content of exactly the entries it drops; the list left in
    [added_tokens] is [new_list].  Two entries with content "X" and
    identifiers 5 and 9 leave the entry with identifier 5, and the removal
    of identifier 9 is recorded. *)
Theorem dedupe_keeps_first_occurrences :
  (∀ toks : list object,
     let new_list := (dedupe O ∅ toks).1 in
     let removed := (dedupe O ∅ toks).2 in
     new_list `sublist_of` toks ∧
     (∀ c, filter (fun t => content_of t = Some c) new_list =
           take 1 (filter (fun t => content_of t = Some c) toks)) ∧
     filter (fun t => content_of t = None) new_list =
       filter (fun t => content_of t = None) toks ∧
     (∀ i id c, (i, id, c) ∈ removed ↔
        ∃ tok, toks !! i = Some tok ∧ content_of tok = Some c ∧ id_of tok = id ∧
          ∃ j tok', (j < i)%nat ∧ toks !! j = Some tok' ∧ content_of tok' = Some c) ∧
     (length new_list + length removed)%nat = length toks ∧
     match removed with [] => toks | _ => new_list end = new_list) ∧
  (let entry (id : Z) : json :=
     JObj [(Py.lit "id", JNum id); (Py.lit "content", JStr (Py.lit "X"))] in
   dedupe O ∅ (tag [entry 5; entry 9]) =
     ([(O, entry 5)], [(1%nat, JNum 9, Py.lit "X")]) ∧
   repair_added_tokens (tag [entry 5; entry 9]) =
     ([(O, JObj [(Py.lit "id", JNum 5); (Py.lit "content", JStr (Py.lit "X"));
                 (Py.lit "normalized", JBool false)])],
      [ChDedupHeader; ChDedupRemoved 1 (JNum 9) (Py.lit "X")], O)).
Proof.
  split.
  - intros toks new_list removed. subst new_list removed. split_and!.
    + apply dedupe_sublist.
    + intros c. rewrite dedupe_first. by rewrite lookup_empty, decide_False by by inversion 1.
    + apply dedupe_keeps_others.
    + intros i id c. rewrite dedupe_removed. split.
      * intros (k & tok & -> & ? & ? & ? & [Hs|?]).
        -- rewrite lookup_empty in Hs. by destruct Hs.
        -- by exists tok.
      * intros (tok & ? & ? & ? & ?). exists i, tok. split_and!; try done. by right.
    + apply dedupe_length.
    + destruct (dedupe O ∅ toks).2 eqn:E; [|done].
      symmetry. by apply dedupe_nothing_removed.
  - vm_compute. done.
Qed.
(** ** Identifier preservation *)

Lemma dict_lookup_set_ne {A} (k k' : str) (v : A) (d : list (str * A)) :
  k ≠ k' → Dict.lookup k (Dict.set k' v d) = Dict.lookup k d.
Proof.
  intros Hne. unfold Dict.lookup. induction d as [|e d IH]; simpl.
  - by rewrite (proj2 (eqb_neq k' k)).
  - destruct (Py.eqb e.1 k') eqn:E1; simpl.
    + apply eqb_eq in E1. rewrite E1.
      by rewrite (proj2 (eqb_neq k' k)).
    + destruct (Py.eqb e.1 k); [done|]. apply IH.
Qed.

Lemma dict_lookup_set_eq {A} (k : str) (v : A) (d : list (str * A)) :
  Dict.lookup k (Dict.set k v d) = Some v.
Proof.
  unfold Dict.lookup. induction d as [|e d IH]; simpl.
  - by rewrite eqb_refl.
  - destruct (Py.eqb e.1 k) eqn:E1; simpl; [by rewrite eqb_refl|].
    by rewrite E1.
Qed.

Lemma get_set_ne (k k' : string) (v : json) (d : list (str * json)) :
  Py.lit k ≠ Py.lit k' → get k (Dict.set (Py.lit k') v d) = get k d.
Proof. intros. unfold get. by rewrite dict_lookup_set_ne. Qed.

Lemma process_added_token_id (idx : nat) (tok : json) :
  same_identifier tok (process_added_token idx tok).1.
Proof.
  unfold process_added_token, same_identifier.
  destruct tok as [| | | | |d]; try done.
  destruct (Dict.lookup (Py.lit "content") d) as [[| | |before| |]|]; try done.
  simpl. rewrite get_set_ne by done.
  destruct (is_bos_or_eos _); [rewrite get_set_ne by done|];
    (destruct (negb _); [by rewrite get_set_ne|done]).
Qed.

Lemma process_added_tokens_lookup (idx : nat) (toks : list object) (i : nat) (o : object) :
  (process_added_tokens idx toks).1 !! i = Some o →
  ∃ tok, toks !! i = Some (o.1, tok) ∧ same_identifier tok o.2.
Proof.
  revert idx i. induction toks as [|t toks IH]; intros idx i; [done|].
  cbn [process_added_tokens].
  pose proof (process_added_token_id idx t.2) as Hid.
  destruct (process_added_token idx t.2) as [v ch].
  specialize (IH (S idx)). destruct (process_added_tokens (S idx) toks) as [rest chs].
  destruct i as [|i]; simpl.
  - intros [= <-]. exists t.2. by destruct t.
  - apply IH.
Qed.

Lemma tag_lookup (l : list json) (i : nat) (o : object) :
  tag l !! i = Some o ↔ o.1 = i ∧ l !! i = Some o.2.
Proof.
  unfold tag. rewrite list_lookup_imap.
  destruct o as [j t']. destruct (l !! i) as [t|]; simpl.
  - split; [by intros [= <- <-]|by intros [<- [= <-]]].
  - split; [done|by intros [_ ?]].
Qed.

Lemma tag_elem_of (l : list json) (o : object) :
  o ∈ tag l ↔ l !! o.1 = Some o.2.
Proof.
  rewrite list_elem_of_lookup. split.
  - intros [i [<- ?]%tag_lookup]. done.
  - intros H. exists o.1. by apply tag_lookup.
Qed.

Lemma capture_ids_snoc (toks : list object) (tok : object) :
  capture_ids (toks ++ [tok]) =
  match tok.2 with
  | JObj d => <[tok.1 := get "id" d]> (capture_ids toks)
  | _ => capture_ids toks
  end.
Proof. unfold capture_ids. by rewrite foldl_app. Qed.

Lemma capture_ids_tag (l : list json) (i : nat) (d : list (str * json)) :
  l !! i = Some (JObj d) → capture_ids (tag l) !! i = Some (get "id" d).
Proof.
  revert i. induction l as [|t l IH] using rev_ind; intros i; [done|].
  unfold tag. rewrite imap_app. cbn [imap]. fold (tag l).
  rewrite capture_ids_snoc. cbn [fst snd]. rewrite Nat.add_0_r.
  intros Hi. destruct (decide (i = length l)) as [->|Hne].
  - rewrite list_lookup_middle in Hi by done. injection Hi as ->.
    by rewrite lookup_insert_eq.
  - assert (i < length l)%nat.
    { apply lookup_lt_Some in Hi. rewrite length_app in Hi. simpl in Hi. lia. }
    rewrite lookup_app_l in Hi by done.
    destruct t; try by apply IH.
    rewrite lookup_insert_ne by done. by apply IH.
Qed.

Lemma repair_added_tokens_elem_of (toks : list object) (o : object) :
  o ∈ (repair_added_tokens toks).1.1 →
  ∃ tok, (o.1, tok) ∈ toks ∧ same_identifier tok o.2.
Proof.
  unfold repair_added_tokens.
  pose proof (process_added_tokens_lookup O toks) as Hp.
  destruct (process_added_tokens O toks) as [processed chs]. simpl in Hp.
  pose proof (dedupe_sublist O ∅ processed) as Hs.
  destruct (dedupe O ∅ processed) as [new_list removed]. simpl in *.
  intros Ho.
  assert (o ∈ processed) as [i Hi]%list_elem_of_lookup.
  { destruct removed; [done|]. by eapply sublist_subseteq. }
  destruct (Hp i o Hi) as (tok & ? & ?). exists tok. split; [|done].
  by eapply list_elem_of_lookup_2.
Qed.

Lemma repair_added_tokens_field (top : list (str * json)) :
  added_tokens (repair top) =
    match get "added_tokens" top with
    | JArr l => Some (repair_added_tokens (tag l)).1.1
    | _ => None
    end ∧
  id_by_obj (repair top) =
    match get "added_tokens" top with
    | JArr l => capture_ids (tag l)
    | _ => ∅
    end.
Proof.
  unfold repair.
  destruct (get "added_tokens" top) as [| | | |l|];
    try (by destruct (repair_special_tokens _)).
  destruct (repair_added_tokens (tag l)) as [[toks' chs] n].
  by destruct (repair_special_tokens _).
Qed.

Lemma json_induction (P : json → Prop) :
  P JNull → (∀ b, P (JBool b)) → (∀ n, P (JNum n)) → (∀ s, P (JStr s)) →
  (∀ l, Forall P l → P (JArr l)) →
  (∀ d, Forall (fun e => P e.2) d → P (JObj d)) →
  ∀ j, P j.
Proof.
  intros Hnull Hbool Hnum Hstr Harr Hobj.
  fix IH 1. intros [|b|n|s|l|d];
    [exact Hnull|apply Hbool|apply Hnum|apply Hstr|..].
  - apply Harr. induction l as [|x l IHl]; constructor; [apply IH|apply IHl].
  - apply Hobj. induction d as [|e d IHd]; constructor; [apply IH|apply IHd].
Qed.

Lemma well_formed_arr (l : list json) :
  well_formed (JArr l) ↔ Forall well_formed l.
Proof.
  induction l as [|x l IH]; simpl; [split; [constructor|done]|].
  rewrite Forall_cons. simpl in IH. by rewrite IH.
Qed.

Lemma well_formed_obj (d : list (str * json)) :
  well_formed (JObj d) ↔ NoDup (map fst d) ∧ Forall (fun e => well_formed e.2) d.
Proof.
  simpl. apply and_iff_compat_l.
  induction d as [|e d IH]; simpl; [split; [constructor|done]|].
  rewrite Forall_cons. by rewrite IH.
Qed.

Lemma dict_lookup_elem_of {A} (k : str) (v : A) (d : list (str * A)) :
  Dict.lookup k d = Some v → (k, v) ∈ d.
Proof.
  unfold Dict.lookup. induction d as [|e d IH]; simpl; [done|].
  destruct (Py.eqb e.1 k) eqn:E; simpl.
  - intros [= <-]. apply eqb_eq in E as <-. destruct e. apply list_elem_of_here.
  - intros H. apply list_elem_of_further. by apply IH.
Qed.

Lemma dict_lookup_nodup {A} (k : str) (v : A) (d : list (str * A)) :
  NoDup (map fst d) → (k, v) ∈ d → Dict.lookup k d = Some v.
Proof.
  unfold Dict.lookup. induction d as [|e d IH]; simpl; [by intros _ ?%elem_of_nil|].
  rewrite NoDup_cons. intros [Hnin Hnd] [Heq|Hin]%elem_of_cons.
  - subst e. simpl. by rewrite eqb_refl.
  - destruct (Py.eqb e.1 k) eqn:E; simpl; [|by apply IH].
    apply eqb_eq in E. destruct Hnin. rewrite E.
    apply list_elem_of_fmap. by exists (k, v).
Qed.

Lemma py_eq_refl (j : json) : well_formed j → py_eq j j = true.
Proof.
  induction j as [|b|n|s|l IH|d IH] using json_induction; intros Hwf; simpl.
  - done.
  - by apply bool_decide_eq_true.
  - apply Z.eqb_refl.
  - apply eqb_refl.
  - apply well_formed_arr in Hwf.
    induction l as [|x l IHl]; [done|].
    apply Forall_cons in IH as [Hx IH]. apply Forall_cons in Hwf as [Hwx Hwf].
    rewrite Hx by done. simpl. by apply IHl.
  - apply well_formed_obj in Hwf as [Hnd Hwf]. rewrite Nat.eqb_refl. simpl.
    assert (∀ e, e ∈ d → Dict.lookup e.1 d = Some e.2) as Hlook.
    { intros [k v] Hin. by apply dict_lookup_nodup. }
    clear Hnd. revert Hlook. generalize d at 2 3 as dy. intros dy Hlook.
    induction d as [|[k v] d IHd]; [done|].
    apply Forall_cons in IH as [Hx IH]. apply Forall_cons in Hwf as [Hwx Hwf].
    pose proof (Hlook (k, v) (list_elem_of_here _ _)) as Hk.
    simpl in Hk, Hx, Hwx |- *. rewrite Hk, Hx by done. simpl. apply IHd; try done.
    intros e He. apply Hlook. by apply list_elem_of_further.
Qed.
Lemma well_formed_get (k : string) (d : list (str * json)) :
  well_formed (JObj d) → well_formed (get k d).
Proof.
  intros [_ Hwf]%well_formed_obj. unfold get.
  destruct (Dict.lookup (Py.lit k) d) as [v|] eqn:E; [|done].
  apply dict_lookup_elem_of in E.
  by apply (proj1 (Forall_forall _ _) Hwf (Py.lit k, v)).
Qed.

(** What the repair pass leaves of an entry of the loaded list. *)
Lemma surviving_identifier (top : list (str * json)) (toks' : list object)
    (oid : nat) (d' : list (str * json)) :
  added_tokens (repair top) = Some toks' → (oid, JObj d') ∈ toks' →
  id_by_obj (repair top) !! oid = Some (get "id" d') ∧
  ∃ l d, get "added_tokens" top = JArr l ∧ l !! oid = Some (JObj d) ∧
         get "id" d' = get "id" d.
Proof.
  intros Ha Hin.
  destruct (repair_added_tokens_field top) as [Ha' Hids].
  rewrite Ha in Ha'. rewrite Hids.
  destruct (get "added_tokens" top) as [| | | |l|]; try done.
  injection Ha' as ->.
  apply repair_added_tokens_elem_of in Hin as (tok & Htok & Hid).
  apply tag_elem_of in Htok. simpl in *.
  destruct tok as [| | | | |d]; try done.
  split; [erewrite capture_ids_tag by done; by rewrite Hid|].
  by exists l, d.
Qed.

(** On a loaded document the identifier check of step 4 finds nothing. *)
Lemma check_ids_repair (top : list (str * json)) :
  well_formed (JObj top) → check_ids (repair top) = [].
Proof.
  intros Hwf. unfold check_ids.
  destruct (added_tokens (repair top)) as [toks'|] eqn:Ha; [|done].
  assert (∀ tok, tok ∈ toks' → check_id (id_by_obj (repair top)) tok = []) as Hall.
  { intros [oid tok] Hin. unfold check_id. simpl.
    destruct tok as [| | | | |d']; try done.
    destruct (surviving_identifier top toks' oid d' Ha Hin)
      as (-> & l & d & Hl & Hd & Hid).
    rewrite py_eq_refl; [done|]. rewrite Hid.
    apply well_formed_get.
    assert (well_formed (JArr l)) as Hwl
      by (rewrite <- Hl; by apply well_formed_get).
    apply well_formed_arr in Hwl.
    apply (proj1 (Forall_forall _ _) Hwl). by eapply list_elem_of_lookup_2. }
  clear Ha. induction toks' as [|tok toks' IH]; [done|]. simpl.
  rewrite Hall by apply list_elem_of_here. simpl.
  apply IH. intros t Ht. apply Hall. by apply list_elem_of_further.
Qed.

(** C5. Every entry that is in [added_tokens] after the repair pass is an
    entry of the loaded list, and the identifier it has now is the one it
    had when loaded, which is also the one captured for it in [id_by_obj];
    so the identifier check of a loaded document finds nothing.  Whenever
    that check does find a difference, the run ends at once as
    [IdsChanged], which is not the ending of a validation failure, and
    nothing has been written. *)
Theorem identifiers_preserved :
  (∀ top toks' oid d',
     added_tokens (repair top) = Some toks' → (oid, JObj d') ∈ toks' →
     id_by_obj (repair top) !! oid = Some (get "id" d') ∧
     ∃ l d, get "added_tokens" top = JArr l ∧ l !! oid = Some (JObj d) ∧
            get "id" d' = get "id" d) ∧
  (∀ top, well_formed (JObj top) → check_ids (repair top) = []) ∧
  (∀ r text s,
     check_ids s ≠ [] →
     status (finish r text s) = IdsChanged (check_ids s) ∧
     writes (finish r text s) = [] ∧
     ∀ errors, status (finish r text s) ≠ ValidationErrors errors).
Proof.
  split_and!.
  - apply surviving_identifier.
  - apply check_ids_repair.
  - intros r text s Hne. unfold finish.
    destruct (check_ids s) as [|e es]; [done|]. simpl.
    split_and!; [done..|]. intros errors. discriminate.
Qed.

Lemma identifiers_preserved_witness :
  let top := [(Py.lit "added_tokens",
               JArr [JObj [(Py.lit "id", JNum 7);
                           (Py.lit "content", JStr (Py.lit "<|User|>"))]])] in
  let d' := [(Py.lit "id", JNum 7); (Py.lit "content", JStr CANON_USER);
             (Py.lit "normalized", JBool false)] in
  let s := {| tokenizer := top; added_tokens := Some [(O, JObj d')]; st := JNull;
              id_by_obj := {[ O := JNum 8 ]}; rep_changes := [];
              rep_modified := O |} in
  let r := {| dry := false; tokenizer_json := None; special_tokens_map_json := None;
              vocab_json := None; tokenizer_config_json := None |} in
  (id_by_obj (repair top) !! O = Some (get "id" d') ∧
   ∃ l d, get "added_tokens" top = JArr l ∧ l !! O = Some (JObj d) ∧
          get "id" d' = get "id" d) ∧
  check_ids (repair top) = [] ∧
  (status (finish r [] s) = IdsChanged (check_ids s) ∧
   writes (finish r [] s) = [] ∧
   ∀ errors, status (finish r [] s) ≠ ValidationErrors errors).
Proof.
  intros top d' s r.
  destruct identifiers_preserved as (H1 & H2 & H3). split_and!.
  - apply (H1 top [(O, JObj d')] O d'); [vm_compute; reflexivity|].
    apply list_elem_of_singleton. reflexivity.
  - apply (H1 top [(O, JObj d')] O d'); [vm_compute; reflexivity|].
    apply list_elem_of_singleton. reflexivity.
  - apply H2. cbn. split_and!; try done; compute_done.
  - apply (H3 r [] s). vm_compute. discriminate.
  - apply (H3 r [] s). vm_compute. discriminate.
  - apply (H3 r [] s). vm_compute. discriminate.
Defined.
(** ** Validation of the flags *)

Lemma get_set_eq (k : string) (v : json) (d : list (str * json)) :
  get k (Dict.set (Py.lit k) v d) = v.
Proof. unfold get. by rewrite dict_lookup_set_eq. Qed.

Lemma concat_imap_nil {A B} (f : nat → A → list B) (l : list A) :
  (∀ i x, x ∈ l → f i x = []) → concat (imap f l) = [].
Proof.
  revert f. induction l as [|x l IH]; intros f H; [done|]. simpl.
  rewrite H by apply list_elem_of_here. simpl.
  apply IH. intros i y Hy. apply H. by apply list_elem_of_further.
Qed.

Lemma elem_of_concat_imap {A B} (f : nat → A → list B) (l : list A) (i : nat)
    (x : A) (y : B) :
  l !! i = Some x → y ∈ f i x → y ∈ concat (imap f l).
Proof.
  revert f i. induction l as [|z l IH]; intros f i; [done|]. simpl.
  destruct i as [|i]; simpl.
  - intros [= ->] Hy. apply elem_of_app. by left.
  - intros Hi Hy. apply elem_of_app. right. by apply (IH (f ∘ S) i).
Qed.

(** Once the main pass has handled an entry, the flag check accepts it. *)
Lemma validate_flags_of_processed (idx i : nat) (oid : nat) (tok : json) :
  validate_flags_of i (oid, (process_added_token idx tok).1) = [].
Proof.
  unfold process_added_token, validate_flags_of. cbn [snd].
  destruct tok as [| | | | |d]; try done.
  destruct (Dict.lookup (Py.lit "content") d) as [v|] eqn:E.
  - destruct v as [| | |before| |]; cbn [fst];
      try (unfold get; by rewrite E).
    generalize (repair_content before) as after. intros after.
    assert (∀ d', get "content" d' = JStr after →
              get "content" (Dict.set (Py.lit "normalized") (JBool false) d') = JStr after)
      as Hn by (intros d' <-; by apply get_set_ne).
    assert (get "content"
              (if negb (Py.eqb after before)
               then Dict.set (Py.lit "content") (JStr after) d else d) = JStr after) as Hc.
    { destruct (Py.eqb after before) eqn:Eq; simpl.
      - apply eqb_eq in Eq. unfold get. by rewrite E, Eq.
      - apply get_set_eq. }
    destruct (is_bos_or_eos after) eqn:Hb.
    + rewrite Hn by (by rewrite get_set_ne).
      rewrite Hb. unfold get_or.
      rewrite dict_lookup_set_ne, dict_lookup_set_eq by done. simpl.
      rewrite get_set_eq. simpl. by rewrite andb_false_r.
    + rewrite Hn by done. rewrite Hb. simpl.
      rewrite get_set_eq. simpl. by rewrite andb_false_r.
  - cbn [fst]. unfold get. by rewrite E.
Qed.

Lemma process_added_tokens_elem_of (idx : nat) (toks : list object) (o : object) :
  o ∈ (process_added_tokens idx toks).1 →
  ∃ i tok, o = (o.1, (process_added_token i tok).1).
Proof.
  revert idx. induction toks as [|t toks IH]; intros idx; [by intros ?%elem_of_nil|].
  cbn [process_added_tokens].
  destruct (process_added_token idx t.2) as [v ch] eqn:E.
  specialize (IH (S idx)). destruct (process_added_tokens (S idx) toks) as [rest chs].
  simpl. intros [->|Hin]%elem_of_cons; [|by apply IH].
  exists idx, t.2. by rewrite E.
Qed.

Lemma validate_flags_repaired (toks : list object) :
  validate_flags (repair_added_tokens toks).1.1 = [].
Proof.
  unfold validate_flags. apply concat_imap_nil. intros i o Ho.
  assert (o ∈ (process_added_tokens O toks).1) as Hp.
  { revert Ho. unfold repair_added_tokens.
    destruct (process_added_tokens O toks) as [processed chs].
    pose proof (dedupe_sublist O ∅ processed) as Hs.
    destruct (dedupe O ∅ processed) as [new_list removed]. simpl in *.
    destruct removed; [done|]. by apply sublist_subseteq. }
  apply process_added_tokens_elem_of in Hp as (idx & tok & ->).
  apply validate_flags_of_processed.
Qed.

(** The main pass on an entry with a canonical sequence marker. *)
Lemma process_added_token_marker (idx : nat) (d : list (str * json)) (c : str) :
  Dict.lookup (Py.lit "content") d = Some (JStr c) → is_bos_or_eos c = true →
  ∃ d', process_added_token idx (JObj d) = (JObj d', []) ∧
        get "content" d' = JStr c ∧ get "special" d' = JBool true ∧
        get "normalized" d' = JBool false ∧ get "id" d' = get "id" d.
Proof.
  intros E Hb. unfold process_added_token. rewrite E.
  assert (repair_content c = c) as ->.
  { apply orb_prop in Hb as [->%eqb_eq| ->%eqb_eq]; vm_compute; reflexivity. }
  rewrite eqb_refl, Hb. simpl. eexists. split; [done|]. split_and!.
  - rewrite !get_set_ne by done. unfold get. by rewrite E.
  - by rewrite get_set_ne, get_set_eq.
  - by rewrite get_set_eq.
  - by rewrite !get_set_ne.
Qed.

(** *** No run reports a flag error *)

Lemma flagless_concat_imap {A} (f : nat → A → list verror) (l : list A) :
  (∀ i x, flagless (f i x)) → flagless (concat (imap f l)).
Proof.
  revert f. induction l as [|x l IH]; intros f H; [done|]. simpl.
  apply Forall_app. split; [apply H|]. apply IH. intros i y. apply H.
Qed.

Lemma flagless_concat_map {A} (f : A → list verror) (l : list A) :
  (∀ x, flagless (f x)) → flagless (concat (map f l)).
Proof.
  intros H. induction l as [|x l IH]; [done|]. simpl.
  apply Forall_app. by split.
Qed.

Lemma flagless_validate_bos_eos_value (name value : str) :
  flagless (validate_bos_eos_value name value).
Proof.
  unfold validate_bos_eos_value.
  apply Forall_app. split; by destruct (_ && _); repeat constructor.
Qed.

Lemma flagless_check_map_key (key : str) (s : json * list change * list verror) :
  flagless s.2 →
  match check_map_key key s with
  | Done s' | Raised s' => flagless s'.2
  end.
Proof.
  destruct s as [[st_map chs] errs]. intros H. unfold check_map_key.
  destruct (contains_key key st_map) as [[]|]; try exact H.
  destruct (subscript key st_map) as [v|]; [|exact H].
  destruct v as [| | |orig_val| |];
    [exact H|exact H|exact H| |exact H|exact H].
  destruct (looks_like_one_of_four_chat_markers _) as [ok canon]. cbn [snd].
  apply Forall_app_2; [exact H|apply flagless_validate_bos_eos_value].
Qed.

Lemma flagless_check_special_tokens_map (is_dry : bool) (f : file) :
  flagless (check_special_tokens_map is_dry f).1.2.
Proof.
  unfold check_special_tokens_map.
  destruct f as [|text|src_text st_map]; try by repeat constructor.
  pose proof (flagless_check_map_key (Py.lit "bos_token") (st_map, [], [])
                (Forall_nil_2 _)) as H1.
  destruct (check_map_key (Py.lit "bos_token") (st_map, [], [])) as [s1|s1].
  - pose proof (flagless_check_map_key (Py.lit "eos_token") s1 H1) as H2.
    destruct (check_map_key (Py.lit "eos_token") s1) as [[[m chs] errs]|[[m chs] errs]];
      simpl in *; [done|].
    apply Forall_app. split; [done|by repeat constructor].
  - destruct s1 as [[m chs] errs]. simpl in *.
    apply Forall_app. split; [done|by repeat constructor].
Qed.

Lemma flagless_infer_bos_eos (s : repaired) : flagless (infer_bos_eos s).
Proof.
  unfold infer_bos_eos.
  assert (∀ key expected,
            flagless
              (match st s with
               | JObj d =>
                 match get key d with
                 | JStr v => (validate_bos_eos_value (Py.lit key)
                                (demojibake_and_normalize v), Py.eqb v expected)
                 | _ => ([], false)
                 end
               | _ => ([], false)
               end).1) as Hm.
  { intros key expected. destruct (st s) as [| | | | |d]; try done.
    destruct (get key d); try done. apply flagless_validate_bos_eos_value. }
  pose proof (Hm "bos_token" CANON_BOS) as Hb.
  pose proof (Hm "eos_token" CANON_EOS) as He.
  destruct (match st s with JObj d => _ | _ => _ end) as [errs_bos found_bos].
  destruct (match st s with JObj d => _ | _ => _ end) as [errs_eos found_eos].
  simpl in Hb, He.
  repeat (apply Forall_app; split); try done;
    match goal with |- context [if ?b then _ else _] => destruct b end;
    by repeat constructor.
Qed.

Lemma flagless_scan_string (remnants zero_width : verror) (c : str) :
  is_flag_error remnants = false → is_flag_error zero_width = false →
  flagless (scan_string remnants zero_width c).
Proof.
  intros Hr Hz. unfold scan_string. apply Forall_app. split.
  - destruct (has_mojibake_remnants c); by repeat constructor.
  - destruct (is_angle_bracketed c); [|done]. by apply Forall_replicate.
Qed.

Lemma flagless_scan_for_remnants (s : repaired) : flagless (scan_for_remnants s).
Proof.
  unfold scan_for_remnants. apply Forall_app. split.
  - destruct (added_tokens s) as [toks|]; [|done].
    apply flagless_concat_imap. intros i [oid tok]. unfold scan_added_token. simpl.
    destruct tok as [| | | | |d]; try done.
    destruct (get "content" d); try done. by apply flagless_scan_string.
  - destruct (st s) as [| | | |l|d]; try done.
    + apply flagless_concat_imap. intros i tok. unfold scan_special_entry.
      destruct tok as [| | | | |d]; try done.
      destruct (get "content" d); try done. by apply flagless_scan_string.
    + apply flagless_concat_map. intros [k v]. unfold scan_special_key. simpl.
      destruct v; try done. by apply flagless_scan_string.
Qed.

Lemma flagless_check_vocab (vocab_map : json) (s : repaired) (errs : list verror) :
  check_vocab vocab_map s = Some errs → flagless errs.
Proof.
  unfold check_vocab. destruct (truthy vocab_map); [|by intros [= <-]].
  generalize (match added_tokens s with Some toks => marker_ids toks | None => [] end).
  intros ids. rewrite fmap_Some. intros (errss & Hm & ->).
  apply mapM_Some in Hm.
  induction Hm as [|e errs0 ids errss He _ IH]; [done|]. simpl.
  apply Forall_app. split; [|done].
  unfold check_collision in He.
  destruct (contains_key e.1 vocab_map) as [[]|]; simplify_eq; [|done].
  destruct vocab_map; try done.
  destruct (Dict.lookup e.1 d); simplify_eq.
  destruct (negb _); by repeat constructor.
Qed.

Lemma flagless_check_pattern (pat : str) : flagless (check_pattern pat).
Proof.
  unfold check_pattern. apply Forall_app. split.
  - destruct (has_mojibake_remnants pat); by repeat constructor.
  - destruct (Py.contains _ pat); [|done].
    destruct (negb _); by repeat constructor.
Qed.

Lemma flagless_walk (x : json) : flagless (walk x).
Proof.
  induction x as [|b|n|s|l IH|d IH] using json_induction; try done.
  - simpl. induction IH as [|v l Hv _ IHl]; [done|].
    apply Forall_app. by split.
  - simpl. apply Forall_app. split.
    + destruct (Dict.lookup _ d) as [[| | |pat| |]|]; try done.
      apply flagless_check_pattern.
    + induction IH as [|e d' He _ IHd]; [done|].
      apply Forall_app. by split.
Qed.

Lemma flagless_process_tokenizer_config (is_dry : bool) (f : file) :
  flagless (process_tokenizer_config is_dry f).1.2.
Proof.
  unfold process_tokenizer_config.
  destruct f as [|text|cfg_text cfg]; try by repeat constructor.
  destruct cfg as [| | | | |d]; try done.
  destruct (get "chat_template" d); try done.
  by destruct (negb _).
Qed.

Lemma self_test_passes : self_test self_test_samples = [].
Proof. vm_compute. reflexivity. Qed.

Lemma flagless_finish (r : run) (text : str) (top : list (str * json)) :
  flagless (errors_of (finish r text (repair top))).
Proof.
  unfold finish, errors_of.
  destruct (check_ids (repair top)); [|done].
  pose proof (flagless_infer_bos_eos (repair top)) as H5i.
  assert (flagless (match special_tokens_map_json r with
                    | Some f => check_special_tokens_map (dry r) f
                    | None => ([], infer_bos_eos (repair top), [])
                    end).1.2) as H5.
  { destruct (special_tokens_map_json r);
      [apply flagless_check_special_tokens_map|done]. }
  destruct (match special_tokens_map_json r with Some f => _ | None => _ end)
    as [[chs5 errs5] writes5].
  assert (match added_tokens (repair top) with
          | Some toks => validate_flags toks
          | None => []
          end = []) as ->.
  { destruct (repair_added_tokens_field top) as [-> _].
    destruct (get "added_tokens" top); try done. apply validate_flags_repaired. }
  destruct (check_vocab _ _) as [errs62|] eqn:E62; [|done].
  apply flagless_check_vocab in E62.
  assert (flagless (match tokenizer_config_json r with
                    | Some f => process_tokenizer_config (dry r) f
                    | None => ([], [], [])
                    end).1.2) as H8.
  { destruct (tokenizer_config_json r);
      [apply flagless_process_tokenizer_config|done]. }
  destruct (match tokenizer_config_json r with Some f => _ | None => _ end)
    as [[chs8 errs8] writes8].
  cbn [fst snd] in H5, H8.
  assert (flagless (if dry r then self_test self_test_samples else [])) as H7
    by (destruct (dry r); [by rewrite self_test_passes|done]).
  generalize dependent (if dry r then self_test self_test_samples else []).
  intros errs7 H7.
  pose proof (flagless_scan_for_remnants (repair top)) as H6.
  pose proof (flagless_walk
                (get_or "pre_tokenizer" (JObj (tokenizer (repair top)))
                   (tokenizer (repair top)))) as H63.
  fold (verify_regex_payloads (tokenizer (repair top))) in H63.
  generalize dependent (scan_for_remnants (repair top)). intros errs6 H6.
  generalize dependent (verify_regex_payloads (tokenizer (repair top))).
  intros errs63 H63.
  assert (flagless (errs5 ++ errs6 ++ [] ++ errs62 ++ errs63 ++ errs7 ++ errs8))
    as Hall by (repeat (apply Forall_app_2; [done|]); done).
  destruct (errs5 ++ errs6 ++ [] ++ errs62 ++ errs63 ++ errs7 ++ errs8);
    [by destruct (dry r)|done].
Qed.

(** No run ends with a flag error. *)
Lemma flagless_main (r : run) : flagless (errors_of (main r)).
Proof.
  unfold main. destruct (tokenizer_json r) as [[|text|text [| | | | |top]]|];
    try done.
  - apply flagless_finish.
  - destruct (dry r); [|done]. by rewrite self_test_passes.
Qed.

(** C9 (the claim fails). A run over a document whose two sequence markers
    are canonical but not flagged special, in [added_tokens] and in a
    [special_tokens] list, ends without any validation error: the main pass
    has set the flags of [added_tokens] before they are checked, and the
    check looks at no other list. *)
Lemma unflagged_markers_raise_no_error :
  status (main (no_companions false (Py.lit "T") unflagged_markers)) = Written ∧
  errors_of (main (no_companions false (Py.lit "T") unflagged_markers)) = [].
Proof. vm_compute. done. Qed.

(** C9 (amended). An entry of [added_tokens] whose content is the canonical
    BeginOfSequence or EndOfSequence marker keeps its content and its
    identifier in the main pass, which sets [special] to true and
    [normalized] to false on it and records no change; the flag check that
    follows the pass therefore reports nothing, for this and for every other
    entry, and no run ends with a flag error among its validation errors.
    On a list in which an entry still has such a content and no true
    [special] flag, the check reports the missing flag for that entry. *)
Theorem special_flag_forced_before_validation :
  (∀ idx d c,
     Dict.lookup (Py.lit "content") d = Some (JStr c) → is_bos_or_eos c = true →
     ∃ d', process_added_token idx (JObj d) = (JObj d', []) ∧
           get "content" d' = JStr c ∧ get "special" d' = JBool true ∧
           get "normalized" d' = JBool false ∧ get "id" d' = get "id" d) ∧
  (∀ toks, validate_flags (repair_added_tokens toks).1.1 = []) ∧
  (∀ r, Forall (fun e => is_flag_error e = false) (errors_of (main r))) ∧
  (∀ toks idx oid d c,
     toks !! idx = Some (oid, JObj d) → get "content" d = JStr c →
     is_bos_or_eos c = true → truthy (get_or "special" (JBool false) d) = false →
     ESpecialFlag idx (get "id" d) ∈ validate_flags toks).
Proof.
  split_and!.
  - apply process_added_token_marker.
  - apply validate_flags_repaired.
  - apply flagless_main.
  - intros toks idx oid d c Hi Hc Hb Hs. unfold validate_flags.
    eapply elem_of_concat_imap; [done|].
    unfold validate_flags_of. cbn [snd]. rewrite Hc, Hb, Hs. simpl.
    apply list_elem_of_here.
Qed.

Lemma special_flag_forced_before_validation_witness :
  let d := [(Py.lit "id", JNum 0); (Py.lit "content", JStr CANON_BOS);
            (Py.lit "special", JBool false)] in
  (∃ d', process_added_token O (JObj d) = (JObj d', []) ∧
         get "content" d' = JStr CANON_BOS ∧ get "special" d' = JBool true ∧
         get "normalized" d' = JBool false ∧ get "id" d' = get "id" d) ∧
  validate_flags (repair_added_tokens [(O, JObj d)]).1.1 = [] ∧
  Forall (fun e => is_flag_error e = false)
    (errors_of (main (no_companions false (Py.lit "T") unflagged_markers))) ∧
  ESpecialFlag O (JNum 0) ∈ validate_flags [(O, JObj d)].
Proof.
  intros d. destruct special_flag_forced_before_validation as (H1 & H2 & H3 & H4).
  split_and!.
  - apply (H1 O d CANON_BOS); reflexivity.
  - apply H2.
  - apply H3.
  - apply (H4 [(O, JObj d)] O O d CANON_BOS); reflexivity.
Defined.

(** C2 (the code departs from the claim). A run that ends with a
    validation error has by then rewritten both companion files. *)
Lemma companions_written_despite_errors :
  main mismatched_bos =
  {| status := ValidationErrors [EBosMismatch (Py.lit "<s>")];
     writes :=
       [(SpecialTokensMapBak, Text (Py.lit "M"));
        (SpecialTokensMap, Dumped (JObj [(Py.lit "bos_token", JStr (Py.lit "<s>"))]));
        (TokenizerConfigBak, Text (Py.lit "C"));
        (TokenizerConfig,
         Dumped (JObj [(Py.lit "chat_template",
                        JStr (Py.lit "Hello " ++ CANON_USER ++ Py.lit " world"))]))];
     changes := [ChChatTemplate];
     modified_count := O |}.
Proof. vm_compute. reflexivity. Qed.
(** ** The chat template *)

Lemma find_None (c : Z) (s : str) : Py.find c s = None ↔ c ∉ s.
Proof.
  induction s as [|x s IH]; simpl.
  - split; [intros _ ?%elem_of_nil; done|done].
  - destruct (Z.eqb_spec x c) as [->|Hne].
    + split; [done|]. intros H. destruct H. apply list_elem_of_here.
    + rewrite fmap_None, IH, not_elem_of_cons. split; [by intros ?|by intros [_ ?]].
Qed.

Lemma find_app (c : Z) (pre rest : str) :
  c ∉ pre → Py.find c (pre ++ c :: rest) = Some (length pre).
Proof.
  induction pre as [|x pre IH]; simpl.
  - intros _. by rewrite Z.eqb_refl.
  - intros [Hne Hnin]%not_elem_of_cons.
    destruct (Z.eqb_spec x c) as [->|_]; [done|]. by rewrite IH.
Qed.

Lemma scan_segments_skip (k : nat) (t : str) :
  scan_segments k t = scan_segments O (drop k t).
Proof.
  revert k. induction t as [|c t IH]; intros [|k]; try done.
  simpl. apply IH.
Qed.

Lemma scan_segments_other (c : Z) (t : str) :
  c ≠ 0x3C → scan_segments O (c :: t) = c :: scan_segments O t.
Proof.
  intros Hne. cbn [scan_segments].
  by destruct (Z.eqb_spec c 0x3C) as [->|_].
Qed.

Lemma scan_segments_copy (pre t : str) :
  0x3C ∉ pre → scan_segments O (pre ++ t) = pre ++ scan_segments O t.
Proof.
  induction pre as [|c pre IH]; [done|].
  intros [Hne Hnin]%not_elem_of_cons.
  rewrite <- app_comm_cons, !scan_segments_other by done. by rewrite IH.
Qed.

Lemma scan_segments_less_than (t : str) :
  scan_segments O (0x3C :: t) =
  match Py.find 0x3E t with
  | Some j => cleanup_marker_like_string (0x3C :: take (S j) t)
              ++ scan_segments (S j) t
  | None => 0x3C :: scan_segments O t
  end.
Proof. reflexivity. Qed.

Lemma scan_segments_span (body rest : str) :
  0x3E ∉ body →
  scan_segments O (bracketed body ++ rest) =
  cleanup_marker_like_string (bracketed body) ++ scan_segments O rest.
Proof.
  intros Hnin.
  replace (bracketed body ++ rest) with (0x3C :: (body ++ 0x3E :: rest))
    by (unfold bracketed; by rewrite <- !app_assoc).
  rewrite scan_segments_less_than, find_app by done.
  rewrite scan_segments_skip.
  replace (S (length body)) with (length (body ++ [0x3E]))
    by (rewrite length_app; simpl; lia).
  replace (body ++ 0x3E :: rest) with ((body ++ [0x3E]) ++ rest)
    by (by rewrite <- app_assoc).
  by rewrite take_app_length, drop_app_length.
Qed.

Lemma scan_segments_open (t : str) :
  (∀ pre rest, t = pre ++ [0x3C] ++ rest → 0x3E ∉ rest) →
  scan_segments O t = t.
Proof.
  induction t as [|c t IH]; [done|]. intros H.
  assert (scan_segments O t = t) as Ht.
  { apply IH. intros pre rest ->. by apply (H (c :: pre) rest). }
  destruct (decide (c = 0x3C)) as [->|Hne].
  - rewrite scan_segments_less_than.
    rewrite (proj2 (find_None 0x3E t)) by (by apply (H [] t)). by rewrite Ht.
  - by rewrite scan_segments_other, Ht.
Qed.

(** ** NFC on canonical text *)

Lemma find_none_forall {A} (p : A → bool) (l : list A) :
  Forall (fun x => p x = false) l → List.find p l = None.
Proof.
  induction 1 as [|x l Hx _ IH]; [done|]. simpl. by rewrite Hx.
Qed.

Lemma is_plain_spec (c : Z) : is_plain c = true ↔ plain c.
Proof. unfold is_plain, plain. lia. Qed.

Lemma decomposition_keys :
  Forall (fun e => 0x80 <= e.1 ∧ e.1 ≠ 0xFF5C ∧ e.1 ≠ 0x2581)
         Unicode.canonical_decomposition.
Proof. compute_done. Qed.

Lemma combining_ranges :
  Forall (fun r => 0x80 <= r.1.1 ∧ ¬ (r.1.1 <= 0xFF5C <= r.1.2)
                   ∧ ¬ (r.1.1 <= 0x2581 <= r.1.2))
         Unicode.combining_classes.
Proof. compute_done. Qed.

Lemma composite_seconds :
  Forall (fun r => 0x80 <= r.1.2 ∧ r.1.2 ≠ 0xFF5C ∧ r.1.2 ≠ 0x2581)
         Unicode.primary_composites.
Proof. compute_done. Qed.

Lemma decompose_char_plain (c : Z) : plain c → Unicode.decompose_char c = [c].
Proof.
  intros Hc. unfold Unicode.decompose_char.
  replace (Unicode.is_hangul_syllable c) with false
    by (unfold Unicode.is_hangul_syllable, Unicode.SBase, Unicode.SCount,
          Unicode.LCount, Unicode.NCount, Unicode.VCount, Unicode.TCount, plain in *;
        lia).
  unfold Py.assoc. rewrite find_none_forall; [done|].
  eapply Forall_impl; [apply decomposition_keys|].
  intros e He. unfold plain in Hc. simpl in *. lia.
Qed.

Lemma combining_plain (c : Z) : plain c → Unicode.combining c = 0.
Proof.
  intros Hc. unfold Unicode.combining. rewrite find_none_forall; [done|].
  eapply Forall_impl; [apply combining_ranges|].
  intros r Hr. unfold plain in Hc. simpl in *. lia.
Qed.

Lemma primary_composite_plain (a c : Z) :
  plain c → Unicode.primary_composite a c = None.
Proof.
  intros Hc. unfold Unicode.primary_composite.
  assert ((Unicode.VBase <=? c) && (c <? Unicode.VBase + Unicode.VCount) = false) as HV
    by (unfold Unicode.VBase, Unicode.VCount, plain in *; lia).
  assert ((Unicode.TBase <? c) && (c <? Unicode.TBase + Unicode.TCount) = false) as HT
    by (unfold Unicode.TBase, Unicode.TCount, plain in *; lia).
  rewrite <- (andb_assoc _ (Unicode.VBase <=? c)), HV, andb_false_r.
  rewrite <- (andb_assoc _ (Unicode.TBase <? c)), HT, andb_false_r.
  rewrite find_none_forall; [done|].
  eapply Forall_impl; [apply composite_seconds|].
  intros r Hr. unfold plain in Hc. simpl in *. lia.
Qed.

Lemma flat_map_decompose_plain (s : str) :
  Forall plain s → flat_map Unicode.decompose_char s = s.
Proof.
  induction 1 as [|c s Hc _ IH]; [done|]. simpl.
  by rewrite decompose_char_plain, IH.
Qed.

Lemma reorder_plain (s acc : str) :
  Forall plain s → fold_left Unicode.reorder_step s acc = rev s ++ acc.
Proof.
  intros Hs. revert acc. induction Hs as [|c s Hc _ IH]; intros acc; [done|].
  simpl. unfold Unicode.reorder_step at 2. rewrite combining_plain by done.
  simpl. rewrite IH. by rewrite <- app_assoc.
Qed.

Lemma compose_from_plain (starter : Z) (rest : str) :
  Forall plain rest →
  Unicode.compose_from starter [] 0 rest = starter :: rest.
Proof.
  intros Hs. revert starter. induction Hs as [|c s Hc _ IH]; intros starter; [done|].
  cbn [Unicode.compose_from]. rewrite combining_plain by done.
  rewrite primary_composite_plain by done. simpl. by rewrite IH.
Qed.

Lemma nfc_plain (s : str) : Forall plain s → Unicode.nfc s = s.
Proof.
  intros Hs. unfold Unicode.nfc, Unicode.nfd, Unicode.canonical_order.
  rewrite flat_map_decompose_plain, reorder_plain by done.
  rewrite app_nil_r, rev_involutive.
  destruct Hs as [|c s Hc Hs]; [done|]. simpl.
  rewrite combining_plain by done. by apply compose_from_plain.
Qed.
(** ** The repair engine on canonical text *)

Lemma startswith_absent (x : Z) (old s : str) :
  x ∉ s → Py.startswith (x :: old) s = false.
Proof.
  destruct s as [|c s]; [done|]. intros [Hne _]%not_elem_of_cons. simpl.
  by destruct (Z.eqb_spec x c).
Qed.

Lemma replace_absent (x : Z) (old new s : str) :
  x ∉ s → Py.replace (x :: old) new s = s.
Proof.
  unfold Py.replace. induction s as [|c s IH]; [done|].
  intros Hnin. cbn [Py.replace_from]. rewrite startswith_absent by done.
  apply not_elem_of_cons in Hnin as [_ Hnin]. by rewrite IH.
Qed.

Lemma contains_absent (x : Z) (old s : str) :
  x ∉ s → Py.contains (x :: old) s = false.
Proof.
  induction s as [|c s IH]; [done|]. intros Hnin. cbn [Py.contains].
  rewrite startswith_absent by done.
  apply not_elem_of_cons in Hnin as [_ Hnin]. by apply IH.
Qed.

Lemma plain_absent (x : Z) (s : str) : ¬ plain x → Forall plain s → x ∉ s.
Proof.
  intros Hx Hs Hin. apply Hx. by apply (proj1 (Forall_forall _ _) Hs).
Qed.

Lemma remnants_plain (s : str) : Forall plain s → remnants s = 0.
Proof.
  intros Hs. unfold remnants, MOJIBAKE_BAR, MOJIBAKE_BLOCK, MOJIBAKE_BLOCK_RAW.
  rewrite !contains_absent; [done|apply plain_absent; try done; unfold plain; lia..].
Qed.

Lemma direct_replacements_plain (s : str) :
  Forall plain s → direct_replacements s = s.
Proof.
  intros Hs. unfold direct_replacements, MOJIBAKE_BAR, MOJIBAKE_BLOCK, MOJIBAKE_BLOCK_RAW.
  rewrite (replace_absent 0xEF) by (apply plain_absent; [unfold plain; lia|done]).
  by rewrite !(replace_absent 0xE2 _ _ s)
    by (apply plain_absent; [unfold plain; lia|done]).
Qed.

Lemma encode_char_plain (cd : Py.codec) (c : Z) :
  plain c → Py.encode_char cd c = if decide (c < 0x80) then Some c else None.
Proof.
  intros [Hc|[->| ->]]; [|by destruct cd..].
  rewrite decide_True by lia. destruct cd; simpl.
  - by replace ((0 <=? c) && (c <? 256)) with true by lia.
  - by replace ((0 <=? c) && (c <? 128) || (160 <=? c) && (c <? 256)) with true by lia.
Qed.

Lemma encode_plain (cd : Py.codec) (s : str) :
  Forall plain s → Py.encode cd Py.ignore s = Some (filter (fun c => c < 0x80) s).
Proof.
  induction 1 as [|c s Hc _ IH]; [done|]. cbn [Py.encode].
  rewrite encode_char_plain, IH by done. case_decide; simpl.
  - by rewrite filter_cons_True.
  - by rewrite filter_cons_False.
Qed.

Lemma decode_utf8_ascii (bs : bytes) :
  Forall (fun b => b < 0x80) bs → Py.decode_utf8 Py.ignore bs = Some bs.
Proof.
  unfold Py.decode_utf8. induction 1 as [|b bs Hb _ IH]; [done|].
  cbn [Py.decode_utf8_from Py.utf8_sequence].
  destruct (Z.ltb_spec b 0x80); [|lia]. by rewrite IH.
Qed.

Lemma reinterpret_plain (cd : Py.codec) (s : str) :
  Forall plain s → reinterpret cd s = Some (filter (fun c => c < 0x80) s).
Proof.
  intros Hs. unfold reinterpret. rewrite encode_plain by done. simpl.
  apply decode_utf8_ascii. apply Forall_forall. by intros c [? _]%list_elem_of_filter.
Qed.

Lemma count_filter_out (ch : Z) (P : Z → Prop) `{!∀ c, Decision (P c)} (s : str) :
  ¬ P ch → Py.count ch (filter P s) = 0.
Proof.
  intros Hch. unfold Py.count.
  induction s as [|c s IH]; [done|].
  destruct (decide (P c)) as [Hc|Hc].
  - rewrite (filter_cons_True P) by done.
    rewrite filter_cons_False by (intros ->; done). apply IH.
  - by rewrite (filter_cons_False P).
Qed.

Lemma count_nonneg (ch : Z) (s : str) : 0 <= Py.count ch s.
Proof. unfold Py.count. lia. Qed.

Lemma count_zero (ch : Z) (s : str) : Py.count ch s = 0 → ch ∉ s.
Proof.
  unfold Py.count. intros H Hin.
  assert (ch ∈ filter (fun c => c = ch) s) as Hf by (by apply list_elem_of_filter).
  destruct (filter (fun c => c = ch) s); [by apply elem_of_nil in Hf|simpl in H; lia].
Qed.

Lemma filter_ascii_id (s : str) :
  Forall plain s → 0xFF5C ∉ s → 0x2581 ∉ s → filter (fun c => c < 0x80) s = s.
Proof.
  induction 1 as [|c s Hc _ IH]; [done|].
  intros [? ?]%not_elem_of_cons [? ?]%not_elem_of_cons.
  rewrite filter_cons_True by (unfold plain in Hc; lia). by rewrite IH.
Qed.

(** On canonical text the repair engine changes nothing. *)
Lemma demojibake_plain (s : str) :
  Forall plain s → demojibake_and_normalize s = s.
Proof.
  intros Hs. unfold demojibake_and_normalize, candidates.
  rewrite !reinterpret_plain, direct_replacements_plain by done.
  set (a := filter (fun c => c < 0x80) s).
  assert (Forall plain a) as Ha.
  { apply Forall_forall. intros c [_ Hc]%list_elem_of_filter.
    by apply (proj1 (Forall_forall _ _) Hs). }
  assert (score a = (0, 0)) as Hsa.
  { unfold score, canon. rewrite remnants_plain by done.
    subst a. by rewrite !count_filter_out by lia. }
  assert (score s = (0, - canon s)) as Hss
    by (unfold score; by rewrite remnants_plain).
  assert (Py.key_lt (score a) (score a) = false) as Haa
    by (unfold Py.key_lt; by rewrite !Z.ltb_irrefl, andb_false_r).
  assert (Py.key_lt (score s) (score a) = (- canon s <? 0)) as Hsa'
    by (by rewrite Hsa, Hss).
  cbn [app Py.min_by Py.min_from default]. rewrite Haa, Hsa'.
  destruct (Z.ltb_spec (- canon s) 0) as [Hlt|Hge]; [by apply nfc_plain|].
  assert (a = s) as ->; [|by apply nfc_plain].
  pose proof (count_nonneg 0xFF5C s). pose proof (count_nonneg 0x2581 s).
  unfold canon in Hge. apply filter_ascii_id; [done|apply count_zero; lia..].
Qed.
(** ** The structural cleaner on canonical text *)

Lemma strip_zero_width_plain (s : str) :
  Forall plain s → strip_zero_width_and_variation s = s.
Proof.
  unfold strip_zero_width_and_variation.
  induction 1 as [|c s Hc _ IH]; [done|].
  rewrite filter_cons_True, IH; [done|].
  unfold ZERO_WIDTHS. rewrite !not_elem_of_union, !not_elem_of_singleton.
  unfold plain in Hc. lia.
Qed.

Lemma normalize_char_plain (c : Z) : plain c → normalize_char c = [c].
Proof.
  intros Hc. unfold normalize_char, plain in *.
  rewrite decide_False
    by (unfold SPACE_VARIANTS;
        rewrite !not_elem_of_union, !not_elem_of_singleton; lia).
  unfold CURLY_TO_ASCII. rewrite !lookup_insert_ne, lookup_empty by lia.
  by rewrite decide_False
    by (unfold DASHES_TO_ASCII_HYPHEN;
        rewrite !not_elem_of_union, !not_elem_of_singleton; lia).
Qed.

Lemma normalize_plain (s : str) :
  Forall plain s → normalize_space_dash_quotes_inside s = s.
Proof.
  unfold normalize_space_dash_quotes_inside.
  induction 1 as [|c s Hc _ IH]; [done|]. simpl.
  by rewrite normalize_char_plain, IH.
Qed.

Lemma replace_from_Forall (P : Z → Prop) (old new : str) (k : nat) (s : str) :
  Forall P new → Forall P s → Forall P (Py.replace_from old new k s).
Proof.
  intros Hnew Hs. revert k. induction Hs as [|c s Hc Hs IH]; intros k; [done|].
  cbn [Py.replace_from]. destruct k as [|k]; [|apply IH].
  destruct (Py.startswith old (c :: s)).
  - apply Forall_app. split; [done|apply IH].
  - constructor; [done|apply IH].
Qed.

Lemma standardize_line_endings_Forall (P : Z → Prop) (s : str) :
  P 0x0A → Forall P s → Forall P (standardize_line_endings s).
Proof.
  intros HP Hs. unfold standardize_line_endings, Py.replace.
  apply replace_from_Forall; [by constructor|].
  apply replace_from_Forall; [by constructor|done].
Qed.

Lemma standardize_line_endings_no_cr (s : str) :
  0x0D ∉ standardize_line_endings s.
Proof.
  unfold standardize_line_endings. rewrite replace_char.
  generalize (Py.replace [0x0D; 0x0A] [0x0A] s) as t. intros t.
  induction t as [|c t IH]; [by intros ?%elem_of_nil|]. simpl.
  destruct (Z.eqb_spec c 13) as [->|Hne].
  - intros [?|?]%elem_of_cons; [done|by apply IH].
  - intros [?|?]%elem_of_cons; [done|by apply IH].
Qed.

Lemma standardize_line_endings_id (t : str) :
  0x0D ∉ t → standardize_line_endings t = t.
Proof.
  intros H. unfold standardize_line_endings.
  rewrite (replace_absent 0x0D [0x0A] _ t) by done. by rewrite replace_absent.
Qed.

Lemma lstrip_suffix (s : str) : Py.lstrip s `suffix_of` s.
Proof.
  induction s as [|c s IH]; [done|]. simpl.
  destruct (Py.isspace c); [by apply suffix_cons_r|done].
Qed.

Lemma lstrip_id (c : Z) (s : str) :
  Py.isspace c = false → Py.lstrip (c :: s) = c :: s.
Proof. intros H. simpl. by rewrite H. Qed.

Lemma lstrip_head (s : str) :
  Py.lstrip s = [] ∨ ∃ c r, Py.lstrip s = c :: r ∧ Py.isspace c = false.
Proof.
  induction s as [|c s IH]; [by left|]. simpl.
  destruct (Py.isspace c) eqn:E; [done|]. right. by exists c, s.
Qed.

Lemma lstrip_idem (s : str) : Py.lstrip (Py.lstrip s) = Py.lstrip s.
Proof.
  destruct (lstrip_head s) as [->|(c & r & -> & Hc)]; [done|]. by apply lstrip_id.
Qed.

Lemma lstrip_snoc (x : str) (c : Z) :
  Py.isspace c = false → ∃ w, Py.lstrip (x ++ [c]) = w ++ [c].
Proof.
  intros Hc. induction x as [|y x IH]; simpl.
  - rewrite Hc. by exists [].
  - destruct (Py.isspace y); [done|]. by exists (y :: x).
Qed.

Lemma strip_idem (s : str) : Py.strip (Py.strip s) = Py.strip s.
Proof.
  unfold Py.strip, Py.rstrip.
  destruct (lstrip_head s) as [->|(c & r & -> & Hc)]; [done|].
  change (rev (c :: r)) with (rev r ++ [c]).
  destruct (lstrip_snoc (rev r) c Hc) as [w Hw].
  rewrite Hw, rev_unit, lstrip_id by done.
  cbn [rev]. rewrite rev_involutive, <- Hw, lstrip_idem, Hw. apply rev_unit.
Qed.

Lemma strip_subseteq (s : str) : Py.strip s ⊆ s.
Proof.
  unfold Py.strip, Py.rstrip. intros c Hc.
  apply list_elem_of_In, in_rev, list_elem_of_In in Hc.
  pose proof (elem_of_suffix _ _ _ Hc (lstrip_suffix _)) as Hc'.
  apply list_elem_of_In, in_rev, list_elem_of_In in Hc'.
  by apply (elem_of_suffix _ _ _ Hc'), lstrip_suffix.
Qed.

Lemma Forall_subseteq (P : Z → Prop) (s t : str) :
  s ⊆ t → Forall P t → Forall P s.
Proof.
  intros Hsub Ht. apply Forall_forall. intros c Hc.
  by apply (proj1 (Forall_forall _ _) Ht), Hsub.
Qed.

Lemma plain_canonical (m : marker) : Forall plain (canonical m).
Proof.
  apply Forall_forall. intros c Hc. apply is_plain_spec.
  revert c Hc. apply Forall_forall. destruct m; compute_done.
Qed.

Lemma looks_cases (t : str) :
  looks_like_one_of_four_chat_markers t = (false, t) ∨
  ∃ m, looks_like_one_of_four_chat_markers t = (true, canonical m).
Proof.
  unfold looks_like_one_of_four_chat_markers.
  destruct (Z.of_nat (length t) <? 3); [by left|].
  destruct (_ && _); [|by left].
  destruct (marker_candidates !! _) as [c|] eqn:E; [|by left].
  apply marker_candidates_some in E as (m & _ & ->). right. by exists m.
Qed.

Lemma cleanup_canonical (m : marker) :
  cleanup_marker_like_string (canonical m) = canonical m.
Proof. destruct m; vm_compute; reflexivity. Qed.

Lemma cleanup_plain (s : str) :
  Forall plain s →
  cleanup_marker_like_string s =
  let t := Py.strip (standardize_line_endings s) in
  if (looks_like_one_of_four_chat_markers t).1
  then (looks_like_one_of_four_chat_markers t).2 else t.
Proof.
  intros Hs. unfold cleanup_marker_like_string.
  rewrite demojibake_plain, strip_zero_width_plain by done.
  rewrite normalize_plain
    by (apply standardize_line_endings_Forall; [unfold plain; lia|done]).
  cbv zeta. by destruct (looks_like_one_of_four_chat_markers _) as [[] ?].
Qed.

Lemma cleanup_plain_cases (s : str) :
  Forall plain s →
  (∃ m, cleanup_marker_like_string s = canonical m) ∨
  (cleanup_marker_like_string s = Py.strip (standardize_line_endings s) ∧
   looks_like_one_of_four_chat_markers (Py.strip (standardize_line_endings s))
   = (false, Py.strip (standardize_line_endings s))).
Proof.
  intros Hs. rewrite cleanup_plain by done. cbv zeta.
  destruct (looks_cases (Py.strip (standardize_line_endings s))) as [E|[m E]];
    rewrite E; simpl; [by right|left; by exists m].
Qed.

Lemma stripped_lines_plain (s : str) :
  Forall plain s → Forall plain (Py.strip (standardize_line_endings s)).
Proof.
  intros Hs. eapply Forall_subseteq; [apply strip_subseteq|].
  apply standardize_line_endings_Forall; [unfold plain; lia|done].
Qed.

Lemma cleanup_plain_Forall (s : str) :
  Forall plain s → Forall plain (cleanup_marker_like_string s).
Proof.
  intros Hs. destruct (cleanup_plain_cases s Hs) as [[m ->]|[-> _]].
  - apply plain_canonical.
  - by apply stripped_lines_plain.
Qed.

Lemma cleanup_idempotent (s : str) :
  Forall plain s →
  cleanup_marker_like_string (cleanup_marker_like_string s)
  = cleanup_marker_like_string s.
Proof.
  intros Hs. destruct (cleanup_plain_cases s Hs) as [[m ->]|[-> E]].
  - apply cleanup_canonical.
  - set (t := Py.strip (standardize_line_endings s)) in *.
    assert (standardize_line_endings t = t) as Ht.
    { apply standardize_line_endings_id. intros Hin.
      apply strip_subseteq in Hin. by apply standardize_line_endings_no_cr in Hin. }
    rewrite cleanup_plain by (by apply stripped_lines_plain). cbv zeta.
    rewrite Ht. subst t. rewrite strip_idem. by rewrite E.
Qed.

Lemma repair_content_plain (s : str) :
  Forall plain s →
  repair_content s = if is_angle_bracketed s then cleanup_marker_like_string s else s.
Proof. intros Hs. unfold repair_content. by rewrite demojibake_plain. Qed.


(** Canonical text is settled after one pass. *)
Lemma plain_settled (s : str) : Forall plain s → settled s.
Proof.
  intros Hs. unfold settled.
  rewrite (repair_content_plain s) by done.
  destruct (is_angle_bracketed s) eqn:E.
  - rewrite repair_content_plain by (by apply cleanup_plain_Forall).
    destruct (is_angle_bracketed (cleanup_marker_like_string s));
      [by apply cleanup_idempotent|done].
  - rewrite repair_content_plain by done. by rewrite E.
Qed.
(** ** A second pass over a repaired document *)








Lemma filter_length_two {A} (P : A → Prop) `{!∀ x, Decision (P x)}
    (l : list A) (j k : nat) (a b : A) :
  (j < k)%nat → l !! j = Some a → l !! k = Some b → P a → P b →
  (2 <= length (filter P l))%nat.
Proof.
  intros Hjk Hj Hk Ha Hb.
  rewrite <- (take_drop_middle l j a Hj), filter_app, filter_cons_True by done.
  rewrite length_app. simpl.
  assert (b ∈ filter P (drop (S j) l)) as Hin.
  { apply list_elem_of_filter. split; [done|].
    apply list_elem_of_lookup. exists (k - S j)%nat.
    rewrite lookup_drop. by replace (S j + (k - S j))%nat with k by lia. }
  destruct (filter P (drop (S j) l)); [by apply elem_of_nil in Hin|simpl; lia].
Qed.

Lemma dedupe_distinct (toks : list object) :
  distinct_contents (dedupe O ∅ toks).1.
Proof.
  intros j k tj tk c Hjk Hj Hk Hcj Hck.
  pose proof (filter_length_two (fun t => content_of t = Some c) _ j k tj tk
                Hjk Hj Hk Hcj Hck) as Hlen.
  rewrite dedupe_first in Hlen. case_decide; simpl in Hlen; [lia|].
  rewrite length_take in Hlen. lia.
Qed.




(** What step 1 leaves is what deduplication keeps. *)
Lemma repair_added_tokens_list (toks : list object) :
  (repair_added_tokens toks).1.1 = (dedupe O ∅ (process_added_tokens O toks).1).1.
Proof.
  unfold repair_added_tokens.
  destruct (process_added_tokens O toks) as [processed chs]. simpl.
  pose proof (dedupe_nothing_removed O ∅ processed) as Hn.
  destruct (dedupe O ∅ processed) as [new_list removed]. simpl in *.
  destruct removed; [by rewrite Hn|done].
Qed.





Lemma repair_special_tokens_shape (st0 : json) :
  match (repair_special_tokens st0).1 with
  | JObj _ | JArr _ => True
  | _ => (repair_special_tokens st0).1 = st0
  end.
Proof. by destruct st0. Qed.

Lemma get_lookup (k : string) (d : list (str * json)) (v : json) :
  get k d = v → v ≠ JNull → Dict.lookup (Py.lit k) d = Some v.
Proof.
  unfold get. destruct (Dict.lookup (Py.lit k) d); simpl; congruence.
Qed.

(** [repair], step by step. *)
Lemma repair_steps (top : list (str * json)) :
  let first := match get "added_tokens" top with
               | JArr l => Some (repair_added_tokens (tag l))
               | _ => None
               end in
  let top1 := match first with
              | Some r => Dict.set (Py.lit "added_tokens") (JArr (map snd r.1.1)) top
              | None => top
              end in
  let second := repair_special_tokens (get "special_tokens" top1) in
  tokenizer (repair top) =
    match second.1 with
    | JObj _ | JArr _ => Dict.set (Py.lit "special_tokens") second.1 top1
    | _ => top1
    end ∧
  rep_changes (repair top) =
    match first with Some r => r.1.2 | None => [] end ++ second.2 ∧
  rep_modified (repair top) =
    (match first with Some r => r.2 | None => O end + length second.2)%nat.
Proof.
  unfold repair.
  destruct (get "added_tokens" top) as [| | | |l|];
    try (by destruct (repair_special_tokens _) as [[] ?]).
  destruct (repair_added_tokens (tag l)) as [[toks' chs] n]. cbn [fst snd].
  by destruct (repair_special_tokens _) as [[] ?].
Qed.
(** The two fields in the document a first pass has left. *)
Lemma repaired_fields (top : list (str * json)) :
  get "added_tokens" (tokenizer (repair top)) =
    match get "added_tokens" top with
    | JArr l => JArr (map snd (repair_added_tokens (tag l)).1.1)
    | x => x
    end ∧
  get "special_tokens" (tokenizer (repair top)) =
    (repair_special_tokens (get "special_tokens" top)).1.
Proof.
  destruct (repair_steps top) as (-> & _ & _).
  set (top1 := match match get "added_tokens" top with
                     | JArr l => Some (repair_added_tokens (tag l))
                     | _ => None
                     end with
               | Some r => Dict.set (Py.lit "added_tokens") (JArr (map snd r.1.1)) top
               | None => top
               end).
  assert (get "special_tokens" top1 = get "special_tokens" top) as Hst.
  { subst top1. destruct (get "added_tokens" top); try done. by apply get_set_ne. }
  assert (get "added_tokens" top1 =
          match get "added_tokens" top with
          | JArr l => JArr (map snd (repair_added_tokens (tag l)).1.1)
          | x => x
          end) as Hadd.
  { subst top1. destruct (get "added_tokens" top) eqn:E; try done. apply get_set_eq. }
  rewrite Hst.
  pose proof (repair_special_tokens_shape (get "special_tokens" top)) as Hshape.
  destruct ((repair_special_tokens (get "special_tokens" top)).1) eqn:E;
    rewrite ?get_set_ne, ?get_set_eq by done; try done; by rewrite Hst.
Qed.

(** ** A second pass over a repaired template *)



Lemma strip_bracketed (body : str) : Py.strip (bracketed body) = bracketed body.
Proof.
  unfold Py.strip, Py.rstrip, bracketed. cbn [app].
  rewrite lstrip_id by done.
  replace (rev (0x3C :: body ++ [0x3E])) with (0x3E :: rev (0x3C :: body))
    by (by rewrite app_comm_cons, rev_unit).
  rewrite lstrip_id by done.
  by rewrite <- rev_unit, rev_involutive.
Qed.


Lemma bracketed_absent (c : Z) (body : str) :
  c ≠ 0x3C → c ≠ 0x3E → c ∉ body → c ∉ bracketed body.
Proof.
  intros H1 H2 H3. unfold bracketed.
  rewrite !not_elem_of_app, !not_elem_of_cons.
  split_and!; try done; by intros ?%elem_of_nil.
Qed.



(** ** Idempotence *)





(** ** What the cleaner leaves behind *)

Lemma tidy_plain (c : Z) : plain c → c ≠ 0x0D → tidy c.
Proof.
  unfold plain, tidy, ZERO_WIDTHS, SPACE_VARIANTS, DASHES_TO_ASCII_HYPHEN, CURLY_TO_ASCII.
  intros Hc Hcr. rewrite !not_elem_of_union, !not_elem_of_singleton.
  rewrite !lookup_insert_ne, lookup_empty by lia. split_and!; try done; lia.
Qed.

Lemma tidy_canonical (m : marker) : Forall tidy (canonical m).
Proof.
  assert (Forall (fun c => c ≠ 0x0D) (canonical m)) as Hcr
    by (destruct m; compute_done).
  pose proof (plain_canonical m) as Hp.
  apply Forall_forall. intros c Hc.
  apply tidy_plain;
    [exact (proj1 (Forall_forall _ _) Hp c Hc)|exact (proj1 (Forall_forall _ _) Hcr c Hc)].
Qed.

Lemma tidy_ascii (c : Z) : 0x20 <= c < 0x80 → Forall tidy [c].
Proof.
  intros Hc. apply Forall_singleton. apply tidy_plain; [unfold plain|]; lia.
Qed.

Lemma normalize_char_tidy (c : Z) :
  c ∉ ZERO_WIDTHS → c ≠ 0x0D → Forall tidy (normalize_char c).
Proof.
  intros Hz Hcr. unfold normalize_char.
  case_decide as Hs; [by apply (tidy_ascii 0x20)|].
  destruct (CURLY_TO_ASCII !! c) as [q|] eqn:Hq.
  - unfold CURLY_TO_ASCII in Hq.
    rewrite !lookup_insert_Some, lookup_empty in Hq.
    destruct Hq as [[_ <-]|[_ [[_ <-]|[_ [[_ <-]|[_ [[_ <-]|[_ ?]]]]]]]]; try done;
      first [by apply (tidy_ascii 0x27)|by apply (tidy_ascii 0x22)].
  - case_decide as Hd; [by apply (tidy_ascii 0x2D)|].
    by apply Forall_singleton.
Qed.

Lemma normalize_tidy (s : str) :
  Forall (fun c => (c ∉ ZERO_WIDTHS) ∧ c ≠ 0x0D) s →
  Forall tidy (normalize_space_dash_quotes_inside s).
Proof.
  unfold normalize_space_dash_quotes_inside.
  induction 1 as [|c s [Hz Hcr] _ IH]; [done|]. simpl.
  apply Forall_app. split; [by apply normalize_char_tidy|done].
Qed.

Lemma strip_zero_width_Forall (s : str) :
  Forall (fun c => c ∉ ZERO_WIDTHS) (strip_zero_width_and_variation s).
Proof.
  unfold strip_zero_width_and_variation. apply Forall_forall.
  intros c Hc. by apply list_elem_of_filter in Hc as [? _].
Qed.

Lemma stripped_lines_Forall (s : str) :
  Forall (fun c => (c ∉ ZERO_WIDTHS) ∧ c ≠ 0x0D)
    (standardize_line_endings (strip_zero_width_and_variation s)).
Proof.
  apply Forall_and. split.
  - apply standardize_line_endings_Forall; [|apply strip_zero_width_Forall].
    unfold ZERO_WIDTHS. rewrite !not_elem_of_union, !not_elem_of_singleton. lia.
  - apply Forall_forall. intros c Hc ->.
    by apply standardize_line_endings_no_cr in Hc.
Qed.

Lemma strip_ends (s : str) :
  Py.strip s = [] ∨
  ∃ c d, Py.isspace c = false ∧ Py.isspace d = false ∧
         head (Py.strip s) = Some c ∧ last (Py.strip s) = Some d.
Proof.
  unfold Py.strip, Py.rstrip.
  destruct (lstrip_head s) as [->|(c & r & -> & Hc)]; [by left|]. right.
  change (rev (c :: r)) with (rev r ++ [c]).
  destruct (lstrip_snoc (rev r) c Hc) as [w Hw].
  destruct (lstrip_head (rev r ++ [c])) as [E|(d & x & E & Hd)].
  { rewrite Hw in E. by destruct w. }
  exists c, d. split_and!; try done.
  - by rewrite Hw, rev_unit.
  - rewrite E. simpl. by rewrite last_snoc.
Qed.

(** The cleaner's result, by the way it is reached: the stripped text, or
    a canonical marker. *)
Lemma cleanup_cases (s : str) :
  ∃ n, Forall tidy n ∧
       (cleanup_marker_like_string s = Py.strip n ∨
        ∃ m, cleanup_marker_like_string s = canonical m).
Proof.
  unfold cleanup_marker_like_string.
  generalize (demojibake_and_normalize s) as t. intros t.
  pose proof (normalize_tidy _ (stripped_lines_Forall t)) as Hn.
  set (n := normalize_space_dash_quotes_inside _) in *.
  exists n. split; [done|].
  destruct (looks_cases (Py.strip n)) as [->|[m ->]]; [by left|right; by exists m].
Qed.

Lemma cleanup_tidy (s : str) : Forall tidy (cleanup_marker_like_string s).
Proof.
  destruct (cleanup_cases s) as (n & Hn & [->|[m ->]]).
  - eapply Forall_subseteq; [apply strip_subseteq|done].
  - apply tidy_canonical.
Qed.


Lemma scan_segments_Forall (P : Z → Prop) (k : nat) (t : str) :
  (∀ s, Forall P (cleanup_marker_like_string s)) → Forall P t →
  Forall P (scan_segments k t).
Proof.
  intros Hc Ht. revert k. induction Ht as [|c t Hx Ht IH]; intros k; [done|].
  cbn [scan_segments]. destruct k as [|k]; [|apply IH].
  destruct (c =? 60); [|by constructor].
  destruct (Py.find 62 t) as [j|]; [|by constructor].
  apply Forall_app. split; [apply Hc|apply IH].
Qed.


(** ** Fixed points of the cleaner *)

Lemma strip_zero_width_id (s : str) :
  Forall (fun c => c ∉ ZERO_WIDTHS) s → strip_zero_width_and_variation s = s.
Proof.
  unfold strip_zero_width_and_variation.
  induction 1 as [|c s Hc _ IH]; [done|]. by rewrite filter_cons_True, IH.
Qed.

Lemma normalize_char_id (c : Z) :
  c ∉ SPACE_VARIANTS → CURLY_TO_ASCII !! c = None → c ∉ DASHES_TO_ASCII_HYPHEN →
  normalize_char c = [c].
Proof.
  intros Hs Hq Hd. unfold normalize_char. by rewrite decide_False, Hq, decide_False.
Qed.









(** ** Spans of a template *)

Lemma normalize_app (a b : str) :
  normalize_space_dash_quotes_inside (a ++ b)
  = normalize_space_dash_quotes_inside a ++ normalize_space_dash_quotes_inside b.
Proof. unfold normalize_space_dash_quotes_inside. apply flat_map_app. Qed.

Lemma normalize_bracketed (body : str) :
  normalize_space_dash_quotes_inside (bracketed body)
  = bracketed (normalize_space_dash_quotes_inside body).
Proof. unfold bracketed. by rewrite !normalize_app. Qed.

(** The cleaner on a span that the repair engine leaves as it is: the
    characters between the brackets are rewritten, and the result is
    looked up among the markers. *)
Lemma cleanup_stable_span (body : str) :
  demojibake_and_normalize (bracketed body) = bracketed body →
  Forall (fun c => (c ∉ ZERO_WIDTHS) ∧ c ≠ 0x0D) body →
  cleanup_marker_like_string (bracketed body) =
  let t := bracketed (normalize_space_dash_quotes_inside body) in
  if (looks_like_one_of_four_chat_markers t).1
  then (looks_like_one_of_four_chat_markers t).2 else t.
Proof.
  intros He Hb. apply Forall_and in Hb as [Hz Hcr].
  unfold cleanup_marker_like_string. rewrite He.
  rewrite strip_zero_width_id.
  2: { unfold bracketed. rewrite !Forall_app, !Forall_singleton.
       split_and!; [|done|]; unfold ZERO_WIDTHS;
         rewrite !not_elem_of_union, !not_elem_of_singleton; lia. }
  rewrite standardize_line_endings_id.
  2: { apply bracketed_absent; [done..|]. intros Hin.
       by apply (proj1 (Forall_forall _ _) Hcr) in Hin. }
  rewrite normalize_bracketed, strip_bracketed. cbv zeta.
  by destruct (looks_like_one_of_four_chat_markers _) as [[] ?].
Qed.

(** C8. [fix_markers_in_text] repairs the whole text, strips zero-width
    characters and standardizes line endings, and then scans the result:
    text before a ['<'] is copied, a span from a ['<'] to the first ['>']
    after it goes through [cleanup_marker_like_string] as a whole, and the
    scan resumes behind it; text in which no ['<'] has a ['>'] after it is
    copied.  No zero-width character and no carriage return is left
    anywhere; inside a span no space variant, curly quote or dash variant
    is left either.  On a span that the repair engine leaves as it is, the
    cleaner rewrites the characters between the brackets one for one, the
    space variants to a space, the curly quotes to straight quotes, the
    dash variants to a hyphen and nothing else, and then looks the span up
    among the markers.  The template "Hello <|User|> world" becomes
    "Hello ", the canonical UserTurn marker and " world"; a template with
    such variants has them rewritten inside its span and kept outside. *)
Theorem fix_markers_in_text_spans :
  (∀ s, fix_markers_in_text s =
        scan_segments O (standardize_line_endings
                           (strip_zero_width_and_variation
                              (demojibake_and_normalize s)))) ∧
  (∀ pre body rest,
     0x3C ∉ pre → 0x3E ∉ body →
     scan_segments O (pre ++ bracketed body ++ rest) =
     pre ++ cleanup_marker_like_string (bracketed body) ++ scan_segments O rest) ∧
  (∀ t, (∀ pre rest, t = pre ++ [0x3C] ++ rest → 0x3E ∉ rest) →
        scan_segments O t = t) ∧
  (∀ s, Forall (fun c => (c ∉ ZERO_WIDTHS) ∧ c ≠ 0x0D) (fix_markers_in_text s)) ∧
  (∀ body,
     Forall (fun c => (c ∉ SPACE_VARIANTS) ∧ CURLY_TO_ASCII !! c = None
                      ∧ (c ∉ DASHES_TO_ASCII_HYPHEN))
       (cleanup_marker_like_string (bracketed body))) ∧
  (∀ body,
     demojibake_and_normalize (bracketed body) = bracketed body →
     Forall (fun c => (c ∉ ZERO_WIDTHS) ∧ c ≠ 0x0D) body →
     cleanup_marker_like_string (bracketed body) =
     let t := bracketed (normalize_space_dash_quotes_inside body) in
     if (looks_like_one_of_four_chat_markers t).1
     then (looks_like_one_of_four_chat_markers t).2 else t) ∧
  (normalize_space_dash_quotes_inside [0x00A0; 0x202F; 0x2007; 0x2009]
   = [0x20; 0x20; 0x20; 0x20] ∧
   normalize_space_dash_quotes_inside [0x2018; 0x2019; 0x201C; 0x201D]
   = [0x27; 0x27; 0x22; 0x22] ∧
   normalize_space_dash_quotes_inside [0x2010; 0x2011; 0x2013; 0x2014]
   = [0x2D; 0x2D; 0x2D; 0x2D] ∧
   (∀ c, c ∉ [0x00A0; 0x202F; 0x2007; 0x2009; 0x2018; 0x2019; 0x201C; 0x201D;
              0x2010; 0x2011; 0x2013; 0x2014] →
         normalize_space_dash_quotes_inside [c] = [c]) ∧
   (∀ a b, normalize_space_dash_quotes_inside (a ++ b)
           = normalize_space_dash_quotes_inside a
             ++ normalize_space_dash_quotes_inside b)) ∧
  fix_markers_in_text (Py.lit "Hello <|User|> world") =
    Py.lit "Hello " ++ CANON_USER ++ Py.lit " world" ∧
  fix_markers_in_text template_with_variants =
    Py.lit "It" ++ [0x2019] ++ Py.lit "s" ++ [0x0A]
    ++ bracketed ([0xFF5C] ++ Py.lit "User" ++ [0xFF5C] ++ Py.lit "-'x'")
    ++ Py.lit " " ++ [0x2013] ++ Py.lit " ok".
Proof.
  split_and!.
  - reflexivity.
  - intros pre body rest Hpre Hbody.
    by rewrite scan_segments_copy, scan_segments_span.
  - apply scan_segments_open.
  - intros s. unfold fix_markers_in_text. apply scan_segments_Forall.
    + intros t. eapply Forall_impl; [apply cleanup_tidy|].
      by intros c (? & ? & _).
    + apply stripped_lines_Forall.
  - intros body. eapply Forall_impl; [apply cleanup_tidy|].
    by intros c (_ & _ & ? & ? & ?).
  - apply cleanup_stable_span.
  - reflexivity.
  - reflexivity.
  - reflexivity.
  - intros c Hc. unfold normalize_space_dash_quotes_inside. simpl.
    rewrite app_nil_r. apply normalize_char_id.
    + unfold SPACE_VARIANTS. rewrite !not_elem_of_union, !not_elem_of_singleton.
      rewrite !not_elem_of_cons in Hc. tauto.
    + unfold CURLY_TO_ASCII. rewrite !not_elem_of_cons in Hc.
      rewrite !lookup_insert_ne, lookup_empty by (intros <-; tauto). done.
    + unfold DASHES_TO_ASCII_HYPHEN.
      rewrite !not_elem_of_union, !not_elem_of_singleton.
      rewrite !not_elem_of_cons in Hc. tauto.
  - apply normalize_app.
  - vm_compute. reflexivity.
  - vm_compute. reflexivity.
Qed.

Lemma fix_markers_in_text_spans_witness :
  scan_segments O (Py.lit "Hello " ++ bracketed (Py.lit "|User|") ++ Py.lit " world") =
    Py.lit "Hello " ++ cleanup_marker_like_string (bracketed (Py.lit "|User|"))
    ++ scan_segments O (Py.lit " world") ∧
  scan_segments O (Py.lit "a < b") = Py.lit "a < b" ∧
  (let body := [0xFF5C] ++ Py.lit "User" ++ [0xFF5C; 0x2013; 0x2018]
               ++ Py.lit "x" ++ [0x2019] in
   cleanup_marker_like_string (bracketed body) =
   let t := bracketed (normalize_space_dash_quotes_inside body) in
   if (looks_like_one_of_four_chat_markers t).1
   then (looks_like_one_of_four_chat_markers t).2 else t) ∧
  normalize_space_dash_quotes_inside [0x7C] = [0x7C].
Proof.
  destruct fix_markers_in_text_spans as (_ & H2 & H3 & _ & _ & H6 & (_ & _ & _ & H7 & _) & _).
  split_and!.
  - apply H2; compute_done.
  - apply H3. intros pre rest E.
    assert (rest `suffix_of` Py.lit "a < b") as Hs
      by (exists (pre ++ [0x3C]); by rewrite <- app_assoc).
    intros Hin. assert (0x3E ∈ Py.lit "a < b") as Hin'
      by (destruct Hs as [k ->]; apply elem_of_app; by right).
    revert Hin'. compute_done.
  - apply H6; [vm_compute; reflexivity|compute_done].
  - apply H7. compute_done.
Defined.

(** ** A second pass *)


(** * Further properties *)

(** ** The text functions *)

(** X1. Whatever the input, the string [cleanup_marker_like_string]
    returns holds no zero-width character or variation selector, no
    carriage return, no space variant, no curly quote and no dash variant,
    and neither starts nor ends with white space. *)
Theorem cleanup_marker_like_string_tidy (s : str) :
  Forall tidy (cleanup_marker_like_string s) ∧
  (∀ c, head (cleanup_marker_like_string s) = Some c → Py.isspace c = false) ∧
  (∀ c, last (cleanup_marker_like_string s) = Some c → Py.isspace c = false).
Proof.
  split; [apply cleanup_tidy|].
  destruct (cleanup_cases s) as (n & _ & [->|[m ->]]).
  - split.
    + intros c Hc. destruct (strip_ends n) as [E|(c' & d & Hc' & _ & E & _)];
        [by rewrite E in Hc|]. congruence.
    + intros c Hc. destruct (strip_ends n) as [E|(c' & d & _ & Hd & _ & E)];
        [by rewrite E in Hc|]. congruence.
  - split; destruct m; intros c [= <-]; reflexivity.
Qed.
Lemma normalize_char_cases (c : Z) :
  ∃ d, normalize_char c = [d] ∧ normalize_char d = [d] ∧
       (d ∉ SPACE_VARIANTS) ∧ CURLY_TO_ASCII !! d = None ∧
       (d ∉ DASHES_TO_ASCII_HYPHEN).
Proof.
  assert (∀ d, 0x20 <= d < 0x80 →
            normalize_char d = [d] ∧ (d ∉ SPACE_VARIANTS) ∧
            CURLY_TO_ASCII !! d = None ∧ (d ∉ DASHES_TO_ASCII_HYPHEN)) as Hascii.
  { intros d Hd.
    destruct (tidy_plain d) as (_ & _ & ? & ? & ?); [unfold plain; lia|lia|].
    split_and!; try done. apply normalize_char_plain. unfold plain. lia. }
  unfold normalize_char at 1.
  case_decide as Hs; [exists 0x20; split; [done|by apply Hascii]|].
  destruct (CURLY_TO_ASCII !! c) as [q|] eqn:Hq.
  - unfold CURLY_TO_ASCII in Hq.
    rewrite !lookup_insert_Some, lookup_empty in Hq.
    destruct Hq as [[_ <-]|[_ [[_ <-]|[_ [[_ <-]|[_ [[_ <-]|[_ ?]]]]]]]]; try done;
      first [exists 0x27; split; [done|by apply Hascii]
            |exists 0x22; split; [done|by apply Hascii]].
  - case_decide as Hd; [exists 0x2D; split; [done|by apply Hascii]|].
    exists c. split_and!; try done.
    unfold normalize_char. by rewrite decide_False, Hq, decide_False.
Qed.

(** X2. [normalize_space_dash_quotes_inside] writes exactly one character
    for every character it reads; what it returns holds no space variant,
    no curly quote and no dash variant, and goes through the function
    unchanged. *)
Theorem normalize_space_dash_quotes_inside_once (s : str) :
  length (normalize_space_dash_quotes_inside s) = length s ∧
  Forall (fun c => (c ∉ SPACE_VARIANTS) ∧ CURLY_TO_ASCII !! c = None
                   ∧ (c ∉ DASHES_TO_ASCII_HYPHEN))
    (normalize_space_dash_quotes_inside s) ∧
  normalize_space_dash_quotes_inside (normalize_space_dash_quotes_inside s)
  = normalize_space_dash_quotes_inside s.
Proof.
  unfold normalize_space_dash_quotes_inside.
  induction s as [|c s (IHl & IHf & IHi)]; [done|].
  destruct (normalize_char_cases c) as (d & Hc & Hd & Hsets).
  cbn [flat_map]. rewrite Hc. cbn [app flat_map]. rewrite Hd, IHi. cbn [length app].
  split_and!; [by rewrite IHl|by constructor|done].
Qed.

(** ** Line endings *)

Lemma replace_crlf_step (s : str) :
  Py.replace_from [0x0D; 0x0A] [0x0A] 1 s = Py.replace_from [0x0D; 0x0A] [0x0A] 0 (tail s).
Proof. by destruct s. Qed.

Lemma standardize_translate (n : nat) (s : str) :
  (length s <= n)%nat → standardize_line_endings s = translate_line_endings s.
Proof.
  unfold standardize_line_endings. rewrite replace_char. unfold Py.replace.
  revert s. induction n as [|n IH]; intros s Hn.
  { destruct s; [done|simpl in Hn; lia]. }
  destruct s as [|c s]; [done|]. simpl in Hn.
  cbn [Py.replace_from Py.startswith translate_line_endings length pred].
  destruct (Z.eqb_spec c 13) as [->|Hc].
  - rewrite Z.eqb_refl. cbn [andb].
    destruct s as [|d s].
    + reflexivity.
    + cbn [Py.startswith]. rewrite andb_true_r.
      destruct (Z.eqb_spec 10 d) as [<-|Hd].
      * cbn [app flat_map Py.replace_from Z.eqb Pos.eqb]. cbn [app].
        f_equal. apply IH. simpl in Hn. lia.
      * replace (d =? 10) with false by (symmetry; apply Z.eqb_neq; congruence).
        cbn [flat_map]. rewrite Z.eqb_refl. cbn [app]. f_equal.
        apply (IH (d :: s)). lia.
  - replace (13 =? c) with false by (symmetry; apply Z.eqb_neq; congruence).
    cbn [andb flat_map]. replace (c =? 13) with false by (symmetry; by apply Z.eqb_neq).
    cbn [app]. f_equal. apply IH. lia.
Qed.

Lemma translate_length (n : nat) (s : str) :
  (length s <= n)%nat → (length (translate_line_endings s) <= length s)%nat.
Proof.
  revert s. induction n as [|n IH]; intros s Hn.
  { destruct s; [done|simpl in Hn; lia]. }
  destruct s as [|c s]; [done|]. simpl in Hn. cbn [translate_line_endings].
  destruct (c =? 13).
  - destruct s as [|d s]; [simpl; lia|]. simpl in Hn.
    destruct (d =? 10); cbn [length].
    + specialize (IH s). lia.
    + specialize (IH (d :: s)). cbn [length] in IH. lia.
  - cbn [length]. specialize (IH s). lia.
Qed.

(** X3. [standardize_line_endings] is the translation of line endings in
    one pass: every carriage return becomes a line feed and takes the line
    feed that follows it along.  The result holds no carriage return, is
    never longer than the input, is the input itself when that holds no
    carriage return, and goes through the function unchanged. *)
Theorem standardize_line_endings_translates (s : str) :
  standardize_line_endings s = translate_line_endings s ∧
  (0x0D ∉ standardize_line_endings s) ∧
  (length (standardize_line_endings s) <= length s)%nat ∧
  (0x0D ∉ s → standardize_line_endings s = s) ∧
  standardize_line_endings (standardize_line_endings s) = standardize_line_endings s.
Proof.
  split_and!.
  - by apply (standardize_translate (length s)).
  - apply standardize_line_endings_no_cr.
  - rewrite (standardize_translate (length s)) by done.
    by apply (translate_length (length s)).
  - apply standardize_line_endings_id.
  - apply standardize_line_endings_id, standardize_line_endings_no_cr.
Qed.

Lemma standardize_line_endings_translates_witness :
  (0x0D ∉ Py.lit "a b") ∧ standardize_line_endings (Py.lit "a b") = Py.lit "a b".
Proof.
  assert (0x0D ∉ Py.lit "a b") as H.
  { change (Py.lit "a b") with [97; 32; 98].
    rewrite !not_elem_of_cons. split_and!; [lia..|apply not_elem_of_nil]. }
  split; [exact H|].
  destruct (standardize_line_endings_translates (Py.lit "a b")) as (_ & _ & _ & Hid & _).
  exact (Hid H).
Defined.

(** X4. [is_angle_bracketed] holds exactly of the strings that are a
    ['<'], any text and a ['>']; its length test adds nothing to the two
    tests on the ends. *)
Theorem is_angle_bracketed_spec (s : str) :
  (is_angle_bracketed s = true ↔ ∃ inner, s = bracketed inner) ∧
  is_angle_bracketed s
  = Py.startswith (Py.lit "<") s && Py.endswith (Py.lit ">") s.
Proof.
  assert (is_angle_bracketed s = true ↔ ∃ inner, s = bracketed inner) as Hspec.
  { unfold is_angle_bracketed. split.
    - intros [[Hl Hs]%andb_prop He]%andb_prop.
      apply bracketed_intro; [done..|]. apply Z.leb_le in Hl. lia.
    - intros [inner ->].
      rewrite bracketed_starts, bracketed_ends, bracketed_length.
      rewrite !andb_true_r. apply Z.leb_le. lia. }
  split; [done|]. clear Hspec. unfold is_angle_bracketed.
  destruct (Py.startswith (Py.lit "<") s) eqn:Hs; [|by rewrite andb_false_r].
  destruct (Py.endswith (Py.lit ">") s) eqn:He; [|by rewrite andb_false_r].
  rewrite !andb_true_r. apply Z.leb_le.
  apply startswith_char in Hs. apply endswith_char in He.
  destruct s as [|c [|d s]]; [done| |simpl; lia].
  vm_compute in Hs, He. congruence.
Qed.

(** ** UTF-8 written and read back *)

Lemma lor_table (k : Z) (n : nat) :
  forallb (fun i => Z.lor k (Z.of_nat i) =? k + Z.of_nat i) (seq 0 n) = true →
  ∀ x, 0 <= x < Z.of_nat n → Z.lor k x = k + x.
Proof.
  intros H x Hx. rewrite forallb_forall in H.
  specialize (H (Z.to_nat x)). rewrite Z2Nat.id in H by lia.
  apply Z.eqb_eq, H, in_seq. lia.
Qed.

Lemma lor_80 (x : Z) : 0 <= x < 64 → Z.lor 0x80 x = 0x80 + x.
Proof. apply (lor_table 0x80 64). vm_compute. reflexivity. Qed.

Lemma lor_C0 (x : Z) : 0 <= x < 32 → Z.lor 0xC0 x = 0xC0 + x.
Proof. apply (lor_table 0xC0 32). vm_compute. reflexivity. Qed.

Lemma lor_E0 (x : Z) : 0 <= x < 16 → Z.lor 0xE0 x = 0xE0 + x.
Proof. apply (lor_table 0xE0 16). vm_compute. reflexivity. Qed.

Lemma lor_F0 (x : Z) : 0 <= x < 8 → Z.lor 0xF0 x = 0xF0 + x.
Proof. apply (lor_table 0xF0 8). vm_compute. reflexivity. Qed.

Lemma land_3F (x : Z) : Z.land x 0x3F = x mod 64.
Proof. change 0x3F with (Z.ones 6). by rewrite Z.land_ones. Qed.

(** The octets of one character, in arithmetic. *)
Lemma encode_utf8_char_octets (c : Z) :
  encode_utf8_char c =
  if c <? 0 then None
  else if c <? 0x80 then Some [c]
  else if c <? 0x800 then Some [0xC0 + c / 64; 0x80 + c mod 64]
  else if c <? 0x10000 then
    if (0xD800 <=? c) && (c <? 0xE000) then None
    else Some [0xE0 + c / 4096; 0x80 + (c / 64) mod 64; 0x80 + c mod 64]
  else if c <? 0x110000 then
    Some [0xF0 + c / 262144; 0x80 + (c / 4096) mod 64; 0x80 + (c / 64) mod 64;
          0x80 + c mod 64]
  else None.
Proof.
  unfold encode_utf8_char. rewrite !land_3F, !Z.shiftr_div_pow2 by lia.
  change (2 ^ 6) with 64. change (2 ^ 12) with 4096. change (2 ^ 18) with 262144.
  destruct (Z.ltb_spec c 0); [done|].
  destruct (Z.ltb_spec c 0x80); [done|].
  destruct (Z.ltb_spec c 0x800).
  { rewrite lor_C0, lor_80; [done|Z.div_mod_to_equations; lia..]. }
  destruct (Z.ltb_spec c 0x10000).
  { destruct (_ && _); [done|].
    rewrite lor_E0, !lor_80; [done|Z.div_mod_to_equations; lia..]. }
  destruct (Z.ltb_spec c 0x110000); [|done].
  rewrite lor_F0, !lor_80; [done|Z.div_mod_to_equations; lia..].
Qed.

Lemma scalar_value_encodes (c : Z) :
  is_Some (encode_utf8_char c) ↔ scalar_value c.
Proof.
  rewrite encode_utf8_char_octets. unfold scalar_value.
  destruct (Z.ltb_spec c 0); [split; [by intros []|lia]|].
  destruct (Z.ltb_spec c 0x80); [split; [lia|by eexists]|].
  destruct (Z.ltb_spec c 0x800); [split; [lia|by eexists]|].
  destruct (Z.ltb_spec c 0x10000).
  { destruct (Z.leb_spec 0xD800 c), (Z.ltb_spec c 0xE000); simpl;
      (split; [first [by intros []|lia]|first [lia|by eexists]]). }
  destruct (Z.ltb_spec c 0x110000); [split; [lia|by eexists]|].
  split; [by intros []|lia].
Qed.

(** Comparisons of the goal whose outcome linear arithmetic settles. *)
Ltac settle_comparisons :=
  repeat match goal with
         | |- context [?a <? ?b] =>
           first [replace (a <? b) with true by (symmetry; apply Z.ltb_lt; lia)
                 |replace (a <? b) with false by (symmetry; apply Z.ltb_ge; lia)]
         | |- context [?a <=? ?b] =>
           first [replace (a <=? b) with true by (symmetry; apply Z.leb_le; lia)
                 |replace (a <=? b) with false by (symmetry; apply Z.leb_gt; lia)]
         | |- context [?a =? ?b] =>
           first [replace (a =? b) with true by (symmetry; apply Z.eqb_eq; lia)
                 |replace (a =? b) with false by (symmetry; apply Z.eqb_neq; lia)]
         end.

(** A code point in base 64. *)
Lemma base_64 (c : Z) :
  0 <= c →
  ∃ d0 d1 d2 d3,
    c mod 64 = d0 ∧ (c / 64) mod 64 = d1 ∧ (c / 4096) mod 64 = d2 ∧
    c / 262144 = d3 ∧ c / 4096 = d2 + 64 * d3 ∧ c / 64 = d1 + 64 * d2 + 4096 * d3 ∧
    c = d0 + 64 * d1 + 4096 * d2 + 262144 * d3 ∧
    0 <= d0 < 64 ∧ 0 <= d1 < 64 ∧ 0 <= d2 < 64 ∧ 0 <= d3.
Proof.
  intros Hc. eexists _, _, _, _. split_and!; try reflexivity;
    Z.div_mod_to_equations; lia.
Qed.

(** The decoder reads the octets of a character back as that character. *)
Lemma utf8_sequence_encoded (c : Z) (bs rest : bytes) :
  encode_utf8_char c = Some bs →
  ∃ b tl, bs = b :: tl ∧ Py.utf8_sequence (bs ++ rest) = Some (c, length tl) ∧
          Forall (fun x => 0 <= x < 0x100) bs.
Proof.
  rewrite encode_utf8_char_octets.
  destruct (Z.ltb_spec c 0) as [|H0]; [done|].
  destruct (base_64 c H0)
    as (d0 & d1 & d2 & d3 & E0 & E1 & E2 & E3 & E4 & E5 & Hc & B0 & B1 & B2 & B3).
  rewrite E0, E1, E2, E3, E4, E5. clear E0 E1 E2 E3 E4 E5.
  destruct (Z.ltb_spec c 0x80) as [H1|H1].
  { intros [= <-]. eexists _, _. split; [done|]. split.
    - cbn [app Py.utf8_sequence]. by settle_comparisons.
    - repeat constructor; lia. }
  destruct (Z.ltb_spec c 0x800) as [H2|H2].
  { intros [= <-]. eexists _, _. split; [done|]. split.
    - cbn [app Py.utf8_sequence]. unfold Py.is_continuation.
      rewrite !Z.shiftl_mul_pow2 by lia. change (2 ^ 6) with 64.
      settle_comparisons. cbn [andb length]. do 2 f_equal. lia.
    - repeat constructor; lia. }
  destruct (Z.ltb_spec c 0x10000) as [H3|H3].
  { destruct (Z.leb_spec 0xD800 c) as [H4|H4], (Z.ltb_spec c 0xE000) as [H5|H5];
      cbn [andb]; try done.
    all: intros [= <-]; eexists _, _; (split; [done|]); split;
      [|repeat constructor; lia].
    all: cbn [app Py.utf8_sequence]; unfold Py.is_continuation;
      rewrite !Z.shiftl_mul_pow2 by lia; change (2 ^ 6) with 64;
      change (2 ^ 12) with 4096;
      settle_comparisons;
      repeat match goal with
             | |- context [?a =? ?b] => destruct (Z.eqb_spec a b)
             end;
      settle_comparisons; cbn [andb negb length]; do 2 f_equal; lia. }
  destruct (Z.ltb_spec c 0x110000) as [H6|H6]; [|done].
  intros [= <-]. eexists _, _. split; [done|]. split;
    [|repeat constructor; lia].
  cbn [app Py.utf8_sequence]. unfold Py.is_continuation.
  rewrite !Z.shiftl_mul_pow2 by lia. change (2 ^ 6) with 64.
  change (2 ^ 12) with 4096. change (2 ^ 18) with 262144.
  settle_comparisons.
  repeat match goal with
         | |- context [?a =? ?b] => destruct (Z.eqb_spec a b)
         end;
  settle_comparisons; cbn [andb negb length]; do 2 f_equal; lia.
Qed.

Lemma decode_utf8_from_skip (e : Py.errors) (x rest : bytes) :
  Py.decode_utf8_from e (length x) (x ++ rest) = Py.decode_utf8_from e 0 rest.
Proof. induction x as [|b x IH]; [done|]. simpl. apply IH. Qed.

Lemma decode_utf8_encoded (e : Py.errors) (t : str) (b rest : bytes) :
  encode_utf8 t = Some b →
  Py.decode_utf8_from e 0 (b ++ rest) = (fun u => t ++ u) <$> Py.decode_utf8_from e 0 rest.
Proof.
  revert b. induction t as [|c t IH]; intros b.
  { intros [= <-]. simpl. by destruct (Py.decode_utf8_from e 0 rest). }
  cbn [encode_utf8]. intros Hb.
  destruct (encode_utf8_char c) as [bs|] eqn:Ec; [|done].
  destruct (encode_utf8 t) as [b'|] eqn:Et; [|done].
  simpl in Hb. injection Hb as <-.
  destruct (utf8_sequence_encoded c bs (b' ++ rest) Ec) as (b0 & tl & -> & Hseq & _).
  rewrite <- app_assoc. rewrite <- app_comm_cons in Hseq |- *.
  cbn [Py.decode_utf8_from]. rewrite Hseq.
  rewrite decode_utf8_from_skip, (IH b' eq_refl).
  by destruct (Py.decode_utf8_from e 0 rest).
Qed.

Lemma encode_utf8_octets (t : str) (b : bytes) :
  encode_utf8 t = Some b → Forall (fun x => 0 <= x < 0x100) b.
Proof.
  revert b. induction t as [|c t IH]; intros b; [by intros [= <-]|].
  cbn [encode_utf8]. intros Hb.
  destruct (encode_utf8_char c) as [bs|] eqn:Ec; [|done].
  destruct (encode_utf8 t) as [b'|] eqn:Et; [|done].
  simpl in Hb. injection Hb as <-.
  destruct (utf8_sequence_encoded c bs [] Ec) as (b0 & tl & _ & _ & Hbs).
  apply Forall_app. split; [done|by apply IH].
Qed.

(** What was written as UTF-8 reads back as it was, whatever the error
    handling. *)
Lemma decode_utf8_encode_utf8 (e : Py.errors) (t : str) (b : bytes) :
  encode_utf8 t = Some b → Py.decode_utf8 e b = Some t.
Proof.
  intros Hb. unfold Py.decode_utf8.
  rewrite <- (app_nil_r b), (decode_utf8_encoded e t b [] Hb). simpl.
  by rewrite app_nil_r.
Qed.

Lemma encode_latin_1_octets (b : bytes) :
  Forall (fun x => 0 <= x < 0x100) b →
  Py.encode Py.latin_1 Py.ignore (decode_latin_1 b) = Some b.
Proof.
  unfold decode_latin_1. induction 1 as [|x b Hx _ IH]; [done|].
  cbn [Py.encode Py.encode_char]. settle_comparisons. cbn [andb]. by rewrite IH.
Qed.

(** ** A latin-1 misreading undone *)

(** The octets cp1252 has for characters below U+0100: none of the block
    0x80..0x9F. *)
Lemma encode_cp1252_octets (s : str) :
  Forall (fun x => 0 <= x < 0x100) s →
  ∃ b, Py.encode Py.cp1252 Py.ignore s = Some b ∧
       Forall (fun x => ¬ (0x80 <= x < 0xA0)) b.
Proof.
  induction 1 as [|x s Hx _ (b & IH & Hb)]; [by exists []|].
  cbn [Py.encode Py.encode_char]. rewrite IH.
  destruct ((0 <=? x) && (x <? 128) || (160 <=? x) && (x <? 256)) eqn:E.
  - eexists. split; [done|]. constructor; [lia|done].
  - assert (Py.assoc x Py.cp1252_high = None) as ->; [|by exists b].
    unfold Py.assoc.
    destruct (List.find _ Py.cp1252_high) as [p|] eqn:Ef; [|done].
    apply find_some in Ef as [Hin Heq]. apply Z.eqb_eq in Heq.
    assert (Forall (fun p : Z * Z => 0x100 <= p.1) Py.cp1252_high) as Hk
      by (repeat constructor; simpl; lia).
    apply list_elem_of_In in Hin.
    apply (proj1 (Forall_forall _ _) Hk) in Hin. lia.
Qed.

(** A marker character is decoded only from a sequence whose last octet
    lies in 0x80..0x9F. *)
Lemma utf8_sequence_marker (bs : bytes) (c : Z) (n : nat) :
  Py.utf8_sequence bs = Some (c, n) → c = 0xFF5C ∨ c = 0x2581 →
  ∃ x, x ∈ bs ∧ 0x80 <= x < 0xA0.
Proof.
  unfold Py.utf8_sequence, Py.is_continuation.
  destruct bs as [|ch r]; [done|].
  destruct (Z.ltb_spec ch 0x80); [intros Heq Hc; injection Heq as <- _; lia|].
  destruct (Z.ltb_spec ch 0xC2); [done|].
  destruct (Z.ltb_spec ch 0xE0).
  { destruct r as [|ch2 r]; [done|].
    rewrite !Z.shiftl_mul_pow2 by lia. change (2 ^ 6) with 64.
    destruct (Z.leb_spec 0x80 ch2), (Z.ltb_spec ch2 0xC0); try done.
    intros Heq Hc. injection Heq as <- _. lia. }
  destruct (Z.ltb_spec ch 0xF0).
  { destruct r as [|ch2 [|ch3 r]]; try done.
    rewrite !Z.shiftl_mul_pow2 by lia. change (2 ^ 6) with 64.
    change (2 ^ 12) with 4096.
    destruct (Z.leb_spec 0x80 ch2), (Z.ltb_spec ch2 0xC0); try done.
    destruct (Z.leb_spec 0x80 ch3), (Z.ltb_spec ch3 0xC0);
      try (by rewrite ?andb_false_r).
    destruct (_ && _); [|done]. intros Heq Hc. injection Heq as <- _.
    exists ch3. split; [|lia].
    do 2 apply list_elem_of_further. apply list_elem_of_here. }
  destruct (Z.ltb_spec ch 0xF5); [|done].
  destruct r as [|ch2 [|ch3 [|ch4 r]]]; try done.
  rewrite !Z.shiftl_mul_pow2 by lia. change (2 ^ 6) with 64.
  change (2 ^ 12) with 4096. change (2 ^ 18) with 262144.
  destruct (Z.leb_spec 0x80 ch2), (Z.ltb_spec ch2 0xC0); try done.
  destruct (Z.leb_spec 0x80 ch3), (Z.ltb_spec ch3 0xC0);
    try (by rewrite ?andb_false_r).
  destruct (Z.leb_spec 0x80 ch4), (Z.ltb_spec ch4 0xC0);
    try (by rewrite ?andb_false_r).
  destruct (Z.eqb_spec ch 0xF0), (Z.ltb_spec ch2 0x90); cbn [andb negb]; try done;
    destruct (_ && _); try done; intros Heq Hc; injection Heq as <- _; lia.
Qed.

Lemma decode_utf8_from_no_marker (e : Py.errors) (k : nat) (bs : bytes) (u : str) :
  Forall (fun x => ¬ (0x80 <= x < 0xA0)) bs →
  Py.decode_utf8_from e k bs = Some u →
  (0xFF5C ∉ u) ∧ (0x2581 ∉ u).
Proof.
  intros Hbs. revert k u. induction Hbs as [|b bs Hb Hbs IH]; intros k u.
  { destruct k; intros [= <-]; split; apply not_elem_of_nil. }
  cbn [Py.decode_utf8_from]. destruct k as [|k]; [|apply IH].
  destruct (Py.utf8_sequence (b :: bs)) as [[cp n]|] eqn:Hseq.
  - destruct (Py.decode_utf8_from e n bs) as [u'|] eqn:Hu; [|done].
    intros [= <-]. destruct (IH _ _ Hu) as [H1 H2].
    assert (¬ (cp = 0xFF5C ∨ cp = 0x2581)) as Hcp.
    { intros Hcp. destruct (utf8_sequence_marker _ _ _ Hseq Hcp) as (x & Hin & Hx).
      apply elem_of_cons in Hin as [->|Hin]; [lia|].
      apply (proj1 (Forall_forall _ _) Hbs) in Hin. lia. }
    rewrite !not_elem_of_cons. split; (split; [lia|done]).
  - destruct e; [done|apply IH].
Qed.

Lemma startswith_missing (x : Z) (old s : str) :
  x ∈ old → x ∉ s → Py.startswith old s = false.
Proof.
  revert s. induction old as [|y old IH]; intros s Hin Hnin.
  { by apply elem_of_nil in Hin. }
  destruct s as [|c s]; [done|]. simpl.
  apply not_elem_of_cons in Hnin as [Hne Hnin].
  destruct (Z.eqb_spec y c) as [->|]; [|done]. simpl.
  apply elem_of_cons in Hin as [->|Hin]; [done|]. by apply IH.
Qed.

Lemma replace_missing (x : Z) (old new s : str) :
  x ∈ old → x ∉ s → Py.replace old new s = s.
Proof.
  intros Hin. unfold Py.replace. induction s as [|c s IH]; [done|].
  intros Hnin. cbn [Py.replace_from]. rewrite (startswith_missing x) by done.
  apply not_elem_of_cons in Hnin as [_ Hnin]. by rewrite IH.
Qed.

Lemma count_absent (ch : Z) (s : str) : ch ∉ s → Py.count ch s = 0.
Proof.
  intros Hnin. unfold Py.count.
  induction s as [|c s IH]; [done|].
  apply not_elem_of_cons in Hnin as [Hne Hnin].
  rewrite filter_cons_False by congruence. by apply IH.
Qed.

Lemma remnants_nonneg (s : str) : 0 <= remnants s.
Proof.
  unfold remnants.
  by destruct (Py.contains MOJIBAKE_BAR s), (Py.contains MOJIBAKE_BLOCK s),
    (Py.contains MOJIBAKE_BLOCK_RAW s).
Qed.

Lemma octets_absent (x : Z) (b : bytes) :
  Forall (fun x => 0 <= x < 0x100) b → 0x100 <= x → x ∉ b.
Proof.
  intros Hb Hx Hin. apply (proj1 (Forall_forall _ _) Hb) in Hin. lia.
Qed.

(** X6. The repair engine undoes a latin-1 misreading.  When the UTF-8
    octets of a text were read as latin-1, the first candidate of
    [demojibake_and_normalize] is the text itself; and when the text holds
    none of the mojibake literals, the engine returns it, in NFC. *)
Theorem demojibake_and_normalize_undoes_latin_1 (t : str) (b : bytes) :
  encode_utf8 t = Some b →
  reinterpret Py.latin_1 (decode_latin_1 b) = Some t ∧
  (has_mojibake_remnants t = false →
   demojibake_and_normalize (decode_latin_1 b) = Unicode.nfc t).
Proof.
  intros Hb. pose proof (encode_utf8_octets t b Hb) as Hoct.
  assert (reinterpret Py.latin_1 (decode_latin_1 b) = Some t) as H1.
  { unfold reinterpret. rewrite encode_latin_1_octets by done. simpl.
    by apply decode_utf8_encode_utf8. }
  split; [done|]. intros Hrem.
  unfold demojibake_and_normalize, candidates. rewrite H1.
  unfold decode_latin_1 in *.
  destruct (encode_cp1252_octets b Hoct) as (b' & Henc & Hb').
  destruct (decode_utf8_ignore_total 0 b') as [u Hu].
  assert (reinterpret Py.cp1252 b = Some u) as ->
    by (unfold reinterpret; by rewrite Henc).
  destruct (decode_utf8_from_no_marker _ _ _ _ Hb' Hu) as [Hu1 Hu2].
  assert (direct_replacements b = b) as ->.
  { unfold direct_replacements, MOJIBAKE_BAR, MOJIBAKE_BLOCK, MOJIBAKE_BLOCK_RAW.
    assert (0x153 ∉ b) as Hbar by (apply octets_absent; [done|lia]).
    assert (0x2013 ∉ b) as Hblock by (apply octets_absent; [done|lia]).
    assert (0x153 ∈ [0xEF; 0xBD; 0x153]) as Hbar'
      by (do 2 apply list_elem_of_further; apply list_elem_of_here).
    assert (0x2013 ∈ [0xE2; 0x2013; 0x81]) as Hblock'
      by (apply list_elem_of_further, list_elem_of_here).
    rewrite (replace_missing 0x153 _ _ b Hbar' Hbar).
    by rewrite !(replace_missing 0x2013 _ _ b Hblock' Hblock). }
  assert (remnants t = 0) as Ht.
  { revert Hrem. unfold has_mojibake_remnants, remnants.
    by destruct (Py.contains MOJIBAKE_BAR t), (Py.contains MOJIBAKE_BLOCK t),
      (Py.contains MOJIBAKE_BLOCK_RAW t). }
  assert (∀ x, canon x = 0 → Py.key_lt (score x) (score t) = false) as Hkey.
  { intros x Hx. unfold Py.key_lt, score. cbn [fst snd]. rewrite Ht, Hx.
    pose proof (remnants_nonneg x). pose proof (count_nonneg 0xFF5C t).
    pose proof (count_nonneg 0x2581 t). unfold canon.
    destruct (Z.ltb_spec (remnants x) 0); [lia|].
    destruct (Z.ltb_spec (- 0) (- (Py.count 65372 t + Py.count 9601 t))); [lia|].
    by rewrite andb_false_r. }
  cbn [app Py.min_by Py.min_from default].
  rewrite Hkey by (unfold canon; by rewrite !count_absent).
  rewrite Hkey; [done|]. unfold canon.
  by rewrite !count_absent by (apply octets_absent; [done|lia]).
Qed.

Lemma demojibake_and_normalize_undoes_latin_1_witness :
  let t := [0xE9; 0xFF5C] in
  let b := [0xC3; 0xA9; 0xEF; 0xBD; 0x9C] in
  encode_utf8 t = Some b ∧
  has_mojibake_remnants t = false ∧
  reinterpret Py.latin_1 (decode_latin_1 b) = Some t ∧
  demojibake_and_normalize (decode_latin_1 b) = Unicode.nfc t.
Proof.
  intros t b.
  assert (encode_utf8 t = Some b) as Hb by reflexivity.
  assert (has_mojibake_remnants t = false) as Hr by reflexivity.
  destruct (demojibake_and_normalize_undoes_latin_1 t b Hb) as [H1 H2].
  split_and!; [exact Hb|exact Hr|exact H1|exact (H2 Hr)].
Defined.
(** ** Files read and backed up *)

Lemma encode_utf8_bom (t : str) (b : bytes) :
  encode_utf8 t = Some b → Py.startswith BOM_UTF8 b = true → head t = Some 0xFEFF.
Proof.
  intros Hb [r ->]%startswith_spec.
  destruct t as [|c t]; [done|]. cbn [encode_utf8] in Hb.
  destruct (encode_utf8_char c) as [bs|] eqn:Ec; [|done].
  destruct (encode_utf8 t) as [b'|]; [|done].
  simpl in Hb. injection Hb as Hb.
  destruct (utf8_sequence_encoded c bs b' Ec) as (b0 & tl & _ & Hseq & _).
  rewrite Hb in Hseq. vm_compute in Hseq. by injection Hseq as <- _.
Qed.

Lemma decode_utf8_sig_encoded (t : str) (b : bytes) :
  encode_utf8 t = Some b →
  decode_utf8_sig (BOM_UTF8 ++ b) = Some t ∧
  (head t ≠ Some 0xFEFF → decode_utf8_sig b = Some t).
Proof.
  intros Hb. unfold decode_utf8_sig. split.
  - rewrite startswith_app. change (drop 3 (BOM_UTF8 ++ b)) with b.
    by apply decode_utf8_encode_utf8.
  - intros Hh. destruct (Py.startswith BOM_UTF8 b) eqn:E.
    + by apply (encode_utf8_bom t b Hb) in E.
    + by apply decode_utf8_encode_utf8.
Qed.



Lemma universal_newlines_scalar (t : str) :
  Forall scalar_value t → Forall scalar_value (universal_newlines t).
Proof.
  intros Ht. unfold universal_newlines, Py.replace.
  assert (Forall scalar_value [0x0A]) as Hlf
    by (repeat constructor; unfold scalar_value; lia).
  by do 2 (apply replace_from_Forall; [done|]).
Qed.

Lemma encode_utf8_scalar (t : str) :
  is_Some (encode_utf8 t) ↔ Forall scalar_value t.
Proof.
  induction t as [|c t IH]; [split; [done|by eexists]|].
  cbn [encode_utf8]. rewrite Forall_cons, <- IH, <- scalar_value_encodes.
  destruct (encode_utf8_char c), (encode_utf8 t); simpl; split;
    try (by intros [[] []]); try (by intros []); try by eexists.
Qed.

(** X8. The [.bak] file written beside a file that holds a text in UTF-8
    holds that text with every line ending translated to a line feed and
    without a byte order mark: it is the file itself, less the mark, only
    when the text holds no carriage return. *)
Theorem backup_bytes_translates (t : str) (b : bytes) :
  encode_utf8 t = Some b → head t ≠ Some 0xFEFF →
  is_Some (backup_bytes b) ∧
  backup_bytes b = encode_utf8 (universal_newlines t) ∧
  backup_bytes (BOM_UTF8 ++ b) = encode_utf8 (universal_newlines t) ∧
  (0x0D ∉ t → backup_bytes b = Some b ∧ backup_bytes (BOM_UTF8 ++ b) = Some b).
Proof.
  intros Hb Hh. destruct (decode_utf8_sig_encoded t b Hb) as [H1 H2].
  specialize (H2 Hh).
  assert (read_text_utf8_sig b = Some (universal_newlines t)) as Hr.
  { unfold read_text_utf8_sig.
    destruct ((length b <? 3)%nat && Py.startswith b BOM_UTF8) eqn:E;
      [|by rewrite H2].
    apply andb_prop in E as [Hl Hs]. apply Nat.ltb_lt in Hl.
    apply startswith_spec in Hs as [r Hs].
    unfold BOM_UTF8 in Hs.
    destruct b as [|x [|y [|z b]]]; [|simplify_eq/=..|simpl in Hl; lia].
    by injection H2 as <-. }
  assert (read_text_utf8_sig (BOM_UTF8 ++ b) = Some (universal_newlines t)) as Hr'.
  { unfold read_text_utf8_sig.
    replace ((length (BOM_UTF8 ++ b) <? 3)%nat) with false
      by (symmetry; apply Nat.ltb_ge; rewrite length_app; simpl; lia).
    by rewrite H1. }
  unfold backup_bytes, write_text_utf8. rewrite Hr, Hr'. cbn [mbind option_bind].
  split_and!; try done.
  - apply encode_utf8_scalar, universal_newlines_scalar, encode_utf8_scalar.
    by eexists.
  - intros Hcr.
    assert (universal_newlines t = t) as -> by (by apply standardize_line_endings_id).
    by split.
Qed.

Lemma backup_bytes_translates_witness :
  let t := [0x7B; 0x0A; 0x7D] in
  encode_utf8 t = Some t ∧ head t ≠ Some 0xFEFF ∧ (0x0D ∉ t) ∧
  backup_bytes t = Some t ∧ backup_bytes (BOM_UTF8 ++ t) = Some t.
Proof.
  intros t.
  assert (encode_utf8 t = Some t) as Hb by reflexivity.
  assert (head t ≠ Some 0xFEFF) as Hh by discriminate.
  assert (0x0D ∉ t) as Hcr.
  { unfold t. rewrite !not_elem_of_cons. split_and!; [lia..|apply not_elem_of_nil]. }
  destruct (backup_bytes_translates t t Hb Hh) as (_ & _ & _ & H).
  destruct (H Hcr) as [H1 H2].
  split_and!; [exact Hb|exact Hh|exact Hcr|exact H1|exact H2].
Defined.
(** ** Messages and serialization *)

(** X9. [cp_debug] returns its argument followed by the listing of the
    code points above 127; it returns the argument as it is exactly when
    that is pure ASCII. *)
Theorem cp_debug_ascii (s : str) :
  s `prefix_of` cp_debug s ∧
  (cp_debug s = s ↔ Forall (fun c => c <= 127) s).
Proof.
  unfold cp_debug.
  set (item := fun ch : Z =>
         if 127 <? ch then [[ch] ++ Py.lit ":U+" ++ format_04X ch] else []).
  assert (flat_map item s = [] ↔ Forall (fun c => c <= 127) s) as Hparts.
  { induction s as [|c s IH]; [done|]. cbn [flat_map].
    rewrite Forall_cons, <- IH. unfold item at 1.
    destruct (Z.ltb_spec 127 c); simpl; [split; [done|lia]|split; [done|tauto]]. }
  split; [by eexists|].
  rewrite <- Hparts. destruct (flat_map item s) as [|p ps].
  - by rewrite app_nil_r.
  - split; [|done]. intros H. apply (f_equal length) in H.
    rewrite !length_app in H. simpl in H. lia.
Qed.












(** ** The main pass over the document *)

Lemma dict_set_prefix {A} (k : str) (v : A) (d : list (str * A)) :
  map fst d `prefix_of` map fst (Dict.set k v d).
Proof.
  induction d as [|e d IH]; simpl; [apply prefix_nil|].
  destruct (Py.eqb e.1 k) eqn:E; simpl.
  - apply eqb_eq in E as <-. done.
  - by apply prefix_cons.
Qed.

Lemma dict_set_present {A} (k : str) (v : A) (d : list (str * A)) :
  is_Some (Dict.lookup k d) → map fst (Dict.set k v d) = map fst d.
Proof.
  unfold Dict.lookup. induction d as [|e d IH]; simpl; [by intros []|].
  destruct (Py.eqb e.1 k) eqn:E; simpl.
  - intros _. apply eqb_eq in E as <-. done.
  - intros H. by rewrite IH.
Qed.

(** The main pass on a dictionary entry. *)
Lemma process_added_token_obj (idx : nat) (d : list (str * json)) :
  ∃ d',
    (process_added_token idx (JObj d)).1 = JObj d' ∧
    map fst d `prefix_of` map fst d' ∧
    (∀ k, k ≠ Py.lit "content" → k ≠ Py.lit "special" → k ≠ Py.lit "normalized" →
       Dict.lookup k d' = Dict.lookup k d) ∧
    match Dict.lookup (Py.lit "content") d with
    | Some (JStr before) =>
      get "content" d' = JStr (repair_content before) ∧
      get "normalized" d' = JBool false
    | _ => d' = d
    end.
Proof.
  unfold process_added_token.
  destruct (Dict.lookup (Py.lit "content") d) as [v|] eqn:E; cycle 1.
  { exists d. split_and!; try done. }
  destruct v as [| | |before| |]; try (exists d; by split_and!).
  remember (repair_content before) as after eqn:Hafter.
  set (d1 := if negb (Py.eqb after before)
             then Dict.set (Py.lit "content") (JStr after) d else d).
  set (d2 := if is_bos_or_eos after
             then Dict.set (Py.lit "special") (JBool true) d1 else d1).
  exists (Dict.set (Py.lit "normalized") (JBool false) d2).
  assert (map fst d `prefix_of` map fst d1) as H1
    by (subst d1; destruct (negb _); [apply dict_set_prefix|done]).
  assert (map fst d1 `prefix_of` map fst d2) as H2
    by (subst d2; destruct (is_bos_or_eos _); [apply dict_set_prefix|done]).
  assert (get "content" d1 = JStr after) as Hc.
  { subst d1. destruct (Py.eqb after before) eqn:Eq; simpl.
    - apply eqb_eq in Eq. unfold get. by rewrite E, Eq.
    - apply get_set_eq. }
  split_and!.
  - done.
  - etrans; [exact H1|]. etrans; [exact H2|]. apply dict_set_prefix.
  - intros k Hk1 Hk2 Hk3. rewrite dict_lookup_set_ne by done. subst d2 d1.
    destruct (is_bos_or_eos _); rewrite ?dict_lookup_set_ne by done;
      destruct (negb _); by rewrite ?dict_lookup_set_ne by done.
  - rewrite get_set_ne by done. subst d2.
    destruct (is_bos_or_eos _); by rewrite ?get_set_ne by done.
  - apply get_set_eq.
Qed.

(** X11. The main pass on an entry of [added_tokens] touches three keys
    only: [content], [special] and [normalized].  Every other key keeps
    its value, the keys the entry had keep their order, and new keys go
    last.  An entry with a string content gets the repaired content and
    [normalized] set to false; an entry without one, or one that is no
    dictionary, is left as it is. *)
Theorem process_added_token_fields :
  (∀ idx d, ∃ d',
     (process_added_token idx (JObj d)).1 = JObj d' ∧
     map fst d `prefix_of` map fst d' ∧
     (∀ k, k ≠ Py.lit "content" → k ≠ Py.lit "special" → k ≠ Py.lit "normalized" →
        Dict.lookup k d' = Dict.lookup k d) ∧
     (∀ before, Dict.lookup (Py.lit "content") d = Some (JStr before) →
        get "content" d' = JStr (repair_content before) ∧
        get "normalized" d' = JBool false)) ∧
  (∀ idx tok,
     (∀ d before, tok = JObj d →
        Dict.lookup (Py.lit "content") d ≠ Some (JStr before)) →
     process_added_token idx tok = (tok, [])).
Proof.
  split.
  - intros idx d. destruct (process_added_token_obj idx d) as (d' & H1 & H2 & H3 & H4).
    exists d'. split_and!; try done. intros before E. by rewrite E in H4.
  - intros idx tok H. unfold process_added_token.
    destruct tok as [| | | | |d]; try done.
    destruct (Dict.lookup (Py.lit "content") d) as [[| | |before| |]|] eqn:E; try done.
    by destruct (H d before eq_refl).
Qed.

Lemma process_added_token_fields_witness :
  let d := [(Py.lit "id", JNum 7); (Py.lit "content", JStr (Py.lit "<|User|>"));
            (Py.lit "lstrip", JBool true)] in
  (process_added_token O (JObj d)).1 =
    JObj [(Py.lit "id", JNum 7); (Py.lit "content", JStr CANON_USER);
          (Py.lit "lstrip", JBool true); (Py.lit "normalized", JBool false)] ∧
  process_added_token O (JNum 3) = (JNum 3, []).
Proof.
  intros d. split; [vm_compute; reflexivity|].
  destruct process_added_token_fields as [_ H]. apply H. intros ? ? [=].
Defined.

(** X12. The main pass touches two fields of the document only,
    [added_tokens] and [special_tokens]: every other field keeps its
    value, and the document keeps its keys and their order. *)
Theorem repair_touches_two_fields (top : list (str * json)) :
  map fst (tokenizer (repair top)) = map fst top ∧
  (∀ k, k ≠ Py.lit "added_tokens" → k ≠ Py.lit "special_tokens" →
     Dict.lookup k (tokenizer (repair top)) = Dict.lookup k top).
Proof.
  destruct (repair_steps top) as (-> & _ & _).
  set (top1 := match match get "added_tokens" top with
                     | JArr l => Some (repair_added_tokens (tag l))
                     | _ => None
                     end with
               | Some r => Dict.set (Py.lit "added_tokens") (JArr (map snd r.1.1)) top
               | None => top
               end).
  assert (map fst top1 = map fst top ∧
          ∀ k, k ≠ Py.lit "added_tokens" → Dict.lookup k top1 = Dict.lookup k top)
    as [Hk1 Hv1].
  { subst top1. destruct (get "added_tokens" top) as [| | | |l|] eqn:E; try done.
    split.
    - apply dict_set_present. apply get_lookup in E; [by eexists|done].
    - intros k Hk. by apply dict_lookup_set_ne. }
  pose proof (repair_special_tokens_shape (get "special_tokens" top1)) as Hshape.
  assert (∀ v, (∃ l, get "special_tokens" top1 = JArr l) ∨
               (∃ d, get "special_tokens" top1 = JObj d) →
               map fst (Dict.set (Py.lit "special_tokens") v top1) = map fst top) as Hset.
  { intros v Hv. rewrite dict_set_present; [done|].
    destruct Hv as [[x Hx]|[x Hx]]; apply get_lookup in Hx; try done; by eexists. }
  destruct (get "special_tokens" top1) as [| | | |l|d] eqn:Est;
    cbn [repair_special_tokens fst] in *.
  1-4: by split; [|intros k Hk _; apply Hv1].
  - split; [apply Hset; left; by eexists|].
    intros k Ha Hs. rewrite dict_lookup_set_ne by done. by apply Hv1.
  - split; [apply Hset; right; by eexists|].
    intros k Ha Hs. rewrite dict_lookup_set_ne by done. by apply Hv1.
Qed.

(** X13. After the main pass no two entries of [added_tokens] have the
    same string content, and the list is no longer than it was. *)
Theorem repair_leaves_distinct_contents (top : list (str * json)) :
  match added_tokens (repair top), get "added_tokens" top with
  | Some toks, JArr l =>
    distinct_contents toks ∧ (length toks <= length l)%nat ∧
    get "added_tokens" (tokenizer (repair top)) = JArr (map snd toks)
  | Some _, _ => False
  | None, JArr _ => False
  | None, _ => True
  end.
Proof.
  destruct (repair_added_tokens_field top) as [-> _].
  destruct (repaired_fields top) as [Hf _].
  destruct (get "added_tokens" top) as [| | | |l|]; try done.
  rewrite repair_added_tokens_list. split_and!.
  - apply dedupe_distinct.
  - pose proof (dedupe_length O ∅ (process_added_tokens O (tag l)).1) as Hlen.
    assert (length (process_added_tokens O (tag l)).1 = length l) as Hp.
    { assert (∀ idx ts, length (process_added_tokens idx ts).1 = length ts) as Hgen.
      { intros idx ts. revert idx. induction ts as [|t ts IH]; intros idx; [done|].
        cbn [process_added_tokens]. destruct (process_added_token idx t.2).
        specialize (IH (S idx)). destruct (process_added_tokens (S idx) ts).
        simpl in *. by rewrite IH. }
      rewrite Hgen. unfold tag. by rewrite length_imap. }
    lia.
  - by rewrite Hf, repair_added_tokens_list.
Qed.
(** ** Where the errors of a run come from *)

Lemma Forall_concat_imap {A B} (P : B → Prop) (f : nat → A → list B) (l : list A) :
  (∀ i x, x ∈ l → Forall P (f i x)) → Forall P (concat (imap f l)).
Proof.
  revert f. induction l as [|x l IH]; intros f H; [done|]. simpl.
  apply Forall_app. split; [apply H, list_elem_of_here|].
  apply IH. intros i y Hy. by apply H, list_elem_of_further.
Qed.

Lemma Forall_concat_map {A B} (P : B → Prop) (f : A → list B) (l : list A) :
  (∀ x, x ∈ l → Forall P (f x)) → Forall P (concat (map f l)).
Proof.
  induction l as [|x l IH]; intros H; [done|]. simpl.
  apply Forall_app. split; [apply H, list_elem_of_here|].
  apply IH. intros y Hy. by apply H, list_elem_of_further.
Qed.

Lemma raised_by_validate_bos_eos_value (name value : str) :
  Forall (fun e => raised_by e = BosEosCheck) (validate_bos_eos_value name value).
Proof.
  unfold validate_bos_eos_value.
  apply Forall_app. split; by destruct (_ && _); repeat constructor.
Qed.

Lemma raised_by_check_map_key (key : str) (s : json * list change * list verror) :
  Forall (fun e => raised_by e = BosEosCheck) s.2 →
  match check_map_key key s with
  | Done s' | Raised s' => Forall (fun e => raised_by e = BosEosCheck) s'.2
  end.
Proof.
  destruct s as [[st_map chs] errs]. intros H. unfold check_map_key.
  destruct (contains_key key st_map) as [[]|]; try exact H.
  destruct (subscript key st_map) as [v|]; [|exact H].
  destruct v as [| | |orig_val| |];
    [exact H|exact H|exact H| |exact H|exact H].
  destruct (looks_like_one_of_four_chat_markers _) as [ok canon]. cbn [snd].
  apply Forall_app_2; [exact H|apply raised_by_validate_bos_eos_value].
Qed.

Lemma raised_by_check_special_tokens_map (is_dry : bool) (f : file) :
  Forall (fun e => raised_by e = BosEosCheck) (check_special_tokens_map is_dry f).1.2.
Proof.
  unfold check_special_tokens_map.
  destruct f as [|text|src_text st_map]; try by repeat constructor.
  pose proof (raised_by_check_map_key (Py.lit "bos_token") (st_map, [], [])
                (Forall_nil_2 _)) as H1.
  destruct (check_map_key (Py.lit "bos_token") (st_map, [], [])) as [s1|s1].
  - pose proof (raised_by_check_map_key (Py.lit "eos_token") s1 H1) as H2.
    destruct (check_map_key (Py.lit "eos_token") s1) as [[[m chs] errs]|[[m chs] errs]];
      simpl in *; [done|].
    apply Forall_app. split; [done|by repeat constructor].
  - destruct s1 as [[m chs] errs]. simpl in *.
    apply Forall_app. split; [done|by repeat constructor].
Qed.

Lemma raised_by_infer_bos_eos (s : repaired) :
  Forall (fun e => raised_by e = BosEosCheck) (infer_bos_eos s).
Proof.
  unfold infer_bos_eos.
  assert (∀ key expected,
            Forall (fun e => raised_by e = BosEosCheck)
              (match st s with
               | JObj d =>
                 match get key d with
                 | JStr v => (validate_bos_eos_value (Py.lit key)
                                (demojibake_and_normalize v), Py.eqb v expected)
                 | _ => ([], false)
                 end
               | _ => ([], false)
               end).1) as Hm.
  { intros key expected. destruct (st s) as [| | | | |d]; try done.
    destruct (get key d); try done. apply raised_by_validate_bos_eos_value. }
  pose proof (Hm "bos_token" CANON_BOS) as Hb.
  pose proof (Hm "eos_token" CANON_EOS) as He.
  destruct (match st s with JObj d => _ | _ => _ end) as [errs_bos found_bos].
  destruct (match st s with JObj d => _ | _ => _ end) as [errs_eos found_eos].
  simpl in Hb, He.
  repeat (apply Forall_app; split); try done;
    match goal with |- context [if ?b then _ else _] => destruct b end;
    by repeat constructor.
Qed.

Lemma raised_by_scan_string (remnants zero_width : verror) (c : str) :
  raised_by remnants = RemnantScan → raised_by zero_width = RemnantScan →
  Forall (fun e => raised_by e = RemnantScan) (scan_string remnants zero_width c).
Proof.
  intros Hr Hz. unfold scan_string. apply Forall_app. split.
  - destruct (has_mojibake_remnants c); by repeat constructor.
  - destruct (is_angle_bracketed c); [|done]. by apply Forall_replicate.
Qed.

Lemma raised_by_scan_for_remnants (s : repaired) :
  Forall (fun e => raised_by e = RemnantScan) (scan_for_remnants s).
Proof.
  unfold scan_for_remnants. apply Forall_app. split.
  - destruct (added_tokens s) as [toks|]; [|done].
    apply Forall_concat_imap. intros i [oid tok] _. unfold scan_added_token. simpl.
    destruct tok as [| | | | |d]; try done.
    destruct (get "content" d); try done. by apply raised_by_scan_string.
  - destruct (st s) as [| | | |l|d]; try done.
    + apply Forall_concat_imap. intros i tok _. unfold scan_special_entry.
      destruct tok as [| | | | |d]; try done.
      destruct (get "content" d); try done. by apply raised_by_scan_string.
    + apply Forall_concat_map. intros [k v] _. unfold scan_special_key. simpl.
      destruct v; try done. by apply raised_by_scan_string.
Qed.

Lemma raised_by_validate_flags (toks : list object) :
  Forall (fun e => raised_by e = FlagCheck) (validate_flags toks).
Proof.
  unfold validate_flags. apply Forall_concat_imap. intros i [oid tok] _.
  unfold validate_flags_of. simpl.
  destruct tok as [| | | | |d]; try done.
  destruct (get "content" d); try done.
  apply Forall_app. split; by destruct (_ && _); repeat constructor.
Qed.

Lemma raised_by_check_vocab (vocab_map : json) (s : repaired) (errs : list verror) :
  check_vocab vocab_map s = Some errs →
  Forall (fun e => raised_by e = VocabularyCheck) errs.
Proof.
  unfold check_vocab. destruct (truthy vocab_map); [|by intros [= <-]].
  generalize (match added_tokens s with Some toks => marker_ids toks | None => [] end).
  intros ids. rewrite fmap_Some. intros (errss & Hm & ->).
  apply mapM_Some in Hm.
  induction Hm as [|e errs0 ids errss He _ IH]; [done|]. simpl.
  apply Forall_app. split; [|done].
  unfold check_collision in He.
  destruct (contains_key e.1 vocab_map) as [[]|]; simplify_eq; [|done].
  destruct vocab_map; try done.
  destruct (Dict.lookup e.1 d); simplify_eq.
  destruct (negb _); by repeat constructor.
Qed.

Lemma raised_by_check_pattern (pat : str) :
  Forall (fun e => raised_by e = PatternCheck) (check_pattern pat).
Proof.
  unfold check_pattern. apply Forall_app. split.
  - destruct (has_mojibake_remnants pat); by repeat constructor.
  - destruct (Py.contains _ pat); [|done].
    destruct (negb _); by repeat constructor.
Qed.

Lemma raised_by_walk (x : json) :
  Forall (fun e => raised_by e = PatternCheck) (walk x).
Proof.
  induction x as [|b|n|s|l IH|d IH] using json_induction; try done.
  - simpl. induction IH as [|v l Hv _ IHl]; [done|].
    apply Forall_app. by split.
  - simpl. apply Forall_app. split.
    + destruct (Dict.lookup _ d) as [[| | |pat| |]|]; try done.
      apply raised_by_check_pattern.
    + induction IH as [|e d' He _ IHd]; [done|].
      apply Forall_app. by split.
Qed.

Lemma raised_by_process_tokenizer_config (is_dry : bool) (f : file) :
  Forall (fun e => raised_by e = TemplateCheck) (process_tokenizer_config is_dry f).1.2.
Proof.
  unfold process_tokenizer_config.
  destruct f as [|text|cfg_text cfg]; try by repeat constructor.
  destruct cfg as [| | | | |d]; try done.
  destruct (get "chat_template" d); try done.
  by destruct (negb _).
Qed.

(** Every validation error of a run is one its check has raised: an
    error of the remnant scan is in what [scan_for_remnants] returns for
    the repaired document, an error of the pattern check in what
    [verify_regex_payloads] returns for it, an error of the flag check in
    what [validate_flags] returns; the self-test raises none. *)
Lemma finish_errors (r : run) (text : str) (s : repaired) (e : verror) :
  e ∈ errors_of (finish r text s) →
  match raised_by e with
  | RemnantScan => e ∈ scan_for_remnants s
  | FlagCheck => ∃ toks, added_tokens s = Some toks ∧ e ∈ validate_flags toks
  | PatternCheck => e ∈ verify_regex_payloads (tokenizer s)
  | SelfTest => False
  | _ => True
  end.
Proof.
  unfold finish, errors_of.
  destruct (check_ids s); [|by intros ?%elem_of_nil].
  assert (Forall (fun e => raised_by e = BosEosCheck)
            (match special_tokens_map_json r with
             | Some f => check_special_tokens_map (dry r) f
             | None => ([], infer_bos_eos s, [])
             end).1.2) as H5.
  { destruct (special_tokens_map_json r);
      [apply raised_by_check_special_tokens_map|apply raised_by_infer_bos_eos]. }
  destruct (match special_tokens_map_json r with Some f => _ | None => _ end)
    as [[chs5 errs5] writes5].
  destruct (check_vocab _ _) as [errs62|] eqn:E62; [|by intros ?%elem_of_nil].
  apply raised_by_check_vocab in E62.
  assert (Forall (fun e => raised_by e = TemplateCheck)
            (match tokenizer_config_json r with
             | Some f => process_tokenizer_config (dry r) f
             | None => ([], [], [])
             end).1.2) as H8.
  { destruct (tokenizer_config_json r);
      [apply raised_by_process_tokenizer_config|done]. }
  destruct (match tokenizer_config_json r with Some f => _ | None => _ end)
    as [[chs8 errs8] writes8].
  cbn [fst snd] in H5, H8.
  assert ((if dry r then self_test self_test_samples else []) = []) as ->
    by (destruct (dry r); [apply self_test_passes|done]).
  pose proof (raised_by_scan_for_remnants s) as H6.
  pose proof (raised_by_walk (get_or "pre_tokenizer" (JObj (tokenizer s)) (tokenizer s)))
    as H63.
  fold (verify_regex_payloads (tokenizer s)) in H63.
  assert (Forall (fun e => raised_by e = FlagCheck)
            (match added_tokens s with
             | Some toks => validate_flags toks
             | None => []
             end)) as H61
    by (destruct (added_tokens s); [apply raised_by_validate_flags|done]).
  generalize dependent (scan_for_remnants s). intros errs6 H6.
  generalize dependent (verify_regex_payloads (tokenizer s)). intros errs63 H63.
  set (errs61 := match added_tokens s with
                 | Some toks => validate_flags toks
                 | None => []
                 end) in *.
  assert (e ∈ errs5 ++ errs6 ++ errs61 ++ errs62 ++ errs63 ++ [] ++ errs8 →
          match raised_by e with
          | RemnantScan => e ∈ errs6
          | FlagCheck => e ∈ errs61
          | PatternCheck => e ∈ errs63
          | SelfTest => False
          | _ => True
          end) as Hall.
  { rewrite !elem_of_app.
    intros [H|[H|[H|[H|[H|[H|H]]]]]];
      [apply (proj1 (Forall_forall _ _) H5) in H as Hk
      |apply (proj1 (Forall_forall _ _) H6) in H as Hk
      |apply (proj1 (Forall_forall _ _) H61) in H as Hk
      |apply (proj1 (Forall_forall _ _) E62) in H as Hk
      |apply (proj1 (Forall_forall _ _) H63) in H as Hk
      |by apply elem_of_nil in H
      |apply (proj1 (Forall_forall _ _) H8) in H as Hk];
      by rewrite Hk. }
  intros He.
  assert (e ∈ errs5 ++ errs6 ++ errs61 ++ errs62 ++ errs63 ++ [] ++ errs8) as He'.
  { destruct (errs5 ++ errs6 ++ errs61 ++ errs62 ++ errs63 ++ [] ++ errs8);
      [by destruct (dry r); apply elem_of_nil in He|done]. }
  specialize (Hall He'). destruct (raised_by e); try done.
  subst errs61. destruct (added_tokens s) as [toks|]; [by exists toks|].
  by apply elem_of_nil in Hall.
Qed.

Lemma main_errors (r : run) (e : verror) :
  e ∈ errors_of (main r) →
  ∃ text top, tokenizer_json r = Some (Parsed text (JObj top)) ∧
              e ∈ errors_of (finish r text (repair top)).
Proof.
  unfold main. destruct (tokenizer_json r) as [[|text|text [| | | | |top]]|];
    try by intros ?%elem_of_nil.
  - intros He. by exists text, top.
  - destruct (dry r); [|by intros ?%elem_of_nil].
    rewrite self_test_passes. by intros ?%elem_of_nil.
Qed.
(** ** Zero-width characters after the main pass *)

Lemma count_zero_widths_free (c : str) :
  Forall (fun x => x ∉ ZERO_WIDTHS) c → count_zero_widths c = O.
Proof.
  unfold count_zero_widths. induction 1 as [|x c Hx _ IH]; [done|].
  by rewrite filter_cons_False.
Qed.

Lemma tidy_zero_width_free (c : str) :
  Forall tidy c → Forall (fun x => x ∉ ZERO_WIDTHS) c.
Proof. intros H. eapply Forall_impl; [exact H|]. by intros x [? _]. Qed.

(** A repaired content that is in angle brackets has gone through the
    cleaner. *)
Lemma repair_content_clean (before : str) :
  is_angle_bracketed (repair_content before) = true →
  Forall (fun x => x ∉ ZERO_WIDTHS) (repair_content before).
Proof.
  unfold repair_content.
  destruct (is_angle_bracketed (demojibake_and_normalize before)) eqn:E.
  - intros _. apply tidy_zero_width_free, cleanup_tidy.
  - by rewrite E.
Qed.

Lemma scan_string_clean (remnants zero_width : verror) (c : str) :
  is_zero_width_error remnants = false →
  (is_angle_bracketed c = true → Forall (fun x => x ∉ ZERO_WIDTHS) c) →
  Forall (fun e => is_zero_width_error e = false) (scan_string remnants zero_width c).
Proof.
  intros Hr Hc. unfold scan_string. apply Forall_app. split.
  - destruct (has_mojibake_remnants c); by repeat constructor.
  - destruct (is_angle_bracketed c); [|done].
    by rewrite count_zero_widths_free by by apply Hc.
Qed.

Lemma scan_added_token_processed (i idx oid : nat) (tok : json) :
  Forall (fun e => is_zero_width_error e = false)
    (scan_added_token i (oid, (process_added_token idx tok).1)).
Proof.
  unfold scan_added_token. cbn [snd].
  destruct tok as [| | | | |d]; try done.
  destruct (process_added_token_obj idx d) as (d' & -> & _ & _ & Hc).
  destruct (Dict.lookup (Py.lit "content") d) as [v|] eqn:E.
  - destruct v as [| | |before| |];
      try (subst d'; unfold get; rewrite E; done).
    destruct Hc as [-> _]. apply scan_string_clean; [done|apply repair_content_clean].
  - subst d'. unfold get. by rewrite E.
Qed.

Lemma scan_special_entry_processed (i idx : nat) (tok : json) :
  Forall (fun e => is_zero_width_error e = false)
    (scan_special_entry i (process_special_entry idx tok).1).
Proof.
  unfold process_special_entry.
  destruct tok as [| | | | |d]; try done.
  destruct (Dict.lookup (Py.lit "content") d) as [v|] eqn:E; cycle 1.
  { cbn [fst]. unfold scan_special_entry, get. by rewrite E. }
  destruct v as [| | |before| |];
    try (cbn [fst]; unfold scan_special_entry, get; by rewrite E).
  pose proof (repair_content_clean before) as Hclean.
  remember (repair_content before) as after eqn:Hafter.
  destruct (Py.eqb after before) eqn:Eq; cbn [negb fst].
  - apply eqb_eq in Eq as <-. unfold scan_special_entry, get. rewrite E. simpl.
    by apply scan_string_clean.
  - unfold scan_special_entry. rewrite get_set_eq.
    by apply scan_string_clean.
Qed.

Lemma scan_special_key_processed (e : str * json) :
  Forall (fun e => is_zero_width_error e = false)
    (scan_special_key (process_special_key e).1).
Proof.
  unfold process_special_key. destruct e as [k v]. cbn [fst snd].
  destruct v as [| | |before| |]; try done.
  pose proof (repair_content_clean before) as Hclean.
  remember (repair_content before) as after0 eqn:Hafter.
  set (after := if Py.eqb k (Py.lit "bos_token") || Py.eqb k (Py.lit "eos_token")
                then let '(ok, canon) := looks_like_one_of_four_chat_markers after0 in
                     if ok then canon else after0
                else after0).
  assert (is_angle_bracketed after = true → Forall (fun x => x ∉ ZERO_WIDTHS) after)
    as Hafter'.
  { subst after. destruct (_ || _); [|done].
    destruct (looks_cases after0) as [->|[m ->]]; [done|].
    intros _. apply tidy_zero_width_free, tidy_canonical. }
  clearbody after.
  destruct (Py.eqb after before) eqn:Eq; cbn [negb fst].
  - apply eqb_eq in Eq as <-. unfold scan_special_key. simpl.
    by apply scan_string_clean.
  - unfold scan_special_key. simpl. by apply scan_string_clean.
Qed.

(** The special-token field of the repaired document. *)
Lemma st_repair (top : list (str * json)) :
  ∃ st0, st (repair top) = (repair_special_tokens st0).1.
Proof.
  unfold repair.
  destruct (get "added_tokens" top) as [| | | |l|];
    try destruct (repair_added_tokens (tag l)) as [[toks' chs] n];
    match goal with
    | |- context [repair_special_tokens ?x] =>
      exists x; by destruct (repair_special_tokens x)
    end.
Qed.

Lemma scan_for_remnants_repaired (top : list (str * json)) :
  Forall (fun e => is_zero_width_error e = false) (scan_for_remnants (repair top)).
Proof.
  unfold scan_for_remnants. apply Forall_app. split.
  - destruct (repair_added_tokens_field top) as [-> _].
    destruct (get "added_tokens" top) as [| | | |l|]; try done.
    apply Forall_concat_imap. intros i o Ho.
    rewrite repair_added_tokens_list in Ho.
    apply (sublist_subseteq _ _ (dedupe_sublist _ _ _)) in Ho.
    apply process_added_tokens_elem_of in Ho as (idx & tok & ->).
    apply scan_added_token_processed.
  - destruct (st_repair top) as [st0 ->].
    destruct st0 as [| | | |l|d]; try done.
    + cbn [repair_special_tokens fst].
      apply Forall_concat_imap. intros i tok Htok.
      apply list_elem_of_fmap in Htok as (p & -> & Hp).
      apply list_elem_of_lookup in Hp as [j Hj].
      rewrite list_lookup_imap in Hj.
      destruct (l !! j) as [t|]; [|done]. injection Hj as <-.
      apply scan_special_entry_processed.
    + cbn [repair_special_tokens fst].
      apply Forall_concat_map. intros e He.
      apply list_elem_of_fmap in He as (p & -> & Hp).
      apply list_elem_of_fmap in Hp as (e0 & -> & _).
      apply scan_special_key_processed.
Qed.

(** X14. No run reports a zero-width character left in a marker-like
    string.  A content the main pass leaves in angle brackets has gone
    through the cleaner and holds no zero-width character or variation
    selector, so the scan that follows the pass finds none, in
    [added_tokens] and in [special_tokens]; the scan itself reports one
    for every such character of an angle-bracketed string it is given. *)
Theorem zero_width_never_reported :
  (∀ before, is_angle_bracketed (repair_content before) = true →
     Forall (fun x => x ∉ ZERO_WIDTHS) (repair_content before)) ∧
  (∀ top, Forall (fun e => is_zero_width_error e = false)
            (scan_for_remnants (repair top))) ∧
  (∀ r, Forall (fun e => is_zero_width_error e = false) (errors_of (main r))) ∧
  (∀ remnants zero_width c, is_angle_bracketed c = true →
     count_zero_widths c ≠ O → zero_width ∈ scan_string remnants zero_width c).
Proof.
  split_and!.
  - apply repair_content_clean.
  - apply scan_for_remnants_repaired.
  - intros r. apply Forall_forall. intros e He.
    apply main_errors in He as (text & top & _ & He).
    apply finish_errors in He.
    destruct e; try done; simpl in He;
      by apply (proj1 (Forall_forall _ _) (scan_for_remnants_repaired top)) in He.
  - intros remnants zero_width c Hc Hn. unfold scan_string. rewrite Hc.
    apply elem_of_app. right.
    destruct (count_zero_widths c); [done|]. apply list_elem_of_here.
Qed.

Lemma zero_width_never_reported_witness :
  let c := [0x3C; 0x200B; 0x3E] in
  is_angle_bracketed (repair_content c) = true ∧
  Forall (fun x => x ∉ ZERO_WIDTHS) (repair_content c) ∧
  EAddedZeroWidth O JNull c
    ∈ scan_string (EAddedRemnants O JNull c) (EAddedZeroWidth O JNull c) c.
Proof.
  intros c. destruct zero_width_never_reported as (H1 & _ & _ & H4).
  assert (is_angle_bracketed (repair_content c) = true) as Hb
    by (vm_compute; reflexivity).
  split_and!; [exact Hb|exact (H1 c Hb)|].
  apply H4; [reflexivity|]. vm_compute. discriminate.
Defined.
(** ** The patterns of the pre-tokenizer *)

Lemma elem_of_concat {A} (x : A) (ls : list (list A)) :
  x ∈ concat ls ↔ ∃ l, l ∈ ls ∧ x ∈ l.
Proof.
  induction ls as [|l ls IH]; simpl.
  - split; [by intros ?%elem_of_nil|]. by intros (l & ?%elem_of_nil & _).
  - rewrite elem_of_app, IH. split.
    + intros [H|(l' & H1 & H2)].
      * exists l. split; [apply list_elem_of_here|done].
      * exists l'. split; [by apply list_elem_of_further|done].
    + intros (l' & [->|H1]%elem_of_cons & H2); [by left|right; by exists l'].
Qed.

Lemma contains_spec (sub s : str) :
  Py.contains sub s = true ↔ ∃ pre post, s = pre ++ sub ++ post.
Proof.
  split.
  - induction s as [|c s IH]; cbn [Py.contains].
    + rewrite orb_false_r. intros [r Hr]%startswith_spec. by exists [], r.
    + intros [[r Hr]%startswith_spec|H]%orb_prop.
      * by exists [], r.
      * destruct (IH H) as (pre & post & ->). by exists (c :: pre), post.
  - intros (pre & post & ->). induction pre as [|c pre IH].
    + simpl. destruct (sub ++ post) eqn:E; cbn [Py.contains];
        rewrite <- E, startswith_app; done.
    + cbn [app Py.contains]. by rewrite IH, orb_true_r.
Qed.

(** Serialization doubles the backslash of [\p{]. *)
Lemma json_dumps_str_escapes (pat : str) :
  Py.contains (Py.lit "\p{") pat = true →
  Py.contains (Py.lit "\\p{") (json_dumps_str pat) = true.
Proof.
  intros (pre & post & ->)%contains_spec. apply contains_spec.
  unfold json_dumps_str.
  exists ([0x22] ++ flat_map escape_char pre), (flat_map escape_char post ++ [0x22]).
  rewrite !flat_map_app, <- !app_assoc. do 2 f_equal.
Qed.

Lemma check_pattern_remnants (pat : str) :
  check_pattern pat = if has_mojibake_remnants pat then [ERegexRemnants pat] else [].
Proof.
  unfold check_pattern.
  destruct (Py.contains (Py.lit "\p{") pat) eqn:E; [|by rewrite app_nil_r].
  by rewrite json_dumps_str_escapes, app_nil_r.
Qed.

Lemma walk_arr (l : list json) : walk (JArr l) = concat (map walk l).
Proof. simpl. induction l as [|v l IH]; [done|]. simpl. by rewrite IH. Qed.

Lemma walk_obj (d : list (str * json)) :
  walk (JObj d) =
  match Dict.lookup (Py.lit "pattern") d with
  | Some (JStr pat) => check_pattern pat
  | _ => []
  end ++ concat (map (fun e => walk e.2) d).
Proof.
  cbn [walk]. f_equal. induction d as [|e d IH]; [done|]. simpl. by rewrite IH.
Qed.

Lemma walk_inside (x : json) (e : verror) :
  e ∈ walk x ↔
  ∃ d pat, inside (JObj d) x ∧ Dict.lookup (Py.lit "pattern") d = Some (JStr pat) ∧
           has_mojibake_remnants pat = true ∧ e = ERegexRemnants pat.
Proof.
  split.
  - revert e. induction x as [|b|n|s|l IH|d IH] using json_induction; intros e;
      try by intros ?%elem_of_nil.
    + rewrite walk_arr. intros (errs & Herrs & He)%elem_of_concat.
      apply list_elem_of_fmap in Herrs as (v & -> & Hv).
      destruct (proj1 (Forall_forall _ _) IH v Hv e He) as (d & pat & Hin & H).
      exists d, pat. split; [|done]. by eapply inside_element.
    + rewrite walk_obj. intros [He|He]%elem_of_app.
      * destruct (Dict.lookup (Py.lit "pattern") d) as [[| | |pat| |]|] eqn:E;
          try by apply elem_of_nil in He.
        rewrite check_pattern_remnants in He.
        destruct (has_mojibake_remnants pat) eqn:Hr; [|by apply elem_of_nil in He].
        apply list_elem_of_singleton in He as ->.
        exists d, pat. split_and!; try done. apply inside_here.
      * apply elem_of_concat in He as (errs & Herrs & He).
        apply list_elem_of_fmap in Herrs as (e0 & -> & He0).
        destruct (proj1 (Forall_forall _ _) IH e0 He0 e He) as (d' & pat & Hin & H).
        exists d', pat. split; [|done]. by eapply inside_value.
  - intros (d & pat & Hin & Hl & Hr & ->).
    remember (JObj d) as y eqn:Hy.
    induction Hin as [y|y v l Hv Hin IH|y e0 d0 He0 Hin IH].
    + subst y. rewrite walk_obj, Hl, check_pattern_remnants, Hr.
      apply elem_of_app. left. apply list_elem_of_here.
    + rewrite walk_arr. apply elem_of_concat. exists (walk v).
      split; [|by apply IH]. apply list_elem_of_fmap. by exists v.
    + rewrite walk_obj. apply elem_of_app. right.
      apply elem_of_concat. exists (walk e0.2).
      split; [|by apply IH]. apply list_elem_of_fmap. by exists e0.
Qed.

(** X15. The pattern check reports exactly the patterns that hold a
    mojibake literal: one error for every dictionary, at any depth of the
    [pre_tokenizer] field (of the whole document when it has no such
    field), whose [pattern] is such a string.  Its second test never
    fires, since serialization always doubles the backslash of [\p{]; no
    run reports a pattern that may lose its escapes. *)
Theorem verify_regex_payloads_reports :
  (∀ obj e,
     e ∈ verify_regex_payloads obj ↔
     ∃ d pat,
       inside (JObj d) (default (JObj obj) (Dict.lookup (Py.lit "pre_tokenizer") obj)) ∧
       Dict.lookup (Py.lit "pattern") d = Some (JStr pat) ∧
       has_mojibake_remnants pat = true ∧ e = ERegexRemnants pat) ∧
  (∀ pat, check_pattern pat
          = if has_mojibake_remnants pat then [ERegexRemnants pat] else []) ∧
  (∀ r pat, ERegexEscapes pat ∉ errors_of (main r)).
Proof.
  split_and!.
  - intros obj e. unfold verify_regex_payloads, get_or. apply walk_inside.
  - apply check_pattern_remnants.
  - intros r pat He.
    apply main_errors in He as (text & top & _ & He).
    apply finish_errors in He. simpl in He.
    unfold verify_regex_payloads in He.
    by apply walk_inside in He as (d & p & _ & _ & _ & ?).
Qed.
(** ** The sequence markers of a document without a special-token map *)











(** ** What a run writes *)





